(** * SPECTACLE camera calibration: metadata model, calibration pipeline and
      ISO look-up table

    A shallow embedding of [spectacle/metadata.py], [spectacle/calibrate.py]
    and [calibration/iso_normalisation.py], with the properties stated about
    them.

    Conventions.  A numpy array is a shape together with its elements in
    row-major order.  A Python exception is a value of [exn]; a call that may
    raise returns a [result].  Array elements of the pipeline are kept
    abstract (a type with its subtraction, product and quotient), so that no
    statement depends on the rounding of binary floating point; the worked
    example instantiates them with exact rationals. *)

From Stdlib Require Import ZArith QArith Qcanon List String Ascii Lia ZifyNat.
From stdpp Require Import base option list strings gmap.

Close Scope Q_scope.
Local Open Scope nat_scope.
Local Open Scope string_scope.
Local Open Scope list_scope.
Set Default Proof Using "Type".

(** ** Exceptions and results *)

Inductive exn : Type :=
  (* raised by Python and numpy *)
  | TypeError
  | ValueError
  | IndexError
  | OverflowError
  | AssertionError
  | FileNotFoundError
  | AxisError
  | SystemError
  (* error kinds named by the specification *)
  | ConfigurationError
  | CalibrationNotFoundError (kind camera : string)
  | InsufficientCalibrationDataError
  | ShapeMismatchError
  | NumericalFitError.

#[global] Instance exn_eq_dec : EqDecision exn.
Proof. solve_decision. Defined.

Inductive result (A : Type) : Type :=
  | Ok (a : A)
  | Raise (e : exn).
Arguments Ok {A} a.
Arguments Raise {A} e.

#[global] Instance result_ret : MRet result := fun A a => Ok a.
#[global] Instance result_bind : MBind result := fun A B f m =>
  match m with
  | Ok a => f a
  | Raise e => Raise e
  end.

Definition is_Ok {A} (r : result A) : Prop := exists a, r = Ok a.

(** [o] or, when there is nothing, the exception [e]. *)
Definition or_raise {A} (e : exn) (o : option A) : result A :=
  match o with
  | Some a => Ok a
  | None => Raise e
  end.

(** ** numpy arrays *)

Record ndarray (A : Type) : Type := NdArray {
  shape : list nat;
  data : list A
}.
Arguments NdArray {A} shape data.
Arguments shape {A} _.
Arguments data {A} _.

(** Number of elements of an array of shape [s]. *)
Definition shape_size (s : list nat) : nat := foldr Nat.mul 1 s.

(** A Python scalar used as an operand behaves as a 0-dimensional array. *)
Definition scalar {A} (x : A) : ndarray A := NdArray [] [x].

(** [np.full(s, x)]. *)
Definition np_full {A} (s : list nat) (x : A) : ndarray A :=
  NdArray s (replicate (shape_size s) x).

(** Element at row [r], column [c] of a 2-dimensional array. *)
Definition item2 {A} (a : ndarray A) (r c : nat) : option A :=
  match shape a with
  | [h; w] => if bool_decide (r < h /\ c < w) then data a !! (r * w + c) else None
  | _ => None
  end.

(** *** Broadcasting

    Shapes are aligned on their last axis; two extents are compatible when
    they are equal or one of them is 1.  The functions below work on the
    reversed shapes, last axis first. *)
Fixpoint broadcast_rev (s1 s2 : list nat) : option (list nat) :=
  match s1, s2 with
  | [], s => Some s
  | s, [] => Some s
  | a :: s1', b :: s2' =>
      d ← (if bool_decide (a = b) then Some a
           else if bool_decide (a = 1) then Some b
           else if bool_decide (b = 1) then Some a
           else None);
      s ← broadcast_rev s1' s2';
      Some (d :: s)
  end.

Definition broadcast_shapes (s1 s2 : list nat) : option (list nat) :=
  reverse <$> broadcast_rev (reverse s1) (reverse s2).

(** Position, in an operand of reversed shape [rsi], of the element that is
    used at position [p] of the result of reversed shape [rs]. *)
Fixpoint source_index (rs rsi : list nat) (p : nat) : nat :=
  match rs, rsi with
  | d :: rs', di :: rsi' =>
      (if bool_decide (di = 1) then 0 else p mod d)
      + di * source_index rs' rsi' (p / d)
  | _, _ => 0
  end.

Section Binop.
Context {A : Type} (dflt : A) (f : A -> A -> A).

(** [a <op> b] on arrays: a new array, or numpy's [ValueError] ("operands
    could not be broadcast together"). *)
Definition np_binop (a b : ndarray A) : result (ndarray A) :=
  match broadcast_shapes (shape a) (shape b) with
  | None => Raise ValueError
  | Some s =>
      let rs := reverse s in
      Ok (NdArray s
            (map (fun p =>
                    f (nth (source_index rs (reverse (shape a)) p) (data a) dflt)
                      (nth (source_index rs (reverse (shape b)) p) (data b) dflt))
                 (seq 0 (shape_size s))))
  end.
End Binop.

(** ** Camera metadata ([spectacle/metadata.py]) *)

(** Values found in the metadata records: JSON numbers, strings (ASCII),
    lists of integers (the image shape) and lists of rows of integers (the
    Bayer pattern).  The empty JSON list is [VList []]. *)
Inductive value : Type :=
  | VInt (n : Z)
  | VFloat (q : Q)
  | VStr (s : string)
  | VList (l : list Z)
  | VTable (t : list (list Z)).

(** A Python [dict] with string keys, in insertion order. *)
Definition dict (V : Type) : Type := list (string * V).

Definition dict_get {V} (d : dict V) (k : string) : option V :=
  snd <$> List.find (fun kv => bool_decide (kv.1 = k)) d.

Definition dict_keys {V} (d : dict V) : list string := d.*1.
Definition dict_values {V} (d : dict V) : list V := d.*2.

Record Device : Type := mkDevice {
  manufacturer : value;
  name : value
}.

Record Image : Type := mkImage {
  image_shape : value;
  raw_extension : value;
  bias : value;
  bayer_pattern : value;
  bit_depth : value
}.

Record Settings : Type := mkSettings {
  ISO_min : value;
  ISO_max : value;
  exposure_min : value;
  exposure_max : value
}.

Definition Device_fields : list string := ["manufacturer"; "name"].
Definition Image_fields : list string :=
  ["shape"; "raw_extension"; "bias"; "bayer_pattern"; "bit_depth"].
Definition Settings_fields : list string :=
  ["ISO_min"; "ISO_max"; "exposure_min"; "exposure_max"].

(** Calling a namedtuple class with [**kw]: a keyword that is not a field is
    a [TypeError], and so is a field without a keyword. *)
Definition no_unexpected_keyword (fields : list string) (kw : dict value)
  : result unit :=
  if forallb (fun k => bool_decide (k ∈ fields)) (dict_keys kw)
  then Ok tt else Raise TypeError.

Definition keyword (kw : dict value) (field : string) : result value :=
  or_raise TypeError (dict_get kw field).

Definition Device_new (kw : dict value) : result Device :=
  _ ← no_unexpected_keyword Device_fields kw;
  manufacturer ← keyword kw "manufacturer";
  name ← keyword kw "name";
  Ok (mkDevice manufacturer name).

Definition Image_new (kw : dict value) : result Image :=
  _ ← no_unexpected_keyword Image_fields kw;
  shape ← keyword kw "shape";
  raw_extension ← keyword kw "raw_extension";
  bias ← keyword kw "bias";
  bayer_pattern ← keyword kw "bayer_pattern";
  bit_depth ← keyword kw "bit_depth";
  Ok (mkImage shape raw_extension bias bayer_pattern bit_depth).

Definition Settings_new (kw : dict value) : result Settings :=
  _ ← no_unexpected_keyword Settings_fields kw;
  ISO_min ← keyword kw "ISO_min";
  ISO_max ← keyword kw "ISO_max";
  exposure_min ← keyword kw "exposure_min";
  exposure_max ← keyword kw "exposure_max";
  Ok (mkSettings ISO_min ISO_max exposure_min exposure_max).

(** The largest number of axes of an array: 64 from numpy 2.0 on (32
    before it). *)
Definition NPY_MAXDIMS : nat := 64.

(** [np.zeros(shape, dtype=int)].  An integer is a 1-dimensional shape, a
    list of integers an n-dimensional one; a negative extent is a
    [ValueError], and so are more than [NPY_MAXDIMS] axes; anything that is
    not an integer is a [TypeError].  A string is a sequence of its
    characters, so only the empty one gets through, as the empty shape.  The
    size of the array is not limited here: numpy raises [ValueError] for an
    array of [2 ** 63] bytes or more and [MemoryError] for one that the
    machine cannot hold. *)
Definition np_zeros (s : value) : result (ndarray Z) :=
  match s with
  | VInt n =>
      if bool_decide (n < 0)%Z then Raise ValueError
      else Ok (np_full [Z.to_nat n] 0%Z)
  | VList l =>
      if bool_decide (length l <= NPY_MAXDIMS)
         && forallb (fun n => bool_decide (0 <= n)%Z) l
      then Ok (np_full (Z.to_nat <$> l) 0%Z)
      else Raise ValueError
  | VTable [] | VStr "" => Ok (np_full [] 0%Z)
  | VFloat _ | VStr _ | VTable _ => Raise TypeError
  end.

(** What [pattern[i][j]] can be: an integer, or a one-character string. *)
Inductive cell : Type :=
  | CInt (n : Z)
  | CChar (c : ascii).

(** [pattern[i][j]]. *)
Definition subscript2 (pattern : value) (i j : nat) : result cell :=
  match pattern with
  | VTable t =>
      row ← or_raise IndexError (t !! i);
      n ← or_raise IndexError (row !! j);
      Ok (CInt n)
  | VList l =>
      _ ← or_raise IndexError (l !! i);
      Raise TypeError
  | VStr s =>
      c ← or_raise IndexError (String.get i s);
      if bool_decide (j = 0) then Ok (CChar c) else Raise IndexError
  | VInt _ | VFloat _ => Raise TypeError
  end.

Definition is_digit (c : ascii) : bool :=
  ((48 <=? nat_of_ascii c) && (nat_of_ascii c <=? 57))%nat.

(** Storing a Python value in an array of 64-bit integers. *)
Definition to_int64 (v : cell) : result Z :=
  match v with
  | CInt n =>
      if bool_decide (- 2 ^ 63 <= n < 2 ^ 63)%Z then Ok n
      else Raise OverflowError
  | CChar c =>
      if is_digit c then Ok (Z.of_nat (nat_of_ascii c - 48)%nat)
      else Raise ValueError
  end.

(** [a[r0::2, c0::2] = v]: every element whose first index is [r0] modulo 2
    and whose second index is [c0] modulo 2 becomes [v].  Fewer than two
    axes is an [IndexError]. *)
Definition setitem_step2 (a : ndarray Z) (r0 c0 : nat) (v : cell)
  : result (ndarray Z) :=
  match shape a with
  | d0 :: d1 :: rest =>
      n ← to_int64 v;
      let inner := shape_size rest in
      Ok (NdArray (shape a)
            (imap (fun p x =>
                     if bool_decide ((p / (d1 * inner)) mod 2 = r0)
                        && bool_decide (((p / inner) mod d1) mod 2 = c0)
                     then n else x)
                  (data a)))
  | _ => Raise IndexError
  end.

(** [Camera.generate_bayer_map].  In each assignment the right-hand side is
    evaluated before the array is indexed. *)
Definition generate_bayer_map (image : Image) : result (ndarray Z) :=
  bayer_map ← np_zeros (image_shape image);
  v ← subscript2 (bayer_pattern image) 0 0;
  bayer_map ← setitem_step2 bayer_map 0 0 v;
  v ← subscript2 (bayer_pattern image) 0 1;
  bayer_map ← setitem_step2 bayer_map 0 1 v;
  v ← subscript2 (bayer_pattern image) 1 0;
  bayer_map ← setitem_step2 bayer_map 1 0 v;
  v ← subscript2 (bayer_pattern image) 1 1;
  bayer_map ← setitem_step2 bayer_map 1 1 v;
  Ok bayer_map.

Record Camera : Type := mkCamera {
  device : Device;
  image : Image;
  settings : Settings;
  bayer_map : ndarray Z
}.

(** [Camera.__init__]. *)
Definition Camera_init (device_properties image_properties settings : dict value)
  : result Camera :=
  device ← Device_new device_properties;
  image ← Image_new image_properties;
  settings ← Settings_new settings;
  bayer_map ← generate_bayer_map image;
  Ok (mkCamera device image settings bayer_map).

(** [Camera.read_from_file], on the dictionary that [load_json] returned:
    the values are unpacked into exactly three names, in the order of the
    dictionary. *)
Definition read_from_file (full_dictionary : dict (dict value)) : result Camera :=
  match dict_values full_dictionary with
  | [device_properties; image_properties; settings] =>
      Camera_init device_properties image_properties settings
  | _ => Raise ValueError
  end.

(** ** The calibration pipeline ([spectacle/calibrate.py]) *)

(** Python objects that [normalise_iso] may receive as [iso_values]. *)
Inductive iso_value (T : Type) : Type :=
  | PyInt (n : Z)              (* int *)
  | PyBool (b : bool)          (* bool, a subclass of int *)
  | PyFloat (x : T)            (* float *)
  | NumpyFloat64 (x : T)       (* numpy.float64, a subclass of float *)
  | NumpyInteger (n : Z)       (* numpy.int64 and the other numpy integers *)
  | PyList (l : list Z)        (* list of per-frame values *)
  | NumpyArray (l : list Z).   (* 1-dimensional array of per-frame values *)
Arguments PyInt {T} n.
Arguments PyBool {T} b.
Arguments PyFloat {T} x.
Arguments NumpyFloat64 {T} x.
Arguments NumpyInteger {T} n.
Arguments PyList {T} l.
Arguments NumpyArray {T} l.

(** [isinstance(iso_values, (int, float))]. *)
Definition isinstance_int_float {T} (v : iso_value T) : bool :=
  match v with
  | PyInt _ | PyBool _ | PyFloat _ | NumpyFloat64 _ => true
  | NumpyInteger _ | PyList _ | NumpyArray _ => false
  end.

(** A single number, as opposed to a sequence of per-frame values. *)
Definition is_single_number {T} (v : iso_value T) : bool :=
  match v with
  | PyInt _ | PyBool _ | PyFloat _ | NumpyFloat64 _ | NumpyInteger _ => true
  | PyList _ | NumpyArray _ => false
  end.

Definition is_FileNotFoundError (e : exn) : bool :=
  bool_decide (e = FileNotFoundError).

Section Pipeline.
Context {T : Type}.

(** *** Arrays as objects

    The arrays of a run live in a heap; a variable holds a location.  An
    array operator reads its operands and allocates its result. *)
Definition loc : Type := nat.
Definition heap : Type := list (ndarray T).
Definition Py (A : Type) : Type := heap -> result A * heap.

#[global] Instance Py_ret : MRet Py := fun A a h => (Ok a, h).
#[global] Instance Py_bind : MBind Py := fun A B f m h =>
  match m h with
  | (Ok a, h') => f a h'
  | (Raise e, h') => (Raise e, h')
  end.

Definition raise {A} (e : exn) : Py A := fun h => (Raise e, h).

(** The array behind a reference.  A running program holds no reference
    to an object that does not exist; the model answers [SystemError]. *)
Definition read (l : loc) : Py (ndarray T) := fun h =>
  match h !! l with
  | Some a => (Ok a, h)
  | None => (Raise SystemError, h)
  end.

Definition new (a : ndarray T) : Py loc := fun h => (Ok (length h), h ++ [a]).

(** An array that a pure computation produced, as a new object. *)
Definition new_from (r : result (ndarray T)) : Py loc :=
  match r with
  | Ok a => new a
  | Raise e => raise e
  end.

(** [try: m  except <handled>: handler]. *)
Definition try_except {A} (m : Py A) (handled : exn -> bool) (handler : Py A)
  : Py A := fun h =>
  match m h with
  | (Raise e, h') => if handled e then handler h' else (Raise e, h')
  | ok => ok
  end.

(** An operand of an array operator: an array or a Python number. *)
Inductive operand : Type :=
  | Ref (l : loc)
  | Num (x : T).

Definition operand_array (o : operand) : Py (ndarray T) :=
  match o with
  | Ref l => read l
  | Num x => mret (scalar x)
  end.

Context (zero : T) (tsub tmul tdiv : T -> T -> T).

Definition array_op (f : T -> T -> T) (a b : operand) : Py loc :=
  x ← operand_array a;
  y ← operand_array b;
  new_from (np_binop zero f x y).

(** *** The SPECTACLE functions that [calibrate.py] imports

    [bias_readnoise], [dark], [flat], [gain] and [iso] are not under src/;
    the pipeline is stated over any implementation of them.  A loader
    sees the root folder only and yields the content of a file or raises;
    the functions that receive the data run on the heap. *)
Record Spectacle : Type := {
  load_bias_map : string -> result (ndarray T);
  load_bias_metadata : string -> result (ndarray T);
  load_dark_current_map : string -> result (ndarray T);
  load_iso_lookup_table : string -> result (ndarray T);
  load_gain_map : string -> result (ndarray T);
  load_flat_field_correction_map : string -> result (ndarray T);
  clip_data : loc -> Py loc;
  normalise_single_iso : loc -> iso_value T -> loc -> Py loc;
  normalise_multiple_iso : loc -> iso_value T -> loc -> Py loc
}.

Context (spectacle : Spectacle).

Definition correct_bias (root : string) (data : loc) : Py loc :=
  bias ← try_except (new_from (load_bias_map spectacle root))
                    is_FileNotFoundError
                    (new_from (load_bias_metadata spectacle root));
  data_corrected ← array_op tsub (Ref data) (Ref bias);
  mret data_corrected.

Definition correct_dark_current (root : string) (data : loc)
    (exposure_time : operand) : Py loc :=
  dark_current ← new_from (load_dark_current_map spectacle root);
  dark_total ← array_op tmul (Ref dark_current) exposure_time;
  data_corrected ← array_op tsub (Ref data) (Ref dark_total);
  mret data_corrected.

Definition normalise_iso (root : string) (data : loc)
    (iso_values : iso_value T) : Py loc :=
  lookup_table ← new_from (load_iso_lookup_table spectacle root);
  data_normalised ←
    (if isinstance_int_float iso_values
     then normalise_single_iso spectacle data iso_values lookup_table
     else normalise_multiple_iso spectacle data iso_values lookup_table);
  mret data_normalised.

Definition convert_to_photoelectrons (root : string) (data : loc) : Py loc :=
  gain_map ← new_from (load_gain_map spectacle root);
  data_converted ← array_op tdiv (Ref data) (Ref gain_map);
  mret data_converted.

Definition correct_flatfield (root : string) (data : loc) : Py loc :=
  correction_map ← new_from (load_flat_field_correction_map spectacle root);
  data_clipped ← clip_data spectacle data;
  data_corrected ← array_op tmul (Ref data_clipped) (Ref correction_map);
  mret data_corrected.

(** The five stages, in the order of the correction chain. *)
Inductive stage : Type :=
  | BiasCorrection
  | DarkCurrentCorrection (exposure_time : operand)
  | FlatFieldCorrection
  | IsoNormalisation (iso_values : iso_value T)
  | GainConversion.

Definition run_stage (st : stage) (root : string) (data : loc) : Py loc :=
  match st with
  | BiasCorrection => correct_bias root data
  | DarkCurrentCorrection exposure_time =>
      correct_dark_current root data exposure_time
  | FlatFieldCorrection => correct_flatfield root data
  | IsoNormalisation iso_values => normalise_iso root data iso_values
  | GainConversion => convert_to_photoelectrons root data
  end.
End Pipeline.

(** *** An implementation of the imported functions *)

(** The calibration products that the five stages load, and the names by
    which an error reports them. *)
Inductive calibration_kind : Type :=
  | Bias
  | DarkCurrent
  | FlatField
  | IsoLookupTable
  | Gain.

Definition kind_name (k : calibration_kind) : string :=
  match k with
  | Bias => "bias"
  | DarkCurrent => "dark current"
  | FlatField => "flat field"
  | IsoLookupTable => "ISO look-up table"
  | Gain => "gain"
  end.

(** The kinds for which the spec has a scalar fallback in the metadata. *)
Definition admits_fallback (k : calibration_kind) : bool :=
  match k with
  | Bias | Gain => true
  | DarkCurrent | FlatField | IsoLookupTable => false
  end.

Section Implementation.
Context {T : Type} (zero : T) (tdiv : T -> T -> T).

(** [a[k]]: the sub-array at index [k] of the first axis. *)
Definition getitem0 (a : ndarray T) (k : nat) : result (ndarray T) :=
  match shape a with
  | d0 :: rest =>
      if bool_decide (k < d0)
      then Ok (NdArray rest
                 (take (shape_size rest) (drop (k * shape_size rest) (data a))))
      else Raise IndexError
  | [] => Raise IndexError
  end.

(** Modelled from the spec: [flat.clip_data] is not under src/.  The spec
    has the data clipped to the valid region of the correction map, the
    outer border pixels excluded: [border] rows and [border] columns are
    left out on each side.  An array with fewer than two axes cannot be
    sliced along two. *)
Definition clipped (border : nat) (a : ndarray T) : result (ndarray T) :=
  match shape a with
  | d0 :: d1 :: rest =>
      let inner := shape_size rest in
      Ok (NdArray ((d0 - 2 * border) :: (d1 - 2 * border) :: rest)
            ((filter (fun px =>
                        border <= px.1 / (d1 * inner) < d0 - border
                        /\ border <= (px.1 / inner) mod d1 < d1 - border)
                     (imap pair (data a))).*2))
  | _ => Raise IndexError
  end.

Definition spec_clip_data (border : nat) (data : loc) : Py loc :=
  a ← read data;
  new_from (clipped border a).

(** Modelled from the spec: [iso.normalise_single_iso] and
    [iso.normalise_multiple_iso] are not under src/.  The spec divides the
    data by the normalisation factor looked up for the ISO speed, one
    factor for the whole array or one per frame.  The table has a row
    (ISO speed, factor) for each ISO speed from 0, as
    [iso_normalisation.py] writes it; only an integer ISO speed has a row. *)
Definition iso_index (v : iso_value T) : result Z :=
  match v with
  | PyInt n | NumpyInteger n => Ok n
  | PyBool b => Ok (if b then 1 else 0)%Z
  | PyFloat _ | NumpyFloat64 _ => Raise IndexError
  | PyList _ | NumpyArray _ => Raise TypeError
  end.

Definition lookup_factor (table : ndarray T) (iso : Z) : result T :=
  match shape table with
  | [n; 2] =>
      if bool_decide (0 <= iso)%Z
      then or_raise IndexError (data table !! (2 * Z.to_nat iso + 1))
      else Raise IndexError
  | _ => Raise IndexError
  end.

Definition spec_normalise_single_iso (data : loc) (iso : iso_value T)
    (lookup_table : loc) : Py loc :=
  a ← read data;
  table ← read lookup_table;
  new_from (i ← iso_index iso;
            normalisation ← lookup_factor table i;
            np_binop zero tdiv a (scalar normalisation)).

Definition per_frame (v : iso_value T) : result (list Z) :=
  match v with
  | PyList l | NumpyArray l => Ok l
  | _ => Raise TypeError
  end.

Fixpoint normalised_frames (a table : ndarray T) (k : nat) (isos : list Z)
  : result (list (ndarray T)) :=
  match isos with
  | [] => Ok []
  | iso :: isos' =>
      match getitem0 a k with
      | Raise _ => Ok []
      | Ok data_sub =>
          normalisation ← lookup_factor table iso;
          frame ← np_binop zero tdiv data_sub (scalar normalisation);
          frames ← normalised_frames a table (S k) isos';
          Ok (frame :: frames)
      end
  end.

(** [np.array(frames)], the frames having shape [frame_shape]. *)
Definition np_array (frame_shape : list nat) (frames : list (ndarray T))
  : ndarray T :=
  NdArray (length frames :: frame_shape) (concat (data <$> frames)).

Definition spec_normalise_multiple_iso (data : loc) (isos : iso_value T)
    (lookup_table : loc) : Py loc :=
  a ← read data;
  table ← read lookup_table;
  new_from (l ← per_frame isos;
            frames ← normalised_frames a table 0 l;
            Ok (np_array (tail (shape a)) frames)).

(** The calibration products of a camera, as files that may be missing,
    and the bias level and the gain of its [info.json]. *)
Record products : Type := {
  bias_map_npy : option (ndarray T);
  info_json_bias : option T;
  dark_current_npy : option (ndarray T);
  iso_lookup_table_npy : option (ndarray T);
  gain_map_npy : option (ndarray T);
  flat_field_npy : option (ndarray T);
  info_json_gain : option T
}.

(** The precomputed map file of a kind, and the value that the metadata
    has for it. *)
Definition map_file (p : products) (k : calibration_kind)
  : option (ndarray T) :=
  match k with
  | Bias => bias_map_npy p
  | DarkCurrent => dark_current_npy p
  | FlatField => flat_field_npy p
  | IsoLookupTable => iso_lookup_table_npy p
  | Gain => gain_map_npy p
  end.

Definition metadata_value (p : products) (k : calibration_kind) : option T :=
  match k with
  | Bias => info_json_bias p
  | Gain => info_json_gain p
  | DarkCurrent | FlatField | IsoLookupTable => None
  end.

(** Modelled from the spec: the loaders of [bias_readnoise], [dark],
    [flat], [gain] and [iso] are not under src/.  The spec has
    [load(camera, kind)] search (a) the precomputed map file of the camera
    and kind; (b) if it is not found and the kind admits a scalar fallback
    (bias, gain), a value derived from the camera metadata; (c) otherwise
    fail with [CalibrationNotFoundError], naming the missing kind and the
    camera.  The camera is named by its root folder.  [spec_fallback] is
    steps (b) and (c). *)
Definition spec_fallback (files : string -> products) (k : calibration_kind)
    (camera : string) : result (ndarray T) :=
  match (if admits_fallback k then metadata_value (files camera) k
         else None) with
  | Some v => Ok (scalar v)
  | None => Raise (CalibrationNotFoundError (kind_name k) camera)
  end.

(** Modelled from the spec: the whole search of [load(camera, kind)],
    step (a) and then [spec_fallback]. *)
Definition spec_load (files : string -> products) (k : calibration_kind)
    (camera : string) : result (ndarray T) :=
  match map_file (files camera) k with
  | Some m => Ok m
  | None => spec_fallback files k camera
  end.

(** The content of a file, or [FileNotFoundError] when the file is
    missing: the exception that [correct_bias] handles around
    [load_bias_map]. *)
Definition from_file {A} (file : option A) : result A :=
  or_raise FileNotFoundError file.

(** Modelled from the spec: the loaders that [calibrate.py] calls are not
    under src/.  Each is the search of the spec at its kind.  For the bias
    [calibrate.py] calls two loaders and goes from the first to the second
    itself, in [correct_bias]: [load_bias_map] is step (a) alone, which
    fails with the [FileNotFoundError] that [correct_bias] handles, and
    [load_bias_metadata] is steps (b) and (c). *)
Definition file_spectacle (border : nat) (files : string -> products)
  : Spectacle (T := T) := {|
  load_bias_map root := from_file (bias_map_npy (files root));
  load_bias_metadata root := spec_fallback files Bias root;
  load_dark_current_map root := spec_load files DarkCurrent root;
  load_iso_lookup_table root := spec_load files IsoLookupTable root;
  load_gain_map root := spec_load files Gain root;
  load_flat_field_correction_map root := spec_load files FlatField root;
  clip_data := spec_clip_data border;
  normalise_single_iso := spec_normalise_single_iso;
  normalise_multiple_iso := spec_normalise_multiple_iso
|}.
End Implementation.

(** Exact rational arithmetic, results in lowest terms. *)
Definition qsub (x y : Q) : Q := Qred (x - y).
Definition qmul (x y : Q) : Q := Qred (x * y).
Definition qdiv (x y : Q) : Q := Qred (x / y).

(** ** The ISO normalisation script ([calibration/iso_normalisation.py]) *)

Fixpoint list_min (l : list Z) : option Z :=
  match l with
  | [] => None
  | x :: l' => Some (from_option (Z.min x) x (list_min l'))
  end.

(** [isos.min()] and [isos.argmin()]; an empty array has no minimum. *)
Definition np_min (isos : list Z) : result Z :=
  or_raise ValueError (list_min isos).

Definition np_argmin (isos : list Z) : result nat :=
  m ← np_min isos;
  or_raise ValueError (fst <$> list_find (fun x => x = m) isos).

(** [np.arange(0, stop, 1)]. *)
Definition np_arange (stop : Z) : list Z :=
  Z.of_nat <$> seq 0 (Z.to_nat stop).

Definition assert (b : bool) : result unit :=
  if b then Ok tt else Raise AssertionError.

Section IsoNormalisation.
Context {T : Type} (zero : T) (tdiv : T -> T -> T).
(** [numpy.mean] and [numpy.std] of a list of numbers. *)
Context (np_mean np_std : list T -> T).

(** [a.<agg>(axis=(1, 2))]. *)
Definition reduce_axes_1_2 (agg : list T -> T) (a : ndarray T)
  : result (ndarray T) :=
  match shape a with
  | n :: h :: w :: rest =>
      let inner := shape_size rest in
      Ok (NdArray (n :: rest)
            (map (fun q =>
                    agg (map (fun hw =>
                                nth ((q / inner) * (h * w * inner)
                                     + hw * inner + q mod inner)
                                    (data a) zero)
                             (seq 0 (h * w))))
                 (seq 0 (n * inner))))
  | _ => Raise AxisError
  end.

(** What [iso.fit_iso_normalisation_relation] returns. *)
Record iso_fit : Type := {
  model_type : string;
  model : Z -> T;
  R2 : T;
  parameters : list T;
  errors : list T
}.

(** The camera object of the script: its ISO settings, when it has any,
    and its bias correction. *)
Record script_camera : Type := {
  camera_settings : option (Z * Z);
  camera_correct_bias : ndarray T -> result (ndarray T)
}.

(** [iso.fit_iso_normalisation_relation] is not under src/. *)
Context (fit_iso_normalisation_relation :
           list Z -> ndarray T -> ndarray T -> Z -> Z -> result iso_fit).

(** What the script saves. *)
Record saved : Type := {
  saved_data : list Z * ndarray T * ndarray T;
  saved_model : string * list T * list T;
  saved_lookup_table : list (Z * T)
}.

(** The look-up table of a model: a row (ISO speed, normalisation) for each
    element of [np.arange(0, ISO_max + 1, 1)]. *)
Definition lookup_table (ISO_max : Z) (model : Z -> T) : list (Z * T) :=
  let iso_range := np_arange (ISO_max + 1) in
  zip iso_range (model <$> iso_range).

(** The script from the normalisation of the means on. *)
Definition normalise_and_fit (ISO_min ISO_max : Z) (isos : list Z)
    (means : ndarray T) : result saved :=
  k ← np_argmin isos;
  reference ← getitem0 means k;
  ratios ← np_binop zero tdiv means reference;
  ratios_mean ← reduce_axes_1_2 np_mean ratios;
  ratios_errs ← reduce_axes_1_2 np_std ratios;
  fit ← fit_iso_normalisation_relation isos ratios_mean ratios_errs
          ISO_min ISO_max;
  _ ← (if bool_decide (shape ratios_mean = [length isos])
       then Ok tt else Raise ValueError);
  Ok {| saved_data := (isos, ratios_mean, ratios_errs);
        saved_model := (model_type fit, parameters fit, errors fit);
        saved_lookup_table := lookup_table ISO_max (model fit) |}.

(** The whole script, from the loaded stacks on.  [loaded_means] and
    [loaded_stds] are what [io.load_means] and [io.load_stds] returned; the
    ISO speeds are those of the second. *)
Definition iso_normalisation (camera : script_camera)
    (loaded_means loaded_stds : list Z * ndarray T) : result saved :=
  '(ISO_min, ISO_max) ← or_raise AssertionError (camera_settings camera);
  let means := loaded_means.2 in
  let '(isos, stds) := loaded_stds in
  means ← camera_correct_bias camera means;
  relative_errors ← np_binop zero tdiv stds means;
  lowest ← np_min isos;
  _ ← assert (bool_decide (lowest = ISO_min));
  normalise_and_fit ISO_min ISO_max isos means.
End IsoNormalisation.

Section Fit.
Context {T : Type} (tle : T -> T -> bool).

(** A candidate model with its fit: from the ISO speeds, the ratios and
    their errors, the minimum and the maximum ISO speed to the fitted
    model. *)
Definition candidate : Type :=
  list Z -> ndarray T -> ndarray T -> Z -> Z -> result (iso_fit (T := T)).

(** Of two fits the one with the greater coefficient of determination, the
    first of them when the coefficients are equal; [tle] is the order of the
    coefficients. *)
Definition better_fit (f g : iso_fit (T := T)) : iso_fit :=
  if tle (R2 g) (R2 f) then f else g.

(** Modelled from the spec: [iso.fit_iso_normalisation_relation] is not
    under src/.  The spec has it fit one or more candidate models to the
    ratios, at minimum a model enforcing ratio = 1 at the minimum ISO speed,
    and select the best-fitting one by its coefficient of determination.
    [enforcing] is the candidate that the spec requires, [others] are the
    further ones.  A fit that fails is reported, not skipped. *)
Definition spec_fit_iso_normalisation_relation (enforcing : candidate)
    (others : list candidate) : candidate :=
  fun isos ratios ratios_errs min_iso max_iso =>
    first ← enforcing isos ratios ratios_errs min_iso max_iso;
    rest ← mapM (fun c : candidate => c isos ratios ratios_errs min_iso max_iso)
                others;
    Ok (foldl better_fit first rest).
End Fit.

(** ** Vocabulary of the statements *)

(** *** Bayer map *)

(** What fits the 64-bit integers of the Bayer map. *)
Definition int64 (n : Z) : Prop := (- 2 ^ 63 <= n < 2 ^ 63)%Z.

(** [pattern[r % 2][c % 2]] for the pattern [[p00, p01], [p10, p11]]. *)
Definition pattern_at (p00 p01 p10 p11 : Z) (r c : nat) : Z :=
  if bool_decide (r mod 2 = 0)
  then (if bool_decide (c mod 2 = 0) then p00 else p01)
  else (if bool_decide (c mod 2 = 0) then p10 else p11).

(** The image record of a sensor of [h] rows and [w] columns with the
    pattern [[p00, p01], [p10, p11]]. *)
Definition bayer_image (h w : nat) (p00 p01 p10 p11 : Z) (ext b depth : value)
  : Image :=
  mkImage (VList [Z.of_nat h; Z.of_nat w]) ext b
          (VTable [[p00; p01]; [p10; p11]]) depth.

(** The pattern laid out over [h] rows and [w] columns. *)
Definition tiled (h w : nat) (p00 p01 p10 p11 : Z) : ndarray Z :=
  NdArray [h; w]
    ((fun p => pattern_at p00 p01 p10 p11 (p / w) (p mod w)) <$> seq 0 (h * w)).

(** Number of distinct values of an array, and number of elements that
    hold [v]. *)
Definition distinct_values (a : ndarray Z) : nat :=
  size (list_to_set (data a) : gset Z).
Definition count_value (a : ndarray Z) (v : Z) : nat :=
  length (filter (fun x => x = v) (data a)).

(** Number of [c < n] with [c mod 2 = b], for [b] 0 or 1. *)
Definition parity_count (n b : nat) : nat := (n + 1 - b) / 2.

(** Number of pixels of an [h] by [w] array outside its complete 2 by 2
    tiles: the last row when [h] is odd, the last column when [w] is. *)
Definition outside_tiles (h w : nat) : nat := h * w - 4 * ((h / 2) * (w / 2)).

(** *** Records and their fields *)

Definition has_fields (fields : list string) (kw : dict value) : Prop :=
  Forall (fun f => is_Some (dict_get kw f)) fields.
Definition only_fields (fields : list string) (kw : dict value) : Prop :=
  Forall (fun k => k ∈ fields) (dict_keys kw).
Definition exact_fields (fields : list string) (kw : dict value) : Prop :=
  has_fields fields kw /\ only_fields fields kw.

(** *** Frame conditions on heap computations *)

(** The objects that exist before the computation are unchanged after it:
    the heap only grows. *)
Definition heap_grows {T A} (m : Py (T := T) A) : Prop :=
  forall h, h `prefix_of` (m h).2.

(** The object that the computation returns was allocated by it. *)
Definition returns_new {T} (m : Py (T := T) loc) : Prop :=
  forall h l, (m h).1 = Ok l -> length h <= l < length (m h).2.

(** What the frame property of the stages asks of the imported functions
    that receive the data. *)
Definition frame_respecting {T} (spectacle : Spectacle (T := T)) : Prop :=
  (forall data, heap_grows (clip_data spectacle data))
  /\ (forall data iso table,
        heap_grows (normalise_single_iso spectacle data iso table)
        /\ returns_new (normalise_single_iso spectacle data iso table))
  /\ (forall data iso table,
        heap_grows (normalise_multiple_iso spectacle data iso table)
        /\ returns_new (normalise_multiple_iso spectacle data iso table)).

(** The bias level that [correct_bias] resolves: the map if its file is
    there, the metadata value if loading the map raised
    [FileNotFoundError]. *)
Definition resolved_bias {T} (spectacle : Spectacle (T := T)) (root : string)
  : result (ndarray T) :=
  match load_bias_map spectacle root with
  | Ok b => Ok b
  | Raise e =>
      if is_FileNotFoundError e then load_bias_metadata spectacle root
      else Raise e
  end.

(** The map that the stage of a kind works with: for the bias what the
    [try] and [except] of [correct_bias] resolve, for the other kinds what
    the loader of the stage returns. *)
Definition resolved_map {T} (spectacle : Spectacle (T := T))
    (k : calibration_kind) (root : string) : result (ndarray T) :=
  match k with
  | Bias => resolved_bias spectacle root
  | DarkCurrent => load_dark_current_map spectacle root
  | FlatField => load_flat_field_correction_map spectacle root
  | IsoLookupTable => load_iso_lookup_table spectacle root
  | Gain => load_gain_map spectacle root
  end.

(** The stage that loads the map of a kind. *)
Definition stage_of_kind {T} (k : calibration_kind) (exposure_time : T)
    (iso_values : iso_value T) : stage (T := T) :=
  match k with
  | Bias => BiasCorrection
  | DarkCurrent => DarkCurrentCorrection (Num exposure_time)
  | FlatField => FlatFieldCorrection
  | IsoLookupTable => IsoNormalisation iso_values
  | Gain => GainConversion
  end.

(** Modelled from the spec: a candidate model that enforces ratio = 1 at
    the minimum ISO speed.  Whatever it is fitted to, the fitted model
    evaluates to 1 at the minimum ISO speed that the fit was given. *)
Definition enforces_normalisation {T} (one : T) (c : candidate (T := T))
  : Prop :=
  forall isos ratios ratios_errs min_iso max_iso f,
    c isos ratios ratios_errs min_iso max_iso = Ok f -> model f min_iso = one.

(** Bias correction followed by dark-current correction. *)
Definition bias_then_dark_current (spectacle : Spectacle (T := Q))
    (root : string) (data : loc) (exposure_time : Q) : Py loc :=
  data ← correct_bias 0%Q qsub spectacle root data;
  correct_dark_current 0%Q qsub qmul spectacle root data (Num exposure_time).

(** ** The worked example: ISO 23 to 200, bias level 528 *)

Definition example_device : dict value :=
  [("manufacturer", VStr "Apple"); ("name", VStr "iPhone SE")].
Definition example_image : dict value :=
  [("shape", VList [4; 6]%Z); ("raw_extension", VStr ".dng");
   ("bias", VInt 528); ("bayer_pattern", VTable [[0; 1]; [3; 2]]%Z);
   ("bit_depth", VInt 12)].
Definition example_settings : dict value :=
  [("ISO_min", VInt 23); ("ISO_max", VInt 200);
   ("exposure_min", VFloat (1 # 1000)); ("exposure_max", VFloat 1)].

(** A metadata file with the image group first. *)
Definition example_metadata : dict (dict value) :=
  [("image", example_image); ("device", example_device);
   ("settings", example_settings)].

(** The products of the example: no bias map, a bias level of 528 in the
    metadata, a dark current of 0.001 ADU/s in every pixel of a sensor of
    shape [s], a look-up table for ISO 0 to 2, a gain map of one element and
    a flat-field map of 100 by 100. *)
Definition example_products (s : list nat) : products (T := Q) := {|
  bias_map_npy := None;
  info_json_bias := Some (528 # 1)%Q;
  dark_current_npy := Some (np_full s (1 # 1000)%Q);
  iso_lookup_table_npy := Some (NdArray [3; 2] [0; 1 # 2; 1; 1; 2; 2]%Q);
  gain_map_npy := Some (np_full [1; 1] (2 # 1)%Q);
  flat_field_npy := Some (np_full [100; 100] (1 # 1)%Q);
  info_json_gain := None
|}.

(** A camera folder with its metadata, a bias level of 528 and a gain of
    2, and no calibration product. *)
Definition metadata_only : products (T := Q) := {|
  bias_map_npy := None;
  info_json_bias := Some (528 # 1)%Q;
  dark_current_npy := None;
  iso_lookup_table_npy := None;
  gain_map_npy := None;
  flat_field_npy := None;
  info_json_gain := Some (2 # 1)%Q
|}.

Definition example_spectacle (s : list nat) : Spectacle (T := Q) :=
  file_spectacle 0%Q qdiv 0 (fun _ => example_products s).

(** The camera of the example as the script sees it. *)
Definition example_script_camera : script_camera (T := Q) := {|
  camera_settings := Some (23, 200)%Z;
  camera_correct_bias := fun means => np_binop 0%Q qsub means (scalar (528 # 1)%Q)
|}.

(** Two fitted candidates of the example: a line through the point
    (minimum ISO speed, 1), and a line through the origin that fits
    better. *)
Definition example_enforcing : candidate (T := Q) :=
  fun isos ratios ratios_errs min_iso max_iso =>
    Ok {| model_type := "Linear through (ISO_min, 1)";
          model := fun iso => Qred (1 + (1 # 23) * inject_Z (iso - min_iso));
          R2 := (9 # 10)%Q;
          parameters := [(1 # 23)%Q];
          errors := [0%Q] |}.

Definition example_origin : candidate (T := Q) :=
  fun isos ratios ratios_errs min_iso max_iso =>
    Ok {| model_type := "Linear through the origin";
          model := fun iso => Qred ((1 # 20) * inject_Z iso);
          R2 := (19 # 20)%Q;
          parameters := [(1 # 20)%Q];
          errors := [0%Q] |}.

(** ** Further definitions: the dictionary of a camera, the scripts *)

(** The number of bytes of an array of 64-bit integers of shape [l], as
    numpy computes it before it allocates: an extent of 0 counts as 1. *)
Definition shape_bytes (l : list Z) : Z :=
  (8 * foldr (fun n size => Z.max 1 n * size) 1 l)%Z.

(** A shape within the limits of numpy, whatever its version: at most 32
    axes and fewer than [2 ** 63] bytes. *)
Definition within_limits (s : value) : Prop :=
  match s with
  | VInt n => (shape_bytes [n] < 2 ^ 63)%Z
  | VList l => length l <= 32 /\ (shape_bytes l < 2 ^ 63)%Z
  | VFloat _ | VStr _ | VTable _ => True
  end.

(** [namedtuple._asdict()]: the fields with their values, in field order. *)
Definition Device_asdict (d : Device) : dict value :=
  [("manufacturer", manufacturer d); ("name", name d)].
Definition Image_asdict (i : Image) : dict value :=
  [("shape", image_shape i); ("raw_extension", raw_extension i);
   ("bias", bias i); ("bayer_pattern", bayer_pattern i);
   ("bit_depth", bit_depth i)].
Definition Settings_asdict (s : Settings) : dict value :=
  [("ISO_min", ISO_min s); ("ISO_max", ISO_max s);
   ("exposure_min", exposure_min s); ("exposure_max", exposure_max s)].

(** [Camera._as_dict]. *)
Definition _as_dict (c : Camera) : dict (dict value) :=
  [("device", Device_asdict (device c)); ("image", Image_asdict (image c));
   ("settings", Settings_asdict (settings c))].

(** Two dictionaries with the same bindings. *)
Definition same_bindings {V} (d1 d2 : dict V) : Prop :=
  forall k, dict_get d1 k = dict_get d2 k.

(** The pattern laid out over the first two axes of an array of shape [s],
    every element along the other axes holding the value of its pixel. *)
Definition tiled_axes (s : list nat) (p00 p01 p10 p11 : Z) : ndarray Z :=
  match s with
  | d0 :: d1 :: rest =>
      let inner := shape_size rest in
      NdArray s ((fun p => pattern_at p00 p01 p10 p11
                             (p / (d1 * inner)) ((p / inner) mod d1))
                   <$> seq 0 (shape_size s))
  | _ => NdArray s (replicate (shape_size s) 0%Z)
  end.

(** An array whose data has the length that its shape asks for. *)
Definition well_formed {A} (a : ndarray A) : Prop :=
  length (data a) = shape_size (shape a).

(** Products with maps of one row and two columns: a bias map, a
    dark-current map and a gain map. *)
Definition example_maps : products (T := Q) := {|
  bias_map_npy := Some (NdArray [1; 2] [528 # 1; 530 # 1]%Q);
  info_json_bias := Some (528 # 1)%Q;
  dark_current_npy := Some (NdArray [1; 2] [1 # 1000; 2 # 1000]%Q);
  iso_lookup_table_npy := None;
  gain_map_npy := Some (NdArray [1; 2] [2 # 1; 4 # 1]%Q);
  flat_field_npy := None;
  info_json_gain := None
|}.

(** ** The flat-field script ([calibration/flatfield.py]): file names *)

(** The scan behind [str.replace] and [str.split]: left to right, a match of
    the pattern consumes its characters, so that matches never overlap.
    [skip] counts the characters of a match that are still to be passed. *)
Fixpoint replace_from (old new : string) (skip : nat) (s : string) : string :=
  match s with
  | EmptyString => EmptyString
  | String c s' =>
      match skip with
      | S k => replace_from old new k s'
      | 0 =>
          if String.prefix old s
          then new +:+ replace_from old new (String.length old - 1) s'
          else String c (replace_from old new 0 s')
      end
  end.

(** [s.replace(old, new)].  With an empty [old], Python puts [new] before
    every character and at the end. *)
Definition str_replace (old new s : string) : string :=
  match old with
  | EmptyString =>
      new +:+ String.concat EmptyString
                ((fun c => String c new) <$> list_ascii_of_string s)
  | _ => replace_from old new 0 s
  end.

(** The pieces of [s] between the matches of [sep]; [piece] is the piece
    that is being read. *)
Fixpoint split_from (sep : string) (skip : nat) (piece s : string) : list string :=
  match s with
  | EmptyString => [piece]
  | String c s' =>
      match skip with
      | S k => split_from sep k piece s'
      | 0 =>
          if String.prefix sep s
          then piece :: split_from sep (String.length sep - 1) EmptyString s'
          else split_from sep 0 (piece +:+ String c EmptyString) s'
      end
  end.

(** [s.split(sep)]; an empty separator is a [ValueError]. *)
Definition str_split (sep s : string) : result (list string) :=
  match sep with
  | EmptyString => Raise ValueError
  | _ => Ok (split_from sep 0 EmptyString s)
  end.

(** [sub in s]. *)
Fixpoint str_contains (sub s : string) : bool :=
  String.prefix sub s
  || match s with
     | EmptyString => false
     | String _ s' => str_contains sub s'
     end.

(** [s.rfind(c)] for a character [c]; [None] is Python's -1. *)
Fixpoint str_rfind (c : ascii) (s : string) : option nat :=
  match s with
  | EmptyString => None
  | String c' s' =>
      match str_rfind c s' with
      | Some i => Some (S i)
      | None => if bool_decide (c' = c) then Some 0 else None
      end
  end.

(** [PurePath.stem], on the final component of a path: the name without
    its last suffix; a leading or a trailing dot starts no suffix. *)
Definition stem (name : string) : string :=
  match str_rfind "."%char name with
  | Some i =>
      if bool_decide (0 < i < String.length name - 1)
      then String.substring 0 i name
      else name
  | None => name
  end.

(** [label = meanfile.stem.split("_mean")[0]], from the name of the file. *)
Definition label (meanfile_name : string) : result string :=
  pieces ← str_split "_mean" (stem meanfile_name);
  or_raise IndexError (pieces !! 0).

(** [meanfile.name.replace("mean", "stds")], the name of the file of
    standard deviations, which is looked up in the folder of [meanfile]. *)
Definition stdsfile_name (meanfile_name : string) : string :=
  str_replace "mean" "stds" meanfile_name.

(** ** The signal-to-noise script ([mono.py]) *)

Section Mono.
Context {T : Type} (zero : T) (tdiv : T -> T -> T) (tlt : T -> T -> bool).

(** [a[a < threshold] = value]: the array is changed in place.  The
    Boolean mask [a < threshold] is a temporary of its own, which the heap
    of arrays does not hold. *)
Definition setitem_less (a : loc) (threshold value : T) : Py (T := T) unit :=
  fun h =>
    match h !! a with
    | Some x =>
        (Ok tt,
         <[a := NdArray (shape x)
                  ((fun v => if tlt v threshold then value else v) <$> data x)]> h)
    | None => (Raise SystemError, h)
    end.

(** [s[s < 0.001] = -1; SNR = m/s]. *)
Definition mono_SNR (threshold minus_one : T) (m s : loc) : Py loc :=
  _ ← setitem_less s threshold minus_one;
  SNR ← array_op zero tdiv (Ref m) (Ref s);
  mret SNR.
End Mono.

(** [x < y] on exact rationals. *)
Definition qlt (x y : Q) : bool := negb (Qle_bool y x).

(** ** Slices *)

(** [start:stop]; a bound that is left out is [None]. *)
Record slice : Type := Slice {
  slice_start : option Z;
  slice_stop : option Z
}.

(** A bound of a slice on an axis of length [n]: a negative bound counts
    from the end, and every bound is clipped to the axis. *)
Definition slice_bound (i : Z) (n : nat) : nat :=
  if bool_decide (i < 0)%Z
  then Z.to_nat (Z.max (i + Z.of_nat n) 0)
  else Z.to_nat (Z.min i (Z.of_nat n)).

(** The indices that a slice selects on an axis of length [n]. *)
Definition slice_indices (sl : slice) (n : nat) : list nat :=
  let lo := from_option (fun i => slice_bound i n) 0 (slice_start sl) in
  let hi := from_option (fun i => slice_bound i n) n (slice_stop sl) in
  seq lo (hi - lo).

(** The elements of an array of shape [s] at the indices [sel] of its
    leading axes, in row-major order. *)
Fixpoint select {A} (sel : list (list nat)) (s : list nat) (l : list A) : list A :=
  match sel, s with
  | rows :: sel', d :: s' =>
      rows ≫= (fun r =>
        select sel' s' (take (shape_size s') (drop (r * shape_size s') l)))
  | _, _ => l
  end.

(** [a[sl_0, sl_1, ...]] with slices: more slices than axes is an
    [IndexError]. *)
Definition getitem_slices {A} (a : ndarray A) (sl : list slice)
  : result (ndarray A) :=
  if bool_decide (length sl <= length (shape a))
  then
    let sel := zip_with slice_indices sl (shape a) in
    Ok (NdArray ((length <$> sel) ++ drop (length sl) (shape a))
                (select sel (shape a) (data a)))
  else Raise IndexError.

(** *** The linearity script ([linearity_plot_time_jpg.py]) *)

(** [mid1, mid2 = array_size // 2] and
    [center = np.s_[mid1:mid1+2, mid2:mid2+2]]. *)
Definition center (array_size : Z * Z) : list slice :=
  let mid1 := (array_size.1 `div` 2)%Z in
  let mid2 := (array_size.2 `div` 2)%Z in
  [Slice (Some mid1) (Some (mid1 + 2)%Z); Slice (Some mid2) (Some (mid2 + 2)%Z)].

(** [colours_here = colours[center].ravel()]. *)
Definition colours_here {A} (array_size : Z * Z) (colours : ndarray A)
  : result (list A) :=
  selection ← getitem_slices colours (center array_size);
  Ok (data selection).

(** *** The monochromator script ([monochromator_combined_spectrum.py]) *)

(** [mid-d : mid+d+1]. *)
Definition block (mid d : Z) : slice :=
  Slice (Some (mid - d)%Z) (Some (mid + d + 1)%Z).

(** The block of [load_spectrum]: [d = blocksize//2],
    [midx, midy = np.array(mean_RGBG.shape[1:])//2] and
    [sub = mean_RGBG[:, midx-d:midx+d+1, midy-d:midy+d+1]]. *)
Definition load_spectrum_sub {A} (mean_RGBG : ndarray A) (blocksize : Z)
  : result (ndarray A) :=
  let d := (blocksize `div` 2)%Z in
  match tail (shape mean_RGBG) with
  | [hx; hy] =>
      let midx := (Z.of_nat hx `div` 2)%Z in
      let midy := (Z.of_nat hy `div` 2)%Z in
      getitem_slices mean_RGBG [Slice None None; block midx d; block midy d]
  | _ => Raise ValueError
  end.

(** *** The spectral response script
    ([analysis/spectral_response_monochromator_single_spectrum.py]) *)

(** [np.s_[n*j : n*(j+1)]], the slice of filter [j], [n] being the number
    of wavelengths. *)
Definition filter_slice (n j : nat) : slice :=
  Slice (Some (Z.of_nat n * Z.of_nat j)%Z)
        (Some (Z.of_nat n * (Z.of_nat j + 1))%Z).

(** [R, G, B, G2 = [np.s_[n*j : n*(j+1)] for j in range(4)]] and
    [RGBG2 = [R, G, B, G2]]. *)
Definition RGBG2 (n : nat) : list slice := filter_slice n <$> seq 0 4.

Definition cast_back_to_RGBG2 {A} (values : ndarray A) (indices : list slice)
  : result (list (ndarray A)) :=
  mapM (fun ind => getitem_slices values [ind]) indices.

(** *** The layout of the flattened means *)

(** [np.reshape(a, (d_0, ..., d_k, -1))]: the last extent is what is left
    of the size of [a]; it is a [ValueError] when the extents given do not
    divide the size, or have the product 0. *)
Definition np_reshape_rest {A} (a : ndarray A) (known : list nat)
  : result (ndarray A) :=
  let size := shape_size (shape a) in
  let k := shape_size known in
  if bool_decide (k <> 0 /\ size mod k = 0)
  then Ok (NdArray (known ++ [size / k]) (data a))
  else Raise ValueError.

(** [np.swapaxes(a, 0, 1)]. *)
Definition np_swapaxes_0_1 {A} (a : ndarray A) : result (ndarray A) :=
  match shape a with
  | d0 :: d1 :: rest =>
      let inner := shape_size rest in
      Ok (NdArray (d1 :: d0 :: rest)
            (seq 0 d1 ≫= fun j =>
             seq 0 d0 ≫= fun k =>
             take inner (drop ((k * d1 + j) * inner) (data a))))
  | _ => Raise AxisError
  end.

(** [means_flattened], from [means_RGBG2] and [len(wavelengths)]. *)
Definition means_flattened {A} (means_RGBG2 : ndarray A) (len_wavelengths : nat)
  : result (ndarray A) :=
  flattened ← np_reshape_rest means_RGBG2 [len_wavelengths; 4];
  flattened ← np_swapaxes_0_1 flattened;
  np_reshape_rest flattened [4 * len_wavelengths].

(** *** The mean of the two green filters *)

Section GreenMean.
Context {T : Type} (zero one half : T) (tadd tmul : T -> T -> T).

(** [np.eye(n)]. *)
Definition np_eye (n : nat) : ndarray T :=
  NdArray [n; n]
    ((fun p => if bool_decide (p / n = p mod n) then one else zero)
       <$> seq 0 (n * n)).

(** The shape of a value that is assigned to a selection of [k] axes:
    leading extents of 1 beyond the [k] axes do not count. *)
Fixpoint squeeze_leading (s : list nat) (k : nat) : list nat :=
  match s with
  | 1 :: s' => if bool_decide (k < length s) then squeeze_leading s' k else s
  | _ => s
  end.

(** [a[rows, cols] = v] for two slices: the value is broadcast to the
    selection, and [a] is changed where the selection is; a value that
    cannot be broadcast to the selection is a [ValueError], an array of
    fewer than two axes an [IndexError]. *)
Definition setitem_slices2 (a : ndarray T) (rows cols : slice) (v : ndarray T)
  : result (ndarray T) :=
  match shape a with
  | d0 :: d1 :: rest =>
      let rs := slice_indices rows d0 in
      let cs := slice_indices cols d1 in
      let inner := shape_size rest in
      let target := length rs :: length cs :: rest in
      let vs := squeeze_leading (shape v) (length target) in
      if bool_decide (broadcast_shapes vs target = Some target)
      then
        Ok (NdArray (shape a)
              (imap (fun p x =>
                       let i := p / (d1 * inner) in
                       let j := (p / inner) mod d1 in
                       if bool_decide (i ∈ rs /\ j ∈ cs)
                       then
                         nth (source_index (reverse target) (reverse vs)
                                (((i - hd 0 rs) * length cs + (j - hd 0 cs))
                                 * inner + p mod inner))
                             (data v) zero
                       else x)
                    (data a)))
      else Raise ValueError
  | _ => Raise IndexError
  end.

(** [a @ v] for a vector [v]: the sum of the products over the last axis
    of [a]; an array without axes, or a last axis that has not the length
    of [v], is a [ValueError]. *)
Definition matmul_vector (a : ndarray T) (v : list T) : result (ndarray T) :=
  match reverse (shape a) with
  | c :: rest =>
      if bool_decide (c = length v)
      then
        Ok (NdArray (reverse rest)
              ((fun r => foldr tadd zero
                           (zip_with tmul (take c (drop (r * c) (data a))) v))
                 <$> seq 0 (shape_size rest)))
      else Raise ValueError
  | [] => Raise ValueError
  end.

(** [M_G_G2], for [n] wavelengths. *)
Definition M_G_G2 (n : nat) : result (ndarray T) :=
  let R := filter_slice n 0 in
  let G := filter_slice n 1 in
  let B := filter_slice n 2 in
  let G2 := filter_slice n 3 in
  let I := np_eye n in
  let M := np_full [n * 3; n * 4] zero in
  M ← setitem_slices2 M R R I;
  M ← setitem_slices2 M B B I;
  half_I ← np_binop zero tmul (scalar half) I;
  M ← setitem_slices2 M G G half_I;
  half_I ← np_binop zero tmul (scalar half) I;
  M ← setitem_slices2 M G G2 half_I;
  Ok M.

(** [srf_G = M_G_G2 @ srf]. *)
Definition srf_G (n : nat) (srf : list T) : result (ndarray T) :=
  M ← M_G_G2 n;
  matmul_vector M srf.
End GreenMean.

(** * Properties *)

Ltac Zify.zify_post_hook ::= Z.to_euclidean_division_equations.

(** ** Broadcasting and the heap *)

Lemma broadcast_rev_same s : broadcast_rev s s = Some s.
Proof.
  induction s as [|d s IH]; [done|]. cbn.
  rewrite bool_decide_eq_true_2 by done. cbn. by rewrite IH.
Qed.

Lemma broadcast_rev_nil_r s : broadcast_rev s [] = Some s.
Proof. by destruct s. Qed.

Lemma broadcast_shapes_same s : broadcast_shapes s s = Some s.
Proof.
  unfold broadcast_shapes. rewrite broadcast_rev_same. cbn.
  by rewrite reverse_involutive.
Qed.

Lemma broadcast_shapes_scalar s : broadcast_shapes s [] = Some s.
Proof.
  unfold broadcast_shapes. rewrite reverse_nil, broadcast_rev_nil_r. cbn.
  by rewrite reverse_involutive.
Qed.

Lemma source_index_same_le rs p : source_index rs rs p <= p.
Proof.
  revert p. induction rs as [|d rs IH]; intros p; cbn [source_index]; [lia|].
  specialize (IH (p / d)). case_bool_decide; subst.
  - rewrite Nat.div_1_r in *. lia.
  - destruct d; [cbn; lia|]. pose proof (Nat.div_mod_eq p (S d)). nia.
Qed.

Lemma source_index_scalar rs p : source_index rs [] p = 0.
Proof. by destruct rs. Qed.

Lemma nth_replicate_lt {A} n (x d : A) i : i < n -> nth i (replicate n x) d = x.
Proof. intros Hi. by rewrite nth_lookup, lookup_replicate_2. Qed.

Lemma fmap_seq_const {A} (g : nat -> A) (x : A) n :
  (forall p, p < n -> g p = x) -> g <$> seq 0 n = replicate n x.
Proof.
  intros Hg. apply list_eq. intros i. rewrite list_lookup_fmap.
  destruct (decide (i < n)).
  - rewrite lookup_seq_lt, lookup_replicate_2 by done. cbn. f_equal. by apply Hg.
  - rewrite lookup_seq_ge by lia. symmetry. apply lookup_replicate_None. lia.
Qed.

Section Full.
Context {A : Type} (dflt : A) (f : A -> A -> A).

Lemma np_binop_full_full s x y :
  np_binop dflt f (np_full s x) (np_full s y) = Ok (np_full s (f x y)).
Proof.
  unfold np_binop, np_full; cbn [shape data].
  rewrite broadcast_shapes_same. do 2 f_equal.
  apply fmap_seq_const. intros p Hp.
  pose proof (source_index_same_le (reverse s) p).
  by rewrite !nth_replicate_lt by lia.
Qed.

Lemma np_binop_full_scalar s x y :
  np_binop dflt f (np_full s x) (scalar y) = Ok (np_full s (f x y)).
Proof.
  unfold np_binop, np_full, scalar; cbn [shape data].
  rewrite broadcast_shapes_scalar. do 2 f_equal.
  apply fmap_seq_const. intros p Hp.
  pose proof (source_index_same_le (reverse s) p).
  rewrite reverse_nil, source_index_scalar.
  by rewrite !nth_replicate_lt by lia.
Qed.
End Full.

Section Frame.
Context {T : Type}.
Implicit Types (h : heap (T := T)).

Lemma heap_grows_ret {A} (a : A) : heap_grows (mret a : Py (T := T) A).
Proof. intros h. reflexivity. Qed.

Lemma heap_grows_raise {A} e : heap_grows (raise e : Py (T := T) A).
Proof. intros h. reflexivity. Qed.

Lemma heap_grows_read l : heap_grows (read (T := T) l).
Proof. intros h. unfold read. case_match; reflexivity. Qed.

Lemma heap_grows_new a : heap_grows (new (T := T) a).
Proof. intros h. by apply prefix_app_r. Qed.

Lemma heap_grows_new_from r : heap_grows (new_from (T := T) r).
Proof. destruct r; [apply heap_grows_new | apply heap_grows_raise]. Qed.

Lemma heap_grows_bind {A B} (m : Py (T := T) A) (f : A -> Py (T := T) B) :
  heap_grows m -> (forall a, heap_grows (f a)) -> heap_grows (m ≫= f).
Proof.
  intros Hm Hf h. specialize (Hm h). unfold mbind, Py_bind.
  destruct (m h) as [[a|e] h']; cbn in *; [|done].
  by etransitivity; [|apply Hf].
Qed.

Lemma heap_grows_try_except {A} (m handler : Py (T := T) A) handled :
  heap_grows m -> heap_grows handler -> heap_grows (try_except m handled handler).
Proof.
  intros Hm Hh h. specialize (Hm h). unfold try_except.
  destruct (m h) as [[a|e] h']; cbn in *; [done|].
  destruct (handled e); [|done]. by etransitivity; [|apply Hh].
Qed.

Lemma returns_new_raise e : returns_new (raise (T := T) e).
Proof. intros h l Hl. cbn in Hl. discriminate. Qed.

Lemma returns_new_new a : returns_new (new (T := T) a).
Proof. intros h l [= <-]. cbn. rewrite length_app. cbn. lia. Qed.

Lemma returns_new_new_from r : returns_new (new_from (T := T) r).
Proof. destruct r; [apply returns_new_new | apply returns_new_raise]. Qed.

Lemma returns_new_bind {A} (m : Py (T := T) A) (f : A -> Py (T := T) loc) :
  heap_grows m -> (forall a, returns_new (f a)) -> returns_new (m ≫= f).
Proof.
  intros Hm Hf h l. specialize (Hm h). unfold mbind, Py_bind.
  destruct (m h) as [[a|e] h']; cbn in *; [|done].
  intros Hl. apply Hf in Hl. apply prefix_length in Hm. lia.
Qed.

Lemma returns_new_bind_ret (m : Py (T := T) loc) :
  returns_new m -> returns_new (x ← m; mret x).
Proof.
  intros Hm h l. specialize (Hm h). unfold mbind, Py_bind.
  destruct (m h) as [[a|e] h']; cbn in *; [|done].
  intros [= ->]. by apply Hm.
Qed.

Lemma returns_new_try_except (m handler : Py (T := T) loc) handled :
  heap_grows m -> returns_new m -> returns_new handler ->
  returns_new (try_except m handled handler).
Proof.
  intros Hg Hm Hh h l. specialize (Hm h). specialize (Hg h). unfold try_except.
  destruct (m h) as [[a|e] h']; cbn in *; [apply Hm|].
  destruct (handled e); [|done]. intros Hl. apply Hh in Hl.
  apply prefix_length in Hg. lia.
Qed.

Context (zero : T).

Lemma heap_grows_operand_array o : heap_grows (operand_array (T := T) o).
Proof. destruct o; [apply heap_grows_read | apply heap_grows_ret]. Qed.

Lemma heap_grows_array_op f a b : heap_grows (array_op zero f a b).
Proof.
  unfold array_op.
  repeat (apply heap_grows_bind; [|intros ?]);
    auto using heap_grows_operand_array, heap_grows_new_from.
Qed.

Lemma returns_new_array_op f a b : returns_new (array_op zero f a b).
Proof.
  unfold array_op.
  repeat (apply returns_new_bind; [|intros ?]);
    auto using heap_grows_operand_array, returns_new_new_from.
Qed.
End Frame.

Create HintDb frame discriminated.
#[global] Hint Resolve heap_grows_ret heap_grows_raise heap_grows_read
  heap_grows_new heap_grows_new_from heap_grows_try_except
  heap_grows_operand_array heap_grows_array_op
  returns_new_raise returns_new_new returns_new_new_from
  returns_new_array_op returns_new_bind_ret : frame.

Ltac frame :=
  repeat first
    [ progress eauto with frame
    | apply returns_new_bind_ret
    | apply heap_grows_bind; [|intros ?]
    | apply returns_new_bind; [|intros ?]
    | apply returns_new_try_except
    | apply heap_grows_try_except ].

Section Stages.
Context {T : Type} (spectacle : Spectacle (T := T)).

Lemma run_stage_heap_grows zero tsub tmul tdiv st root data :
  frame_respecting spectacle -> heap_grows (run_stage zero tsub tmul tdiv spectacle st root data).
Proof.
  intros (Hclip & Hsingle & Hmulti).
  destruct st; cbn [run_stage];
    unfold correct_bias, correct_dark_current, correct_flatfield,
           normalise_iso, convert_to_photoelectrons; frame;
    destruct (isinstance_int_float _); first [apply Hsingle | apply Hmulti].
Qed.

Lemma run_stage_returns_new zero tsub tmul tdiv st root data :
  frame_respecting spectacle -> returns_new (run_stage zero tsub tmul tdiv spectacle st root data).
Proof.
  intros (Hclip & Hsingle & Hmulti).
  destruct st; cbn [run_stage];
    unfold correct_bias, correct_dark_current, correct_flatfield,
           normalise_iso, convert_to_photoelectrons; frame;
    destruct (isinstance_int_float _); first [apply Hsingle | apply Hmulti].
Qed.
End Stages.

(** ** Running the stages *)

Section Run.
Context {T : Type}.
Implicit Types (h : heap (T := T)) (a b c : ndarray T).

Lemma lookup_new h a : (h ++ [a]) !! length h = Some a.
Proof. by rewrite list_lookup_middle. Qed.

Lemma lookup_old h a l x : h !! l = Some x -> (h ++ [a]) !! l = Some x.
Proof. intros Hl. by apply lookup_app_l_Some. Qed.

Context (zero : T).

Lemma array_op_Ref_Ref f h la lb a b :
  h !! la = Some a -> h !! lb = Some b ->
  array_op zero f (Ref la) (Ref lb) h
  = match np_binop zero f a b with
    | Ok c => (Ok (length h), h ++ [c])
    | Raise e => (Raise e, h)
    end.
Proof.
  intros Ha Hb. unfold array_op, operand_array, mbind, Py_bind, read.
  rewrite Ha, Hb. by destruct (np_binop zero f a b).
Qed.

Lemma array_op_Ref_Num f h la a x :
  h !! la = Some a ->
  array_op zero f (Ref la) (Num x) h
  = match np_binop zero f a (scalar x) with
    | Ok c => (Ok (length h), h ++ [c])
    | Raise e => (Raise e, h)
    end.
Proof.
  intros Ha. unfold array_op, operand_array, mbind, Py_bind, read.
  rewrite Ha. cbn. by destruct (np_binop zero f a (scalar x)).
Qed.

Context (spectacle : Spectacle (T := T)).
Implicit Types (tsub tmul tdiv : T -> T -> T).

Lemma correct_bias_run tsub root data h a :
  h !! data = Some a ->
  correct_bias zero tsub spectacle root data h
  = match resolved_bias spectacle root with
    | Raise e => (Raise e, h)
    | Ok b =>
        match np_binop zero tsub a b with
        | Ok c => (Ok (S (length h)), h ++ [b; c])
        | Raise e => (Raise e, h ++ [b])
        end
    end.
Proof.
  intros Ha. unfold correct_bias, resolved_bias, try_except.
  unfold mbind at 1, Py_bind at 1.
  assert (forall b, (data_corrected ← array_op zero tsub (Ref data) (Ref (length h));
                     mret data_corrected) (h ++ [b])
                    = match np_binop zero tsub a b with
                      | Ok c => (Ok (S (length h)), h ++ [b; c])
                      | Raise e => (Raise e, h ++ [b])
                      end) as Hsub.
  { intros b. unfold mbind, Py_bind.
    rewrite (array_op_Ref_Ref _ _ _ _ a b);
      [|by apply lookup_old|by apply lookup_new].
    destruct (np_binop zero tsub a b); [|done].
    unfold mret, Py_ret. rewrite length_app, <- app_assoc. cbn.
    do 2 f_equal. lia. }
  destruct (load_bias_map spectacle root) as [b|e]; cbn [new_from new raise].
  - apply Hsub.
  - destruct (is_FileNotFoundError e); [|done].
    destruct (load_bias_metadata spectacle root) as [b|e']; cbn [new_from new raise].
    + apply Hsub.
    + done.
Qed.

Lemma correct_dark_current_run tsub tmul root data x h a :
  h !! data = Some a ->
  correct_dark_current zero tsub tmul spectacle root data (Num x) h
  = match load_dark_current_map spectacle root with
    | Raise e => (Raise e, h)
    | Ok dark_current =>
        match np_binop zero tmul dark_current (scalar x) with
        | Raise e => (Raise e, h ++ [dark_current])
        | Ok dark_total =>
            match np_binop zero tsub a dark_total with
            | Raise e => (Raise e, h ++ [dark_current; dark_total])
            | Ok c => (Ok (S (S (length h))), h ++ [dark_current; dark_total; c])
            end
        end
    end.
Proof.
  intros Ha. unfold correct_dark_current.
  unfold mbind at 1, Py_bind at 1.
  destruct (load_dark_current_map spectacle root) as [d|e];
    cbn [new_from new raise]; [|done].
  unfold mbind at 1, Py_bind at 1.
  rewrite (array_op_Ref_Num _ _ _ d) by apply lookup_new.
  destruct (np_binop zero tmul d (scalar x)) as [total|e]; [|done].
  unfold mbind, Py_bind.
  rewrite (array_op_Ref_Ref _ _ _ _ a total).
  2:{ by do 2 apply lookup_old. }
  2:{ rewrite length_app. cbn. replace (length h + 1) with (length (h ++ [d]))
        by (rewrite length_app; cbn; lia). apply lookup_new. }
  destruct (np_binop zero tsub a total); rewrite <- !app_assoc; cbn; [|done].
  unfold mret, Py_ret. do 2 f_equal. rewrite !length_app. cbn. lia.
Qed.

Lemma convert_to_photoelectrons_run tdiv root data h a :
  h !! data = Some a ->
  convert_to_photoelectrons zero tdiv spectacle root data h
  = match load_gain_map spectacle root with
    | Raise e => (Raise e, h)
    | Ok gain_map =>
        match np_binop zero tdiv a gain_map with
        | Raise e => (Raise e, h ++ [gain_map])
        | Ok c => (Ok (S (length h)), h ++ [gain_map; c])
        end
    end.
Proof.
  intros Ha. unfold convert_to_photoelectrons.
  unfold mbind at 1, Py_bind at 1.
  destruct (load_gain_map spectacle root) as [g|e];
    cbn [new_from new raise]; [|done].
  unfold mbind, Py_bind.
  rewrite (array_op_Ref_Ref _ _ _ _ a g);
    [|by apply lookup_old|by apply lookup_new].
  destruct (np_binop zero tdiv a g); [|done].
  unfold mret, Py_ret. rewrite length_app, <- app_assoc. cbn.
  do 2 f_equal. lia.
Qed.

Lemma correct_flatfield_run tmul root data h :
  correct_flatfield zero tmul spectacle root data h
  = match load_flat_field_correction_map spectacle root with
    | Raise e => (Raise e, h)
    | Ok correction_map =>
        match clip_data spectacle data (h ++ [correction_map]) with
        | (Raise e, h') => (Raise e, h')
        | (Ok data_clipped, h') =>
            array_op zero tmul (Ref data_clipped) (Ref (length h)) h'
        end
    end.
Proof.
  unfold correct_flatfield.
  unfold mbind at 1, Py_bind at 1.
  destruct (load_flat_field_correction_map spectacle root) as [m|e];
    cbn [new_from new raise]; [|done].
  unfold mbind, Py_bind.
  destruct (clip_data spectacle data (h ++ [m])) as [[l|e] h']; [|done].
  by destruct (array_op zero tmul (Ref l) (Ref (length h)) h') as [[?|?] ?].
Qed.

Lemma normalise_iso_run root data iso_values h :
  normalise_iso spectacle root data iso_values h
  = match load_iso_lookup_table spectacle root with
    | Raise e => (Raise e, h)
    | Ok lookup_table =>
        (if isinstance_int_float iso_values
         then normalise_single_iso spectacle data iso_values (length h)
         else normalise_multiple_iso spectacle data iso_values (length h))
          (h ++ [lookup_table])
    end.
Proof.
  unfold normalise_iso.
  unfold mbind at 1, Py_bind at 1.
  destruct (load_iso_lookup_table spectacle root) as [t|e];
    cbn [new_from new raise]; [|done].
  unfold mbind, Py_bind.
  destruct (isinstance_int_float iso_values).
  - by destruct (normalise_single_iso _ _ _ _ _) as [[?|?] ?].
  - by destruct (normalise_multiple_iso _ _ _ _ _) as [[?|?] ?].
Qed.
End Run.

(** ** The Bayer map *)

Lemma to_int64_CInt n : int64 n -> to_int64 (CInt n) = Ok n.
Proof. intros H. unfold to_int64. by rewrite bool_decide_eq_true_2. Qed.

Lemma generate_bayer_map_2d h w p00 p01 p10 p11 ext b depth :
  int64 p00 -> int64 p01 -> int64 p10 -> int64 p11 ->
  generate_bayer_map (bayer_image h w p00 p01 p10 p11 ext b depth)
  = Ok (NdArray [h; w]
          ((fun p => pattern_at p00 p01 p10 p11 (p / w) (p mod w)) <$> seq 0 (h * w))).
Proof.
  intros H00 H01 H10 H11.
  unfold generate_bayer_map, bayer_image; cbn -[to_int64 Nat.div Nat.modulo Z.pow].
  unfold NPY_MAXDIMS. rewrite !bool_decide_eq_true_2 by lia. cbn -[to_int64 Nat.div Nat.modulo Z.pow].
  rewrite !Nat2Z.id.
  unfold setitem_step2; cbn -[to_int64 Nat.div Nat.modulo Z.pow].
  rewrite !to_int64_CInt by done. cbn -[Nat.div Nat.modulo].
  f_equal. f_equal.
  rewrite !Nat.mul_1_r.
  apply list_eq; intros i.
  rewrite !list_lookup_imap, list_lookup_fmap, Nat.div_1_r.
  destruct (decide (i < h * w)) as [Hi|Hi].
  - rewrite lookup_replicate_2, lookup_seq_lt by done. cbn.
    f_equal. unfold pattern_at.
    pose proof (Nat.mod_upper_bound (i / w) 2).
    pose proof (Nat.mod_upper_bound (i mod w) 2).
    repeat case_bool_decide; cbn; try done; lia.
  - rewrite (proj1 (lookup_replicate_None _ _ _)), lookup_seq_ge by lia. done.
Qed.

Lemma length_filter_ext_in {A} (P Q : A -> Prop) {decP : forall x, Decision (P x)}
    {decQ : forall x, Decision (Q x)} (l : list A) :
  (forall x, x ∈ l -> P x <-> Q x) ->
  length (filter P l) = length (filter Q l).
Proof.
  induction l as [|x l IH]; intros Hext; [done|].
  rewrite !filter_cons.
  assert (P x <-> Q x) as Hx by (apply Hext; left).
  assert (length (filter P l) = length (filter Q l)) as Hl
    by (apply IH; intros y Hy; apply Hext; by right).
  destruct (decide (P x)), (decide (Q x)); cbn; tauto || lia.
Qed.

Lemma length_filter_fmap {A B} (f : A -> B) (P : B -> Prop)
    {decP : forall y, Decision (P y)} (l : list A) :
  length (filter P (f <$> l)) = length (filter (fun x => P (f x)) l).
Proof.
  induction l as [|x l IH]; [done|].
  rewrite fmap_cons, !filter_cons. destruct (decide (P (f x))); cbn; lia.
Qed.

Lemma length_filter_parity n b :
  b < 2 ->
  length (filter (fun c => c mod 2 = b) (seq 0 n)) = parity_count n b.
Proof.
  intros Hb. unfold parity_count. induction n as [|n IH].
  - cbn [seq]. rewrite filter_nil. cbn [length]. lia.
  - rewrite seq_S, filter_app, length_app, IH. cbn [Nat.add].
    rewrite filter_cons, filter_nil.
    destruct (decide (n mod 2 = b)); cbn [length]; lia.
Qed.

Lemma parity_count_S n b :
  b < 2 ->
  parity_count (S n) b
  = parity_count n b + (if decide (n mod 2 = b) then 1 else 0).
Proof. intros Hb. unfold parity_count. case_decide; lia. Qed.

Lemma length_filter_grid h w a b :
  a < 2 -> b < 2 ->
  length (filter (fun p => (p / w) mod 2 = a /\ (p mod w) mod 2 = b)
                 (seq 0 (h * w)))
  = parity_count h a * parity_count w b.
Proof.
  intros Ha Hb. induction h as [|h IH].
  { cbn [Nat.mul seq]. rewrite filter_nil. unfold parity_count.
    replace ((0 + 1 - a) / 2) with 0 by lia. done. }
  replace (S h * w) with (h * w + w) by lia.
  rewrite seq_app, filter_app, length_app, IH. cbn [Nat.add].
  replace (seq (h * w) w) with (Nat.add (h * w) <$> seq 0 w)
    by (rewrite fmap_add_seq; f_equal; lia).
  rewrite length_filter_fmap.
  rewrite (length_filter_ext_in _ (fun c => h mod 2 = a /\ c mod 2 = b)).
  2:{ intros c Hc%elem_of_seq.
      replace ((h * w + c) / w) with h
        by (apply Nat.div_unique with c; lia).
      replace ((h * w + c) mod w) with c
        by (apply Nat.mod_unique with h; lia).
      done. }
  destruct (decide (h mod 2 = a)) as [Hh|Hh].
  - rewrite (length_filter_ext_in _ (fun c => c mod 2 = b)) by tauto.
    rewrite length_filter_parity, parity_count_S by done.
    rewrite decide_True by done. lia.
  - rewrite (length_filter_ext_in _ (fun c => False)) by tauto.
    assert (forall l : list nat, filter (fun _ => False) l = []) as ->
      by (induction l; [done | rewrite filter_cons_False; tauto]).
    rewrite parity_count_S, decide_False by done. cbn [length]. lia.
Qed.

Lemma pattern_at_subscript2 p00 p01 p10 p11 r c :
  subscript2 (VTable [[p00; p01]; [p10; p11]]) (r mod 2) (c mod 2)
  = Ok (CInt (pattern_at p00 p01 p10 p11 r c)).
Proof.
  unfold pattern_at.
  pose proof (Nat.mod_upper_bound r 2). pose proof (Nat.mod_upper_bound c 2).
  destruct (r mod 2) as [|[|]], (c mod 2) as [|[|]]; try lia; done.
Qed.

Lemma item2_tiled h w p00 p01 p10 p11 r c :
  r < h -> c < w ->
  item2 (tiled h w p00 p01 p10 p11) r c = Some (pattern_at p00 p01 p10 p11 r c).
Proof.
  intros Hr Hc. unfold item2, tiled; cbn [shape data].
  rewrite bool_decide_eq_true_2 by done.
  rewrite list_lookup_fmap, lookup_seq_lt by nia. cbn.
  replace ((r * w + c) / w) with r by (apply Nat.div_unique with c; lia).
  replace ((r * w + c) mod w) with c by (apply Nat.mod_unique with r; lia).
  done.
Qed.

Lemma elem_of_tiled h w p00 p01 p10 p11 v :
  v ∈ data (tiled h w p00 p01 p10 p11) -> v ∈ [p00; p01; p10; p11].
Proof.
  cbn [tiled data]. intros (p & -> & _)%list_elem_of_fmap.
  unfold pattern_at. repeat case_bool_decide; set_solver.
Qed.

Lemma tiled_elem_of h w p00 p01 p10 p11 v :
  2 <= h -> 2 <= w ->
  v ∈ [p00; p01; p10; p11] -> v ∈ data (tiled h w p00 p01 p10 p11).
Proof.
  intros Hh Hw Hv.
  assert (exists r c, r < 2 /\ c < 2 /\ v = pattern_at p00 p01 p10 p11 r c)
    as (r & c & Hr & Hc & ->).
  { rewrite !elem_of_cons in Hv. destruct Hv as [->|[->|[->|[->|Hv]]]].
    - exists 0, 0. split_and!; [lia | lia | reflexivity].
    - exists 0, 1. split_and!; [lia | lia | reflexivity].
    - exists 1, 0. split_and!; [lia | lia | reflexivity].
    - exists 1, 1. split_and!; [lia | lia | reflexivity].
    - by apply elem_of_nil in Hv. }
  apply list_elem_of_lookup. exists (r * w + c).
  pose proof (item2_tiled h w p00 p01 p10 p11 r c) as Hitem.
  unfold item2 in Hitem. cbn [tiled shape data] in *.
  rewrite bool_decide_eq_true_2 in Hitem by lia. apply Hitem; lia.
Qed.

Lemma size_list_to_set_length (l : list Z) :
  size (list_to_set l : gset Z) <= length l.
Proof.
  induction l as [|x l IH]; cbn [list_to_set length].
  - by rewrite size_empty.
  - rewrite size_union_alt, size_singleton.
    assert (size (list_to_set l ∖ {[x]} : gset Z) <= size (list_to_set l : gset Z))
      by (apply subseteq_size; set_solver).
    lia.
Qed.

Lemma distinct_values_tiled_le h w p00 p01 p10 p11 :
  distinct_values (tiled h w p00 p01 p10 p11) <= 4.
Proof.
  unfold distinct_values.
  transitivity (size (list_to_set [p00; p01; p10; p11] : gset Z)).
  - apply subseteq_size. intros v Hv%elem_of_list_to_set.
    apply elem_of_list_to_set. by eapply elem_of_tiled.
  - apply (size_list_to_set_length [p00; p01; p10; p11]).
Qed.

Lemma distinct_values_tiled h w p00 p01 p10 p11 :
  2 <= h -> 2 <= w -> NoDup [p00; p01; p10; p11] ->
  distinct_values (tiled h w p00 p01 p10 p11) = 4.
Proof.
  intros Hh Hw Hnd. unfold distinct_values.
  change 4 with (length [p00; p01; p10; p11]).
  rewrite <- (size_list_to_set (C := gset Z) [p00; p01; p10; p11] Hnd).
  f_equal. apply set_eq. intros v. rewrite !elem_of_list_to_set.
  split; [apply elem_of_tiled | by apply tiled_elem_of].
Qed.

Lemma pattern_at_eq p00 p01 p10 p11 r c a b :
  NoDup [p00; p01; p10; p11] -> a < 2 -> b < 2 ->
  pattern_at p00 p01 p10 p11 r c = pattern_at p00 p01 p10 p11 a b
  <-> r mod 2 = a /\ c mod 2 = b.
Proof.
  intros Hnd Ha Hb.
  assert (p00 <> p01 /\ p00 <> p10 /\ p00 <> p11
          /\ p01 <> p10 /\ p01 <> p11 /\ p10 <> p11) as Hne.
  { rewrite !NoDup_cons in Hnd. set_solver. }
  pose proof (Nat.mod_upper_bound r 2). pose proof (Nat.mod_upper_bound c 2).
  unfold pattern_at. rewrite (Nat.mod_small a), (Nat.mod_small b) by done.
  repeat case_bool_decide; split; intros; try lia; try done; naive_solver lia.
Qed.

Lemma count_value_tiled h w p00 p01 p10 p11 a b :
  NoDup [p00; p01; p10; p11] -> a < 2 -> b < 2 ->
  count_value (tiled h w p00 p01 p10 p11) (pattern_at p00 p01 p10 p11 a b)
  = parity_count h a * parity_count w b.
Proof.
  intros Hnd Ha Hb. unfold count_value, tiled; cbn [data].
  rewrite length_filter_fmap, <- (length_filter_grid h w a b) by done.
  apply length_filter_ext_in. intros p _. by apply pattern_at_eq.
Qed.

Lemma parity_count_bounds n b :
  b < 2 -> n / 2 <= parity_count n b <= n / 2 + n mod 2.
Proof. intros Hb. unfold parity_count. lia. Qed.

Lemma count_value_tiled_balanced h w p00 p01 p10 p11 v1 v2 :
  NoDup [p00; p01; p10; p11] ->
  v1 ∈ [p00; p01; p10; p11] -> v2 ∈ [p00; p01; p10; p11] ->
  count_value (tiled h w p00 p01 p10 p11) v1
  <= count_value (tiled h w p00 p01 p10 p11) v2 + outside_tiles h w.
Proof.
  intros Hnd H1 H2.
  assert (forall v, v ∈ [p00; p01; p10; p11] ->
            exists a b, a < 2 /\ b < 2 /\ v = pattern_at p00 p01 p10 p11 a b)
    as Hquad.
  { intros v Hv. rewrite !elem_of_cons in Hv.
    destruct Hv as [->|[->|[->|[->|Hv]]]].
    - exists 0, 0. split_and!; [lia | lia | reflexivity].
    - exists 0, 1. split_and!; [lia | lia | reflexivity].
    - exists 1, 0. split_and!; [lia | lia | reflexivity].
    - exists 1, 1. split_and!; [lia | lia | reflexivity].
    - by apply elem_of_nil in Hv. }
  destruct (Hquad v1 H1) as (a1 & b1 & ? & ? & ->).
  destruct (Hquad v2 H2) as (a2 & b2 & ? & ? & ->).
  rewrite !count_value_tiled by done.
  pose proof (parity_count_bounds h a1). pose proof (parity_count_bounds h a2).
  pose proof (parity_count_bounds w b1). pose proof (parity_count_bounds w b2).
  unfold outside_tiles.
  pose proof (Nat.div_mod_eq h 2). pose proof (Nat.div_mod_eq w 2).
  pose proof (Nat.mod_upper_bound h 2). pose proof (Nat.mod_upper_bound w 2).
  generalize dependent (parity_count h a1). generalize dependent (parity_count h a2).
  generalize dependent (parity_count w b1). generalize dependent (parity_count w b2).
  generalize dependent (h / 2). generalize dependent (w / 2).
  generalize dependent (h mod 2). generalize dependent (w mod 2).
  intros. nia.
Qed.

(** ** Building the records *)

Lemma no_unexpected_keyword_Ok fields kw :
  no_unexpected_keyword fields kw = Ok tt <-> only_fields fields kw.
Proof.
  unfold no_unexpected_keyword, only_fields. rewrite Forall_forall.
  destruct (forallb _ _) eqn:Hall.
  - split; [intros _ k Hk | done].
    rewrite forallb_forall in Hall. apply list_elem_of_In, Hall in Hk.
    by apply bool_decide_eq_true in Hk.
  - split; [done | intros Hk]. exfalso.
    assert (forallb (fun k => bool_decide (k ∈ fields)) (dict_keys kw) = true)
      as Hall'; [|congruence].
    apply forallb_forall. intros k Hin%list_elem_of_In.
    by apply bool_decide_eq_true, Hk.
Qed.

Lemma no_unexpected_keyword_cases fields kw :
  (no_unexpected_keyword fields kw = Ok tt /\ only_fields fields kw)
  \/ (no_unexpected_keyword fields kw = Raise TypeError /\ ~ only_fields fields kw).
Proof.
  pose proof (no_unexpected_keyword_Ok fields kw) as Hiff.
  unfold no_unexpected_keyword in *. destruct (forallb _ _).
  - left. split; [done | by apply Hiff].
  - right. split; [done | intros H%Hiff; done].
Qed.

Lemma keyword_cases kw f :
  (exists v, keyword kw f = Ok v /\ dict_get kw f = Some v)
  \/ (keyword kw f = Raise TypeError /\ dict_get kw f = None).
Proof. unfold keyword. destruct (dict_get kw f); cbn; eauto. Qed.

Ltac keyword_case kw f :=
  let v := fresh "v" in
  let Hk := fresh "Hk" in
  let Hg := fresh "Hg" in
  destruct (keyword_cases kw f) as [(v & Hk & Hg)|[Hk Hg]];
  rewrite Hk; cbn [mbind result_bind];
  [| right; split; [done|];
     let H := fresh in
     intros [H _]; unfold has_fields in H; rewrite Forall_forall in H;
     destruct (H f) as [? ?]; [set_solver | congruence] ].

Lemma Device_new_cases kw :
  (exists d, Device_new kw = Ok d /\ has_fields Device_fields kw
             /\ only_fields Device_fields kw)
  \/ (Device_new kw = Raise TypeError
      /\ ~ (has_fields Device_fields kw /\ only_fields Device_fields kw)).
Proof.
  unfold Device_new.
  destruct (no_unexpected_keyword_cases Device_fields kw) as [[-> Ho]|[-> Ho]];
    cbn [mbind result_bind]; [|right; tauto].
  keyword_case kw "manufacturer".
  keyword_case kw "name".
  left. eexists. split_and!; [done| |done].
  apply Forall_forall. intros f Hf. unfold Device_fields in Hf. rewrite !elem_of_cons in Hf.
  destruct Hf as [->|[->|Hf]]; eauto. by apply elem_of_nil in Hf.
Qed.

Lemma Image_new_cases kw :
  (exists i, Image_new kw = Ok i /\ has_fields Image_fields kw
             /\ only_fields Image_fields kw
             /\ dict_get kw "shape" = Some (image_shape i)
             /\ dict_get kw "bayer_pattern" = Some (bayer_pattern i))
  \/ (Image_new kw = Raise TypeError
      /\ ~ (has_fields Image_fields kw /\ only_fields Image_fields kw)).
Proof.
  unfold Image_new.
  destruct (no_unexpected_keyword_cases Image_fields kw) as [[-> Ho]|[-> Ho]];
    cbn [mbind result_bind]; [|right; tauto].
  keyword_case kw "shape".
  keyword_case kw "raw_extension".
  keyword_case kw "bias".
  keyword_case kw "bayer_pattern".
  keyword_case kw "bit_depth".
  left. eexists. split_and!; [done| |done|done|done].
  apply Forall_forall. intros f Hf. unfold Image_fields in Hf. rewrite !elem_of_cons in Hf.
  destruct Hf as [->|[->|[->|[->|[->|Hf]]]]]; eauto. by apply elem_of_nil in Hf.
Qed.

Lemma Settings_new_cases kw :
  (exists s, Settings_new kw = Ok s /\ has_fields Settings_fields kw
             /\ only_fields Settings_fields kw)
  \/ (Settings_new kw = Raise TypeError
      /\ ~ (has_fields Settings_fields kw /\ only_fields Settings_fields kw)).
Proof.
  unfold Settings_new.
  destruct (no_unexpected_keyword_cases Settings_fields kw) as [[-> Ho]|[-> Ho]];
    cbn [mbind result_bind]; [|right; tauto].
  keyword_case kw "ISO_min".
  keyword_case kw "ISO_max".
  keyword_case kw "exposure_min".
  keyword_case kw "exposure_max".
  left. eexists. split_and!; [done| |done].
  apply Forall_forall. intros f Hf. unfold Settings_fields in Hf. rewrite !elem_of_cons in Hf.
  destruct Hf as [->|[->|[->|[->|Hf]]]]; eauto. by apply elem_of_nil in Hf.
Qed.

(** ** The camera *)

(** Claim C6, as amended.  For a sensor of [h] rows and [w] columns and a
    2 by 2 pattern of four distinct 64-bit integers, [generate_bayer_map]
    returns an array of shape [(h, w)] whose pixel at row [r], column [c]
    holds [pattern[r % 2][c % 2]]; every complete 2 by 2 tile holds the four
    values, each in its own quadrant; the array has at most 4 distinct
    values, and exactly 4 as soon as it has two rows and two columns; the
    numbers of pixels of two values differ by at most the number of pixels
    outside the complete tiles. *)
Theorem generate_bayer_map_tiles h w p00 p01 p10 p11 ext b depth :
  Forall int64 [p00; p01; p10; p11] ->
  NoDup [p00; p01; p10; p11] ->
  exists bm,
    generate_bayer_map (bayer_image h w p00 p01 p10 p11 ext b depth) = Ok bm
    /\ shape bm = [h; w]
    /\ (forall r c, r < h -> c < w ->
          exists v,
            subscript2 (VTable [[p00; p01]; [p10; p11]]) (r mod 2) (c mod 2)
            = Ok (CInt v)
            /\ item2 bm r c = Some v)
    /\ (forall i j, 2 * i + 1 < h -> 2 * j + 1 < w ->
          item2 bm (2 * i) (2 * j) = Some p00
          /\ item2 bm (2 * i) (2 * j + 1) = Some p01
          /\ item2 bm (2 * i + 1) (2 * j) = Some p10
          /\ item2 bm (2 * i + 1) (2 * j + 1) = Some p11)
    /\ distinct_values bm <= 4
    /\ (2 <= h -> 2 <= w -> distinct_values bm = 4)
    /\ (forall v1 v2, v1 ∈ [p00; p01; p10; p11] -> v2 ∈ [p00; p01; p10; p11] ->
          count_value bm v1 <= count_value bm v2 + outside_tiles h w).
Proof.
  intros Hint Hnd.
  rewrite !Forall_cons in Hint. destruct Hint as (H00 & H01 & H10 & H11 & _).
  exists (tiled h w p00 p01 p10 p11). split_and!.
  - by apply generate_bayer_map_2d.
  - done.
  - intros r c Hr Hc. eexists. split; [apply pattern_at_subscript2|].
    by apply item2_tiled.
  - intros i j Hi Hj. rewrite !item2_tiled by lia. unfold pattern_at.
    replace ((2 * i) mod 2) with 0 by lia.
    replace ((2 * j) mod 2) with 0 by lia.
    replace ((2 * i + 1) mod 2) with 1 by lia.
    replace ((2 * j + 1) mod 2) with 1 by lia. done.
  - apply distinct_values_tiled_le.
  - intros. by apply distinct_values_tiled.
  - intros. by apply count_value_tiled_balanced.
Qed.

(** The statement of C6 at a 3 by 5 sensor with the pattern
    [[0, 1], [3, 2]]. *)
Lemma generate_bayer_map_tiles_witness :
  Forall int64 [0; 1; 3; 2]%Z /\ NoDup [0; 1; 3; 2]%Z
  /\ exists bm,
    generate_bayer_map (bayer_image 3 5 0 1 3 2 (VStr ".dng") (VInt 528) (VInt 12)) = Ok bm
    /\ shape bm = [3; 5].
Proof.
  assert (Forall int64 [0; 1; 3; 2]%Z) as Hint
    by (repeat constructor; unfold int64; lia).
  assert (NoDup [0; 1; 3; 2]%Z) as Hnd by compute_done.
  split_and!; [done | done |].
  destruct (generate_bayer_map_tiles 3 5 0 1 3 2 (VStr ".dng") (VInt 528) (VInt 12) Hint Hnd)
    as (bm & Hbm & Hshape & _).
  by exists bm.
Defined.

(** Against claim C6 as stated: the Bayer map of a sensor of one pixel has
    one distinct value, not four. *)
Lemma generate_bayer_map_single_pixel :
  exists bm,
    generate_bayer_map (bayer_image 1 1 0 1 3 2 (VStr ".dng") (VInt 528) (VInt 12)) = Ok bm
    /\ distinct_values bm = 1 /\ distinct_values bm <> 4.
Proof.
  exists (NdArray [1; 1] [0%Z]). split; [reflexivity|].
  unfold distinct_values. cbn [data].
  assert (list_to_set [0%Z] =@{gset Z} {[0%Z]}) as -> by set_solver.
  rewrite size_singleton. done.
Qed.

Lemma Camera_init_cases d i s :
  (exists camera,
     Camera_init d i s = (bm ← generate_bayer_map (image camera);
                          Ok (mkCamera (device camera) (image camera)
                                       (settings camera) bm))
     /\ Device_new d = Ok (device camera)
     /\ Image_new i = Ok (image camera)
     /\ Settings_new s = Ok (settings camera)
     /\ dict_get i "shape" = Some (image_shape (image camera))
     /\ dict_get i "bayer_pattern" = Some (bayer_pattern (image camera))
     /\ exact_fields Device_fields d /\ exact_fields Image_fields i
     /\ exact_fields Settings_fields s)
  \/ (Camera_init d i s = Raise TypeError
      /\ ~ (exact_fields Device_fields d /\ exact_fields Image_fields i
            /\ exact_fields Settings_fields s)).
Proof.
  unfold Camera_init, exact_fields.
  destruct (Device_new_cases d) as [(dev & Hd & ? & ?)|[Hd ?]]; rewrite Hd;
    cbn [mbind result_bind]; [|right; tauto].
  destruct (Image_new_cases i) as [(img & Hi & ? & ? & ? & ?)|[Hi ?]]; rewrite Hi;
    cbn [mbind result_bind]; [|right; tauto].
  destruct (Settings_new_cases s) as [(set & Hs & ? & ?)|[Hs ?]]; rewrite Hs;
    cbn [mbind result_bind]; [|right; tauto].
  left. exists (mkCamera dev img set (NdArray [] [])). cbn. split_and!; done.
Qed.

(** Claim C5, as amended.  Constructing a [Camera] raises [TypeError]
    whenever a field is absent from one of the three records, and also
    whenever a record carries a keyword that is not a field; when each record
    has exactly its fields, the shape is a list of two non-negative integers
    and the Bayer pattern a 2 by 2 table of 64-bit integers, the construction
    succeeds, with the three records built from the three dictionaries and
    the Bayer map generated from the image record. *)
Theorem Camera_init_required_fields device_properties image_properties settings_properties :
  (~ (has_fields Device_fields device_properties
      /\ has_fields Image_fields image_properties
      /\ has_fields Settings_fields settings_properties) ->
   Camera_init device_properties image_properties settings_properties
   = Raise TypeError)
  /\ (~ (only_fields Device_fields device_properties
         /\ only_fields Image_fields image_properties
         /\ only_fields Settings_fields settings_properties) ->
      Camera_init device_properties image_properties settings_properties
      = Raise TypeError)
  /\ (forall h w p00 p01 p10 p11,
        exact_fields Device_fields device_properties ->
        exact_fields Image_fields image_properties ->
        exact_fields Settings_fields settings_properties ->
        dict_get image_properties "shape"
        = Some (VList [Z.of_nat h; Z.of_nat w]) ->
        dict_get image_properties "bayer_pattern"
        = Some (VTable [[p00; p01]; [p10; p11]]) ->
        Forall int64 [p00; p01; p10; p11] ->
        exists camera,
          Camera_init device_properties image_properties settings_properties
          = Ok camera
          /\ Device_new device_properties = Ok (device camera)
          /\ Image_new image_properties = Ok (image camera)
          /\ Settings_new settings_properties = Ok (settings camera)
          /\ generate_bayer_map (image camera) = Ok (bayer_map camera)).
Proof.
  destruct (Camera_init_cases device_properties image_properties
              settings_properties)
    as [(camera & Hinit & Hd & Hi & Hs & Hshape & Hpattern & Hed & Hei & Hes)
       |[Hinit Hne]]; unfold exact_fields in *.
  - split_and!; [tauto | tauto |].
    intros h w p00 p01 p10 p11 _ _ _ Hsh Hpat Hint.
    rewrite !Forall_cons in Hint. destruct Hint as (H00 & H01 & H10 & H11 & _).
    rewrite Hsh in Hshape. rewrite Hpat in Hpattern.
    injection Hshape as Hshape. injection Hpattern as Hpattern.
    destruct camera as [dev [sh ext b pat depth] set bm]; cbn in *. subst sh pat.
    pose proof (generate_bayer_map_2d h w p00 p01 p10 p11 ext b depth
                  H00 H01 H10 H11) as Hbm.
    unfold bayer_image in Hbm. rewrite Hbm in Hinit. cbn in Hinit.
    eexists. split_and!; [exact Hinit | exact Hd | exact Hi | exact Hs | exact Hbm].
  - split_and!; [done | done | tauto].
Qed.

(** The statement of C5 at the example records, and at a device record
    without its name. *)
Lemma Camera_init_required_fields_witness :
  Camera_init [("manufacturer", VStr "Apple")] example_image example_settings
  = Raise TypeError
  /\ exists camera,
       Camera_init example_device example_image example_settings = Ok camera.
Proof.
  split.
  - apply (proj1 (Camera_init_required_fields
                    [("manufacturer", VStr "Apple")] example_image
                    example_settings)).
    intros [Hdevice _].
    refine (bool_decide_eq_false_1 (has_fields Device_fields _) _ Hdevice).
    reflexivity.
  - destruct (Camera_init_required_fields
                example_device example_image example_settings)
      as (_ & _ & Hok).
    destruct (Hok 4 6 0%Z 1%Z 3%Z 2%Z) as (camera & Hcamera & _);
      [unfold exact_fields, has_fields, only_fields; split; compute_done..
      | reflexivity | reflexivity
      | repeat constructor; unfold int64; lia |].
    by exists camera.
Defined.

(** Against claim C5 as stated: a device record without [name] makes the
    construction raise [TypeError], not [ConfigurationError]; a device
    record that has both fields and a third keyword does not construct
    either; and with exactly the fields in every record, a Bayer pattern
    with the entry [2 ** 63] makes the construction raise
    [OverflowError]. *)
Lemma Camera_init_not_ConfigurationError :
  Camera_init [("manufacturer", VStr "Apple")] example_image example_settings
  = Raise TypeError
  /\ Camera_init [("manufacturer", VStr "Apple")] example_image example_settings
     <> Raise ConfigurationError
  /\ has_fields Device_fields (("model", VStr "A1723") :: example_device)
  /\ Camera_init (("model", VStr "A1723") :: example_device)
       example_image example_settings
     = Raise TypeError
  /\ exact_fields Image_fields
       [("shape", VList [4; 6]%Z); ("raw_extension", VStr ".dng");
        ("bias", VInt 528); ("bayer_pattern", VTable [[0; 1]; [3; 2 ^ 63]]%Z);
        ("bit_depth", VInt 12)]
  /\ Camera_init example_device
       [("shape", VList [4; 6]%Z); ("raw_extension", VStr ".dng");
        ("bias", VInt 528); ("bayer_pattern", VTable [[0; 1]; [3; 2 ^ 63]]%Z);
        ("bit_depth", VInt 12)]
       example_settings
     = Raise OverflowError.
Proof.
  split_and!; [reflexivity | discriminate | | reflexivity | | reflexivity].
  - unfold has_fields. compute_done.
  - unfold exact_fields, has_fields, only_fields. split; compute_done.
Qed.

Lemma dict_get_is_Some_key {V} (d : dict V) k :
  is_Some (dict_get d k) -> k ∈ dict_keys d.
Proof.
  unfold dict_get, dict_keys. intros [v Hv].
  destruct (List.find _ d) as [[k' v']|] eqn:Hfind; [|done].
  apply find_some in Hfind as [Hin Hk]. apply bool_decide_eq_true in Hk.
  cbn in Hk. subst k'. apply list_elem_of_fmap. exists (k, v').
  split; [done | by apply list_elem_of_In].
Qed.

(** A group that has a key of another record is refused by the three
    constructors. *)
Lemma foreign_keyword fields kw k :
  is_Some (dict_get kw k) -> k ∉ fields -> ~ only_fields fields kw.
Proof.
  intros Hk Hforeign Honly. unfold only_fields in Honly.
  rewrite Forall_forall in Honly. by apply Hforeign, Honly, dict_get_is_Some_key.
Qed.

Lemma Camera_init_foreign_keyword d i s :
  (exists k, is_Some (dict_get d k) /\ k ∉ Device_fields)
  \/ (exists k, is_Some (dict_get i k) /\ k ∉ Image_fields)
  \/ (exists k, is_Some (dict_get s k) /\ k ∉ Settings_fields) ->
  Camera_init d i s = Raise TypeError.
Proof.
  intros Hforeign.
  destruct (Camera_init_cases d i s)
    as [(camera & _ & _ & _ & _ & _ & _ & [_ Hd] & [_ Hi] & [_ Hs])|[Hinit _]];
    [exfalso | done].
  destruct Hforeign as [(k & Hk & Hf)|[(k & Hk & Hf)|(k & Hk & Hf)]];
    by eapply foreign_keyword.
Qed.

(** Claim C10, as amended.  [read_from_file] hands the groups of the
    dictionary to the constructor by position, whatever their keys, and
    raises [ValueError] unless there are exactly three.  When the keys are
    [device], [image] and [settings] in another order, either the
    construction fails or every record is built from the group at its
    position, one of them from the group under the key of another record;
    when moreover each group has the fields of the record that its key
    names, the construction raises [TypeError]. *)
Theorem read_from_file_by_position :
  (forall k1 k2 k3 d i s,
     read_from_file [(k1, d); (k2, i); (k3, s)] = Camera_init d i s)
  /\ (forall full_dictionary,
        length full_dictionary <> 3 ->
        read_from_file full_dictionary = Raise ValueError)
  /\ (forall full_dictionary,
        dict_keys full_dictionary ≡ₚ ["device"; "image"; "settings"] ->
        dict_keys full_dictionary <> ["device"; "image"; "settings"] ->
        (exists e, read_from_file full_dictionary = Raise e)
        \/ (exists camera k1 d k2 i k3 s,
              full_dictionary = [(k1, d); (k2, i); (k3, s)]
              /\ read_from_file full_dictionary = Ok camera
              /\ Device_new d = Ok (device camera)
              /\ Image_new i = Ok (image camera)
              /\ Settings_new s = Ok (settings camera)
              /\ (k1 ∈ ["image"; "settings"] \/ k2 ∈ ["device"; "settings"]
                  \/ k3 ∈ ["device"; "image"])))
  /\ (forall d i s full_dictionary,
        has_fields Device_fields d ->
        has_fields Image_fields i ->
        has_fields Settings_fields s ->
        full_dictionary ≡ₚ [("device", d); ("image", i); ("settings", s)] ->
        full_dictionary <> [("device", d); ("image", i); ("settings", s)] ->
        read_from_file full_dictionary = Raise TypeError).
Proof.
  split_and!.
  - done.
  - intros full_dictionary Hlen. unfold read_from_file, dict_values.
    by destruct full_dictionary as [|? [|? [|? [|? ?]]]].
  - intros full_dictionary Hperm Hne.
    destruct (read_from_file full_dictionary) as [camera|e] eqn:Hread;
      [right | left; by exists e].
    unfold read_from_file in Hread.
    destruct full_dictionary as [|[k1 d] [|[k2 i] [|[k3 s] [|? ?]]]];
      try discriminate Hread.
    cbn in Hread, Hne, Hperm.
    destruct (Camera_init_cases d i s)
      as [(c & Hinit & Hd & Hi & Hs & _)|[Hinit _]]; [|congruence].
    rewrite Hread in Hinit.
    destruct (generate_bayer_map (image c)) as [bm|] eqn:Hbm; [|discriminate].
    cbn in Hinit. injection Hinit as ->. cbn in *.
    exists (mkCamera (device c) (image c) (settings c) bm), k1, d, k2, i, k3, s.
    split_and!; try done.
    symmetry in Hperm. apply permutations_Permutation in Hperm. cbn in Hperm.
    rewrite !elem_of_cons, elem_of_nil in Hperm.
    destruct Hperm as [Hk|[Hk|[Hk|[Hk|[Hk|[Hk|[]]]]]]];
      injection Hk as -> -> ->; try done; set_solver.
  - intros d i s full_dictionary Hd Hi Hs Hperm Hne.
    unfold has_fields in Hd, Hi, Hs. rewrite Forall_forall in Hd, Hi, Hs.
    assert (is_Some (dict_get d "manufacturer")) as Hdk by (apply Hd; set_solver).
    assert (is_Some (dict_get i "shape")) as Hik by (apply Hi; set_solver).
    assert (is_Some (dict_get s "ISO_min")) as Hsk by (apply Hs; set_solver).
    assert (("manufacturer" ∉ Image_fields) /\ ("manufacturer" ∉ Settings_fields)
            /\ ("shape" ∉ Device_fields) /\ ("shape" ∉ Settings_fields)
            /\ ("ISO_min" ∉ Device_fields) /\ ("ISO_min" ∉ Image_fields))
      as (? & ? & ? & ? & ? & ?) by (split_and!; compute_done).
    symmetry in Hperm. apply permutations_Permutation in Hperm. cbn in Hperm.
    rewrite !elem_of_cons, elem_of_nil in Hperm.
    destruct Hperm as [->|[->|[->|[->|[->|[->|[]]]]]]]; try done;
      cbn [read_from_file dict_values fmap list_fmap snd];
      apply Camera_init_foreign_keyword; eauto 8.
Qed.

(** The statement of C10 at a metadata file that has the image group
    first, and at one that has the groups in order under the keys [a], [b]
    and [c]. *)
Lemma read_from_file_by_position_witness :
  has_fields Device_fields example_device
  /\ has_fields Image_fields example_image
  /\ has_fields Settings_fields example_settings
  /\ example_metadata
     ≡ₚ [("device", example_device); ("image", example_image);
         ("settings", example_settings)]
  /\ example_metadata
     <> [("device", example_device); ("image", example_image);
         ("settings", example_settings)]
  /\ read_from_file example_metadata = Raise TypeError
  /\ read_from_file
       [("a", example_device); ("b", example_image); ("c", example_settings)]
     = Camera_init example_device example_image example_settings.
Proof.
  assert (has_fields Device_fields example_device) as Hd
    by (unfold has_fields; compute_done).
  assert (has_fields Image_fields example_image) as Hi
    by (unfold has_fields; compute_done).
  assert (has_fields Settings_fields example_settings) as Hs
    by (unfold has_fields; compute_done).
  assert (example_metadata
          ≡ₚ [("device", example_device); ("image", example_image);
              ("settings", example_settings)]) as Hperm
    by apply Permutation_swap.
  assert (example_metadata
          <> [("device", example_device); ("image", example_image);
              ("settings", example_settings)]) as Hne by discriminate.
  destruct read_from_file_by_position as (Hposition & _ & _ & Horder).
  split_and!; [done | done | done | done | done | | apply Hposition].
  exact (Horder example_device example_image example_settings example_metadata
           Hd Hi Hs Hperm Hne).
Defined.

(** Against claim C10 as stated: a metadata file whose keys are [a], [b]
    and [c], over the groups of the device, the image and the settings in
    this order, constructs the camera of the file that has the keys
    [device], [image] and [settings]: the keys are not the three names in
    order, the construction does not fail and every record is built from
    its own group. *)
Lemma read_from_file_other_keys_same_camera :
  dict_keys [("a", example_device); ("b", example_image); ("c", example_settings)]
  <> ["device"; "image"; "settings"]
  /\ exists camera,
       read_from_file
         [("a", example_device); ("b", example_image); ("c", example_settings)]
       = Ok camera
       /\ read_from_file
            [("device", example_device); ("image", example_image);
             ("settings", example_settings)]
          = Ok camera
       /\ Device_new example_device = Ok (device camera)
       /\ Image_new example_image = Ok (image camera)
       /\ Settings_new example_settings = Ok (settings camera).
Proof.
  split; [discriminate|].
  eexists. split_and!; [by vm_compute | reflexivity..].
Qed.

(** ** The pipeline *)

Lemma lookup_app_at {A} (h l : list A) i x :
  l !! i = Some x -> (h ++ l) !! (i + length h) = Some x.
Proof.
  intros Hi. rewrite lookup_app_r by lia.
  by replace (i + length h - length h) with i by lia.
Qed.

(** Claim C1, as amended.  With a bias level of 528 taken from the
    metadata, a dark current of 0.001 ADU/s in every pixel and an exposure
    time of 2 s, bias correction followed by dark-current correction maps a
    frame of 600s to a frame of 71.998 = 600 - 528 - 0.001 * 2, and leaves
    the input as it was. *)
Theorem bias_then_dark_current_example (spectacle : Spectacle (T := Q))
    root s (h : heap (T := Q)) data :
  h !! data = Some (np_full s (600 # 1)%Q) ->
  load_bias_map spectacle root = Raise FileNotFoundError ->
  load_bias_metadata spectacle root = Ok (scalar (528 # 1)%Q) ->
  load_dark_current_map spectacle root = Ok (np_full s (1 # 1000)%Q) ->
  exists l h',
    bias_then_dark_current spectacle root data (2 # 1)%Q h = (Ok l, h')
    /\ h' !! l = Some (np_full s (35999 # 500)%Q)
    /\ h' !! data = Some (np_full s (600 # 1)%Q).
Proof.
  intros Hdata Hmap Hmeta Hdark. unfold bias_then_dark_current.
  unfold mbind, Py_bind.
  rewrite (correct_bias_run 0%Q spectacle qsub root data h _ Hdata).
  unfold resolved_bias. rewrite Hmap, Hmeta.
  change (is_FileNotFoundError FileNotFoundError) with true. cbn iota.
  rewrite np_binop_full_scalar.
  rewrite (correct_dark_current_run 0%Q spectacle qsub qmul root _ _ _
             (np_full s (qsub (600 # 1) (528 # 1))))
    by (by apply (lookup_app_at h _ 1)).
  rewrite Hdark, np_binop_full_scalar, np_binop_full_full.
  eexists _, _. split; [reflexivity|]. rewrite <- app_assoc. cbn [app]. split.
  - rewrite length_app. cbn [length].
    replace (S (S (length h + 2))) with (4 + length h) by lia.
    by apply (lookup_app_at h).
  - by apply lookup_app_l_Some.
Qed.

(** The statement of C1 at a 2 by 2 frame. *)
Lemma bias_then_dark_current_example_witness :
  exists l h',
    bias_then_dark_current (example_spectacle [2; 2]) "iPhone_SE" 0 (2 # 1)%Q
      [np_full [2; 2] (600 # 1)%Q] = (Ok l, h')
    /\ h' !! l = Some (np_full [2; 2] (35999 # 500)%Q).
Proof.
  destruct (bias_then_dark_current_example (example_spectacle [2; 2])
              "iPhone_SE" [2; 2] [np_full [2; 2] (600 # 1)%Q] 0)
    as (l & h' & Hrun & Hl & _); [reflexivity..|].
  by exists l, h'.
Defined.

(** Against claim C1 as stated: the value 600 comes out as 35999/500, which
    is 71.998 and not 69.998. *)
Lemma bias_then_dark_current_not_69_998 :
  exists l h' out,
    bias_then_dark_current (example_spectacle [1]) "iPhone_SE" 0 (2 # 1)%Q
      [np_full [1] (600 # 1)%Q] = (Ok l, h')
    /\ h' !! l = Some out
    /\ data out = [(35999 # 500)%Q]
    /\ ((35999 # 500) == (71998 # 1000))%Q
    /\ ~ ((35999 # 500) == (69998 # 1000))%Q.
Proof.
  eexists _, _, _. split_and!; [reflexivity | reflexivity | reflexivity | done | done].
Qed.

(** A stage whose map cannot be resolved raises the exception of the
    resolution and leaves the heap as it was. *)
Lemma run_stage_resolved_Raise {T} (zero : T) (tsub tmul tdiv : T -> T -> T)
    (spectacle : Spectacle (T := T)) k exposure_time iso_values root data
    (h : heap (T := T)) a e :
  h !! data = Some a ->
  resolved_map spectacle k root = Raise e ->
  run_stage zero tsub tmul tdiv spectacle
    (stage_of_kind k exposure_time iso_values) root data h
  = (Raise e, h).
Proof.
  intros Hdata He. destruct k; cbn [stage_of_kind run_stage resolved_map] in *.
  - by rewrite (correct_bias_run _ _ _ _ _ _ _ Hdata), He.
  - by rewrite (correct_dark_current_run _ _ _ _ _ _ _ _ _ Hdata), He.
  - by rewrite correct_flatfield_run, He.
  - by rewrite normalise_iso_run, He.
  - by rewrite (convert_to_photoelectrons_run _ _ _ _ _ _ _ Hdata), He.
Qed.

(** With the loaders of the spec, every stage resolves its map by the
    search of the spec; for the bias the search is carried out by the [try]
    and [except] of [correct_bias]. *)
Lemma resolved_map_file_spectacle {T} (zero : T) (tdiv : T -> T -> T) border
    (files : string -> products) k root :
  resolved_map (file_spectacle zero tdiv border files) k root
  = spec_load files k root.
Proof.
  destruct k; try reflexivity.
  unfold resolved_map, resolved_bias, spec_load.
  cbn [file_spectacle load_bias_map load_bias_metadata map_file].
  by destruct (bias_map_npy (files root)).
Qed.

(** Claim C2.  With the loaders of the spec, a stage works with the map of
    the precomputed file whenever there is one; without a file, the bias
    and the gain stages work with the value of the metadata, as a scalar;
    without a file and without such a value, every stage raises
    [CalibrationNotFoundError] with the name of the kind and the camera
    folder, and leaves the heap as it was.  Bias correction subtracts the
    map that it resolved and gain conversion divides by it.  For the bias
    the outcome is the same with a [load_bias_map] that carries out the
    whole search by itself. *)
Theorem calibration_map_resolution {T} (zero : T) (tsub tmul tdiv : T -> T -> T)
    border (files : string -> products) k root data (h : heap (T := T)) a :
  h !! data = Some a ->
  (forall m, map_file (files root) k = Some m ->
     resolved_map (file_spectacle zero tdiv border files) k root = Ok m)
  /\ (forall v, map_file (files root) k = None ->
        admits_fallback k = true ->
        metadata_value (files root) k = Some v ->
        resolved_map (file_spectacle zero tdiv border files) k root
        = Ok (scalar v))
  /\ (map_file (files root) k = None ->
      admits_fallback k = false \/ metadata_value (files root) k = None ->
      forall exposure_time iso_values,
        run_stage zero tsub tmul tdiv (file_spectacle zero tdiv border files)
          (stage_of_kind k exposure_time iso_values) root data h
        = (Raise (CalibrationNotFoundError (kind_name k) root), h))
  /\ (forall b,
        resolved_map (file_spectacle zero tdiv border files) Bias root = Ok b ->
        correct_bias zero tsub (file_spectacle zero tdiv border files)
          root data h
        = match np_binop zero tsub a b with
          | Ok c => (Ok (S (length h)), h ++ [b; c])
          | Raise e => (Raise e, h ++ [b])
          end)
  /\ (forall b,
        resolved_map (file_spectacle zero tdiv border files) Gain root = Ok b ->
        convert_to_photoelectrons zero tdiv
          (file_spectacle zero tdiv border files) root data h
        = match np_binop zero tdiv a b with
          | Ok c => (Ok (S (length h)), h ++ [b; c])
          | Raise e => (Raise e, h ++ [b])
          end)
  /\ (forall spectacle : Spectacle (T := T),
        load_bias_map spectacle root = spec_load files Bias root ->
        load_bias_metadata spectacle root = spec_fallback files Bias root ->
        resolved_map spectacle Bias root
        = resolved_map (file_spectacle zero tdiv border files) Bias root).
Proof.
  intros Hdata. split_and!.
  - intros m Hm. rewrite resolved_map_file_spectacle. unfold spec_load.
    by rewrite Hm.
  - intros v Hm Hk Hv. rewrite resolved_map_file_spectacle.
    unfold spec_load, spec_fallback. by rewrite Hm, Hk, Hv.
  - intros Hm Hnone x iso.
    apply (run_stage_resolved_Raise _ _ _ _ _ _ _ _ _ _ _ a); [done|].
    rewrite resolved_map_file_spectacle. unfold spec_load, spec_fallback.
    rewrite Hm. destruct Hnone as [->| ->]; [done|].
    by destruct (admits_fallback k).
  - intros b Hb. rewrite (correct_bias_run _ _ _ _ _ _ _ Hdata).
    cbn [resolved_map] in Hb. by rewrite Hb.
  - intros b Hb. rewrite (convert_to_photoelectrons_run _ _ _ _ _ _ _ Hdata).
    cbn [resolved_map] in Hb. by rewrite Hb.
  - intros spectacle Hmap Hmeta. rewrite resolved_map_file_spectacle.
    cbn [resolved_map]. unfold resolved_bias. rewrite Hmap, Hmeta.
    unfold spec_load, spec_fallback.
    destruct (map_file (files root) Bias); [done|].
    by destruct (if admits_fallback Bias then _ else _).
Qed.

(** The statement of C2 at a camera folder that has the metadata, with a
    bias level of 528 and a gain of 2, and no product: bias correction and
    gain conversion work with the values of the metadata, dark-current
    correction raises [CalibrationNotFoundError]. *)
Lemma calibration_map_resolution_witness :
  [np_full [2; 2] (600 # 1)%Q] !! 0 = Some (np_full [2; 2] (600 # 1)%Q)
  /\ correct_bias 0%Q qsub (file_spectacle 0%Q qdiv 0 (fun _ => metadata_only))
       "iPhone_SE" 0 [np_full [2; 2] (600 # 1)%Q]
     = (Ok 2, [np_full [2; 2] (600 # 1)%Q; scalar (528 # 1)%Q;
               np_full [2; 2] (72 # 1)%Q])
  /\ convert_to_photoelectrons 0%Q qdiv
       (file_spectacle 0%Q qdiv 0 (fun _ => metadata_only))
       "iPhone_SE" 0 [np_full [2; 2] (600 # 1)%Q]
     = (Ok 2, [np_full [2; 2] (600 # 1)%Q; scalar (2 # 1)%Q;
               np_full [2; 2] (300 # 1)%Q])
  /\ correct_dark_current 0%Q qsub qmul
       (file_spectacle 0%Q qdiv 0 (fun _ => metadata_only))
       "iPhone_SE" 0 (Num (2 # 1)%Q) [np_full [2; 2] (600 # 1)%Q]
     = (Raise (CalibrationNotFoundError "dark current" "iPhone_SE"),
        [np_full [2; 2] (600 # 1)%Q]).
Proof.
  split; [reflexivity|]. split_and!.
  - destruct (calibration_map_resolution 0%Q qsub qmul qdiv 0
                (fun _ => metadata_only) Bias "iPhone_SE" 0
                [np_full [2; 2] (600 # 1)%Q] (np_full [2; 2] (600 # 1)%Q)
                eq_refl) as (_ & Hfallback & _ & Hbias & _ & _).
    rewrite (Hbias (scalar (528 # 1)%Q)); [reflexivity|].
    by apply Hfallback.
  - destruct (calibration_map_resolution 0%Q qsub qmul qdiv 0
                (fun _ => metadata_only) Gain "iPhone_SE" 0
                [np_full [2; 2] (600 # 1)%Q] (np_full [2; 2] (600 # 1)%Q)
                eq_refl) as (_ & Hfallback & _ & _ & Hgain & _).
    rewrite (Hgain (scalar (2 # 1)%Q)); [reflexivity|].
    by apply Hfallback.
  - destruct (calibration_map_resolution 0%Q qsub qmul qdiv 0
                (fun _ => metadata_only) DarkCurrent "iPhone_SE" 0
                [np_full [2; 2] (600 # 1)%Q] (np_full [2; 2] (600 # 1)%Q)
                eq_refl) as (_ & _ & Hmissing & _).
    exact (Hmissing eq_refl (or_introl eq_refl) (2 # 1)%Q (PyInt 2)).
Defined.

Lemma np_binop_shape {A} (dflt : A) f (a b : ndarray A) :
  match np_binop dflt f a b with
  | Ok c => broadcast_shapes (shape a) (shape b) = Some (shape c)
  | Raise e => e = ValueError /\ broadcast_shapes (shape a) (shape b) = None
  end.
Proof. unfold np_binop. by destruct (broadcast_shapes _ _). Qed.

(** Claim C4, as amended.  Gain conversion and flat-field correction
    broadcast the data (clipped, for the flat field) against their map: when
    the two shapes cannot be broadcast together the stage raises numpy's
    [ValueError]; when they can, the stage returns an array of the broadcast
    shape, also when the shapes differ. *)
Theorem shape_mismatch_is_ValueError {T} (zero : T) (tmul tdiv : T -> T -> T)
    (spectacle : Spectacle (T := T)) root data (h : heap (T := T)) a m :
  h !! data = Some a ->
  (load_gain_map spectacle root = Ok m ->
   (broadcast_shapes (shape a) (shape m) = None ->
    convert_to_photoelectrons zero tdiv spectacle root data h
    = (Raise ValueError, h ++ [m]))
   /\ (forall s, broadcast_shapes (shape a) (shape m) = Some s ->
       exists c,
         convert_to_photoelectrons zero tdiv spectacle root data h
         = (Ok (S (length h)), h ++ [m; c])
         /\ shape c = s))
  /\ (load_flat_field_correction_map spectacle root = Ok m ->
      forall data_clipped h' a',
        clip_data spectacle data (h ++ [m]) = (Ok data_clipped, h') ->
        h' !! data_clipped = Some a' ->
        h' !! length h = Some m ->
        (broadcast_shapes (shape a') (shape m) = None ->
         correct_flatfield zero tmul spectacle root data h
         = (Raise ValueError, h'))
        /\ (forall s, broadcast_shapes (shape a') (shape m) = Some s ->
            exists c,
              correct_flatfield zero tmul spectacle root data h
              = (Ok (length h'), h' ++ [c])
              /\ shape c = s)).
Proof.
  intros Hdata. split.
  - intros Hm. rewrite (convert_to_photoelectrons_run _ _ _ _ _ _ _ Hdata), Hm.
    pose proof (np_binop_shape zero tdiv a m) as Hshape.
    destruct (np_binop zero tdiv a m) as [c|e]; split.
    + congruence.
    + intros s Hs. exists c. split; [done | congruence].
    + by destruct Hshape as [-> _].
    + intros s Hs. destruct Hshape; congruence.
  - intros Hm l h' a' Hclip Ha' Hm'. rewrite correct_flatfield_run, Hm, Hclip.
    rewrite (array_op_Ref_Ref _ _ _ _ _ _ _ Ha' Hm').
    pose proof (np_binop_shape zero tmul a' m) as Hshape.
    destruct (np_binop zero tmul a' m) as [c|e]; split.
    + congruence.
    + intros s Hs. exists c. split; [done | congruence].
    + by destruct Hshape as [-> _].
    + intros s Hs. destruct Hshape; congruence.
Qed.

(** The statement of C4 at data of shape [(50, 50)] and a gain map of
    shape [(1, 1)]. *)
Lemma shape_mismatch_is_ValueError_witness :
  [np_full [50; 50] (600 # 1)%Q] !! 0 = Some (np_full [50; 50] (600 # 1)%Q)
  /\ broadcast_shapes [50; 50] [1; 1] = Some [50; 50]
  /\ exists c,
       convert_to_photoelectrons 0%Q qdiv (example_spectacle [50; 50])
         "iPhone_SE" 0 [np_full [50; 50] (600 # 1)%Q]
       = (Ok 2, [np_full [50; 50] (600 # 1)%Q; np_full [1; 1] (2 # 1)%Q; c])
       /\ shape c = [50; 50].
Proof.
  split; [reflexivity|]. split; [reflexivity|].
  destruct (shape_mismatch_is_ValueError 0%Q qmul qdiv
              (example_spectacle [50; 50]) "iPhone_SE" 0
              [np_full [50; 50] (600 # 1)%Q] (np_full [50; 50] (600 # 1)%Q)
              (np_full [1; 1] (2 # 1)%Q) eq_refl) as [Hgain _].
  destruct (Hgain eq_refl) as [_ Hok].
  destruct (Hok [50; 50] eq_refl) as (c & Hc & Hs).
  by exists c.
Defined.

(** Against claim C4 as stated: a flat-field map of shape [(100, 100)] on
    data of shape [(50, 50)] raises [ValueError], not [ShapeMismatchError];
    and a gain map of shape [(1, 1)] on data of shape [(2, 2)] raises
    nothing. *)
Lemma flat_field_100_on_50_is_ValueError :
  let h := [np_full [50; 50] (600 # 1)%Q] in
  (correct_flatfield 0%Q qmul (example_spectacle [50; 50]) "iPhone_SE" 0 h).1
  = Raise ValueError
  /\ Raise (A := loc) ValueError <> Raise ShapeMismatchError
  /\ shape (np_full [2; 2] (600 # 1)%Q) <> shape (np_full [1; 1] (2 # 1)%Q)
  /\ (convert_to_photoelectrons 0%Q qdiv (example_spectacle [2; 2]) "iPhone_SE" 0
        [np_full [2; 2] (600 # 1)%Q]).1 = Ok 2.
Proof. split_and!; [by vm_compute | discriminate | discriminate | reflexivity]. Qed.

(** What [normalise_iso] runs once the look-up table is loaded. *)
Lemma normalise_iso_branch {T} (spectacle : Spectacle (T := T)) root data
    (iso_values : iso_value T) (h : heap (T := T)) lookup_table :
  load_iso_lookup_table spectacle root = Ok lookup_table ->
  normalise_iso spectacle root data iso_values h
  = if isinstance_int_float iso_values
    then normalise_single_iso spectacle data iso_values (length h)
           (h ++ [lookup_table])
    else normalise_multiple_iso spectacle data iso_values (length h)
           (h ++ [lookup_table]).
Proof.
  intros Ht. rewrite normalise_iso_run, Ht.
  by destruct (isinstance_int_float iso_values).
Qed.

(** Claim C8, at the input where the code departs from it.  A numpy
    integer is a single number, yet [normalise_iso] hands it to
    [normalise_multiple_iso]: with the example look-up table the ISO speed 2
    normalises the data as a Python [int] and raises [TypeError] as a numpy
    integer. *)
Theorem normalise_iso_numpy_integer :
  (forall n, is_single_number (NumpyInteger (T := Q) n) = true)
  /\ (forall (spectacle : Spectacle (T := Q)) root data n h lookup_table,
        load_iso_lookup_table spectacle root = Ok lookup_table ->
        normalise_iso spectacle root data (NumpyInteger n) h
        = normalise_multiple_iso spectacle data (NumpyInteger n) (length h)
            (h ++ [lookup_table]))
  /\ (let h := [np_full [2; 2] (600 # 1)%Q] in
      normalise_iso (example_spectacle [2; 2]) "iPhone_SE" 0 (PyInt 2) h
      = (Ok 2, h ++ [NdArray [3; 2] [0; 1 # 2; 1; 1; 2; 2]%Q;
                     np_full [2; 2] (300 # 1)%Q])
      /\ normalise_iso (example_spectacle [2; 2]) "iPhone_SE" 0 (NumpyInteger 2) h
         = (Raise TypeError, h ++ [NdArray [3; 2] [0; 1 # 2; 1; 1; 2; 2]%Q])).
Proof.
  split_and!; [done | | split; reflexivity].
  intros spectacle root data n h t Ht.
  by rewrite (normalise_iso_branch _ _ _ _ _ _ Ht).
Qed.

(** The implementation of the imported functions respects the frame. *)
Lemma file_spectacle_frame_respecting {T} (zero : T) tdiv border files :
  frame_respecting (file_spectacle zero tdiv border files).
Proof.
  split_and!; intros; cbn [file_spectacle clip_data normalise_single_iso
                           normalise_multiple_iso];
    unfold spec_clip_data, spec_normalise_single_iso,
           spec_normalise_multiple_iso; try split; frame.
Qed.

(** Claim C9.  Provided the imported functions that receive the data leave
    the existing arrays alone and return arrays of their own, every stage
    leaves its input array, and every other array, as it was, and the array
    it returns is a new one, distinct from the input. *)
Theorem stages_leave_input_unchanged {T} (zero : T) (tsub tmul tdiv : T -> T -> T)
    (spectacle : Spectacle (T := T)) st root data (h : heap (T := T)) a :
  frame_respecting spectacle ->
  h !! data = Some a ->
  exists r h',
    run_stage zero tsub tmul tdiv spectacle st root data h = (r, h')
    /\ h' !! data = Some a
    /\ h `prefix_of` h'
    /\ (forall l, r = Ok l ->
          l <> data /\ h !! l = None /\ is_Some (h' !! l)).
Proof.
  intros Hframe Hdata.
  pose proof (run_stage_heap_grows spectacle zero tsub tmul tdiv st root data
                Hframe h) as Hgrows.
  pose proof (run_stage_returns_new spectacle zero tsub tmul tdiv st root data
                Hframe h) as Hnew.
  destruct (run_stage zero tsub tmul tdiv spectacle st root data h) as [r h'].
  cbn in Hgrows, Hnew. exists r, h'. split_and!; [done | | done |].
  - by eapply prefix_lookup_Some.
  - intros l ->. specialize (Hnew l eq_refl).
    apply lookup_lt_Some in Hdata. split_and!.
    + lia.
    + apply lookup_ge_None. lia.
    + apply lookup_lt_is_Some. lia.
Qed.

(** The statement of C9 at ISO normalisation of a 2 by 2 frame, with the
    implementation of the imported functions given above. *)
Lemma stages_leave_input_unchanged_witness :
  frame_respecting (example_spectacle [2; 2])
  /\ [np_full [2; 2] (600 # 1)%Q] !! 0 = Some (np_full [2; 2] (600 # 1)%Q)
  /\ exists r h',
       run_stage 0%Q qsub qmul qdiv (example_spectacle [2; 2])
         (IsoNormalisation (PyInt 2)) "iPhone_SE" 0
         [np_full [2; 2] (600 # 1)%Q] = (r, h')
       /\ h' !! 0 = Some (np_full [2; 2] (600 # 1)%Q).
Proof.
  assert (frame_respecting (example_spectacle [2; 2])) as Hframe
    by apply file_spectacle_frame_respecting.
  split; [exact Hframe|]. split; [reflexivity|].
  destruct (stages_leave_input_unchanged 0%Q qsub qmul qdiv
              (example_spectacle [2; 2]) (IsoNormalisation (PyInt 2))
              "iPhone_SE" 0 [np_full [2; 2] (600 # 1)%Q] _ Hframe eq_refl)
    as (r & h' & Hrun & Hdata & _).
  by exists r, h'.
Defined.

(** ** The ISO normalisation script *)

Lemma list_min_elem_of l m : list_min l = Some m -> m ∈ l.
Proof.
  revert m. induction l as [|x l IH]; intros m; cbn; [done|].
  intros [= <-]. destruct (list_min l) as [m'|] eqn:Hl; cbn.
  - destruct (Z.min_spec x m') as [[_ ->]|[_ ->]]; [left | right; by apply IH].
  - left.
Qed.

Lemma lookup_table_fmap {T} ISO_max (model : Z -> T) :
  lookup_table ISO_max model
  = (fun k => (Z.of_nat k, model (Z.of_nat k))) <$> seq 0 (Z.to_nat (ISO_max + 1)).
Proof.
  unfold lookup_table, np_arange.
  induction (seq 0 (Z.to_nat (ISO_max + 1))) as [|k l IH]; [done|].
  cbn. by rewrite <- IH.
Qed.

(** The look-up table of a model has one row for every integer ISO speed
    from 0 to the maximum, in order, each with the value of the model at
    that speed, and no other row. *)
Lemma lookup_table_rows {T} (ISO_max : Z) (model : Z -> T) :
  length (lookup_table ISO_max model) = Z.to_nat (ISO_max + 1)
  /\ (forall iso, (0 <= iso <= ISO_max)%Z ->
        lookup_table ISO_max model !! Z.to_nat iso = Some (iso, model iso))
  /\ (forall row, row ∈ lookup_table ISO_max model ->
        (0 <= row.1 <= ISO_max)%Z /\ row.2 = model row.1).
Proof.
  rewrite lookup_table_fmap. split_and!.
  - by rewrite length_fmap, length_seq.
  - intros iso Hiso. rewrite list_lookup_fmap, lookup_seq_lt by lia. cbn.
    by rewrite Z2Nat.id by lia.
  - intros row (k & -> & Hk%elem_of_seq)%list_elem_of_fmap. cbn.
    split; [lia|done].
Qed.

Section Script.
Context {T : Type} (zero : T) (tdiv : T -> T -> T).
Context (np_mean np_std : list T -> T).
Context (fit : list Z -> ndarray T -> ndarray T -> Z -> Z
               -> result (iso_fit (T := T))).

(** The table that the script saves is the look-up table of the fitted
    model. *)
Lemma normalise_and_fit_lookup_table ISO_min ISO_max isos means out :
  normalise_and_fit zero tdiv np_mean np_std fit ISO_min ISO_max isos means
  = Ok out ->
  exists ratios_mean ratios_errs f,
    fit isos ratios_mean ratios_errs ISO_min ISO_max = Ok f
    /\ saved_lookup_table out = lookup_table ISO_max (model f).
Proof.
  unfold normalise_and_fit. intros Hout.
  repeat match type of Hout with
         | mbind _ ?m = _ => destruct m eqn:?; cbn in Hout; [|discriminate]
         end.
  injection Hout as <-. cbn. eauto.
Qed.

(** Claim C3, as amended.  Once the camera has settings, the bias
    correction succeeded and the standard deviations were divided by the
    means, the script raises [AssertionError] whenever the lowest ISO speed
    of the data is not the camera's minimum ISO speed, in particular whenever
    the data has no measurement at that speed; when the lowest ISO speed is
    the minimum, the script goes on to normalise and fit. *)
Theorem iso_normalisation_lowest_iso camera ISO_min ISO_max isos_of_means
    means isos stds means' lowest :
  camera_settings camera = Some (ISO_min, ISO_max) ->
  camera_correct_bias camera means = Ok means' ->
  is_Ok (np_binop zero tdiv stds means') ->
  list_min isos = Some lowest ->
  (lowest <> ISO_min ->
   iso_normalisation zero tdiv np_mean np_std fit camera
     (isos_of_means, means) (isos, stds) = Raise AssertionError)
  /\ (ISO_min ∉ isos ->
      iso_normalisation zero tdiv np_mean np_std fit camera
        (isos_of_means, means) (isos, stds) = Raise AssertionError)
  /\ (lowest = ISO_min ->
      iso_normalisation zero tdiv np_mean np_std fit camera
        (isos_of_means, means) (isos, stds)
      = normalise_and_fit zero tdiv np_mean np_std fit ISO_min ISO_max
          isos means').
Proof.
  intros Hsettings Hbias [errs Herrs] Hmin.
  assert (forall b : bool,
            bool_decide (lowest = ISO_min) = b ->
            iso_normalisation zero tdiv np_mean np_std fit camera
              (isos_of_means, means) (isos, stds)
            = if b
              then normalise_and_fit zero tdiv np_mean np_std fit ISO_min
                     ISO_max isos means'
              else Raise AssertionError) as Hrun.
  { intros b Hb. unfold iso_normalisation, np_min.
    rewrite Hsettings. cbn. rewrite Hbias. cbn. rewrite Herrs. cbn.
    rewrite Hmin. cbn. rewrite Hb. by destruct b. }
  split_and!.
  - intros Hne. by rewrite (Hrun false) by by apply bool_decide_eq_false_2.
  - intros Hnotin. rewrite (Hrun false); [done|].
    apply bool_decide_eq_false_2. intros <-.
    by apply Hnotin, list_min_elem_of.
  - intros Heq. by rewrite (Hrun true) by by apply bool_decide_eq_true_2.
Qed.
End Script.

(** The statement of C3 at measurements at ISO 23 and 100. *)
Lemma iso_normalisation_lowest_iso_witness :
  camera_settings example_script_camera = Some (23, 200)%Z
  /\ camera_correct_bias example_script_camera
       (NdArray [2; 1; 1] [600 # 1; 700 # 1]%Q)
     = Ok (NdArray [2; 1; 1] [72 # 1; 172 # 1]%Q)
  /\ list_min [23; 100]%Z = Some 23%Z
  /\ forall np_mean np_std fit,
       iso_normalisation 0%Q qdiv np_mean np_std fit example_script_camera
         ([23; 100]%Z, NdArray [2; 1; 1] [600 # 1; 700 # 1]%Q)
         ([23; 100]%Z, NdArray [2; 1; 1] [1 # 1; 1 # 1]%Q)
       = normalise_and_fit 0%Q qdiv np_mean np_std fit 23 200 [23; 100]%Z
           (NdArray [2; 1; 1] [72 # 1; 172 # 1]%Q).
Proof.
  split_and!; [reflexivity | reflexivity | reflexivity |].
  intros np_mean np_std fit.
  apply (iso_normalisation_lowest_iso 0%Q qdiv np_mean np_std fit
           example_script_camera 23 200 [23; 100]%Z
           (NdArray [2; 1; 1] [600 # 1; 700 # 1]%Q) [23; 100]%Z
           (NdArray [2; 1; 1] [1 # 1; 1 # 1]%Q)
           (NdArray [2; 1; 1] [72 # 1; 172 # 1]%Q) 23%Z);
    [reflexivity | reflexivity | by eexists | reflexivity | reflexivity].
Defined.

(** Against claim C3 as stated: without a measurement at ISO 23 the script
    raises [AssertionError], not [InsufficientCalibrationDataError]; and with
    measurements at ISO 10, 23 and 100 it raises it too, although the
    measurement at ISO 23 is there. *)
Lemma iso_normalisation_raises_AssertionError :
  (forall np_mean np_std fit,
     iso_normalisation 0%Q qdiv np_mean np_std fit example_script_camera
       ([50; 100]%Z, NdArray [2; 1; 1] [600 # 1; 700 # 1]%Q)
       ([50; 100]%Z, NdArray [2; 1; 1] [1 # 1; 1 # 1]%Q)
     = Raise AssertionError)
  /\ AssertionError <> InsufficientCalibrationDataError
  /\ 23%Z ∈ [10; 23; 100]%Z
  /\ (forall np_mean np_std fit,
        iso_normalisation 0%Q qdiv np_mean np_std fit example_script_camera
          ([10; 23; 100]%Z, NdArray [3; 1; 1] [560 # 1; 600 # 1; 700 # 1]%Q)
          ([10; 23; 100]%Z, NdArray [3; 1; 1] [1 # 1; 1 # 1; 1 # 1]%Q)
        = Raise AssertionError).
Proof. split_and!; [done | done | set_solver | done]. Qed.

(** ** The look-up table and the selected model *)

Lemma mapM_Ok_elem {A B} (f : A -> result B) l k y :
  mapM f l = Ok k -> y ∈ k -> exists x, x ∈ l /\ f x = Ok y.
Proof.
  revert k. induction l as [|x l IH]; intros k; cbn.
  - intros [= <-] Hy. by apply elem_of_nil in Hy.
  - destruct (f x) as [z|] eqn:Hz; cbn; [|done].
    destruct (mapM f l) as [k'|] eqn:Hk; cbn; [|done].
    intros [= <-] [->|Hy]%elem_of_cons.
    + exists x. split; [left | done].
    + destruct (IH k' eq_refl Hy) as (x' & Hx' & Hfx').
      exists x'. split; [by right | done].
Qed.

Section Selection.
Context {T : Type} (tle : T -> T -> bool).
Implicit Types f g : iso_fit (T := T).

Lemma foldl_better_fit_elem f rest : foldl (better_fit tle) f rest ∈ f :: rest.
Proof.
  revert f. induction rest as [|g rest IH]; intros f; cbn; [left|].
  specialize (IH (better_fit tle f g)). apply elem_of_cons in IH as [->|IH].
  - unfold better_fit. destruct (tle _ _); [left | right; left].
  - right. by right.
Qed.

Lemma foldl_better_fit_best f rest :
  (forall x y, tle x y = true \/ tle y x = true) ->
  (forall x y z, tle x y = true -> tle y z = true -> tle x z = true) ->
  forall g, g ∈ f :: rest ->
    tle (R2 g) (R2 (foldl (better_fit tle) f rest)) = true.
Proof.
  intros Htotal Htrans. revert f.
  induction rest as [|g' rest IH]; intros f g Hg; cbn.
  - apply list_elem_of_singleton in Hg as ->. by destruct (Htotal (R2 f) (R2 f)).
  - assert (tle (R2 f) (R2 (better_fit tle f g')) = true
            /\ tle (R2 g') (R2 (better_fit tle f g')) = true) as [Hf Hg'].
    { unfold better_fit. destruct (tle (R2 g') (R2 f)) eqn:Hle.
      - split; [by destruct (Htotal (R2 f) (R2 f)) | done].
      - split; [|by destruct (Htotal (R2 g') (R2 g'))].
        destruct (Htotal (R2 f) (R2 g')); [done | congruence]. }
    pose proof (IH (better_fit tle f g') _ ltac:(left)) as Hbest.
    apply elem_of_cons in Hg as [->|[->|Hg]%elem_of_cons].
    + by eapply Htrans.
    + by eapply Htrans.
    + apply IH. by right.
Qed.
End Selection.

Section Table.
Context {T : Type} (zero : T) (tdiv : T -> T -> T).
Context (np_mean np_std : list T -> T).

(** A run of the script that reaches its end has passed every step. *)
Lemma iso_normalisation_Ok fit camera loaded_means loaded_stds out :
  iso_normalisation zero tdiv np_mean np_std fit camera loaded_means loaded_stds
  = Ok out ->
  exists ISO_min ISO_max means,
    camera_settings camera = Some (ISO_min, ISO_max)
    /\ camera_correct_bias camera loaded_means.2 = Ok means
    /\ list_min loaded_stds.1 = Some ISO_min
    /\ normalise_and_fit zero tdiv np_mean np_std fit ISO_min ISO_max
         loaded_stds.1 means = Ok out.
Proof.
  unfold iso_normalisation, np_min. destruct loaded_stds as [isos stds].
  destruct (camera_settings camera) as [[ISO_min ISO_max]|]; cbn; [|done].
  destruct (camera_correct_bias camera loaded_means.2) as [means|]; cbn; [|done].
  destruct (np_binop zero tdiv stds means); cbn; [|done].
  destruct (list_min isos) as [lowest|]; cbn; [|done].
  case_bool_decide as Hlowest; cbn; [|done]. subst lowest. intros Hrun.
  by exists ISO_min, ISO_max, means.
Qed.

End Table.

Lemma example_enforcing_enforces :
  enforces_normalisation (1 # 1)%Q example_enforcing.
Proof.
  intros isos ratios ratios_errs min_iso max_iso f [= <-]. cbn.
  by rewrite Z.sub_diag.
Qed.



(** * Further properties *)

(** ** The camera as a dictionary *)

Lemma Device_new_asdict d : Device_new (Device_asdict d) = Ok d.
Proof. by destruct d. Qed.
Lemma Image_new_asdict i : Image_new (Image_asdict i) = Ok i.
Proof. by destruct i. Qed.
Lemma Settings_new_asdict s : Settings_new (Settings_asdict s) = Ok s.
Proof. by destruct s. Qed.

(** Property X1 ([Camera._as_dict], [Camera.read_from_file]).  Reading back
    the dictionary that [_as_dict] builds, which is what [write_to_file]
    hands to [json.dump], gives the camera again, provided its Bayer map is
    the one of its image record: the groups are written in the order in
    which [read_from_file] unpacks them, each with exactly the fields of its
    record. *)
Theorem read_from_file_as_dict c :
  generate_bayer_map (image c) = Ok (bayer_map c) ->
  read_from_file (_as_dict c) = Ok c.
Proof.
  intros Hbm. unfold read_from_file, _as_dict, Camera_init. cbn [dict_values fmap list_fmap snd].
  rewrite Device_new_asdict, Image_new_asdict, Settings_new_asdict.
  cbn [mbind result_bind]. rewrite Hbm. by destruct c.
Qed.

(** The statement of X1 at the camera of the example. *)
Lemma read_from_file_as_dict_witness :
  exists c,
    Camera_init example_device example_image example_settings = Ok c
    /\ read_from_file (_as_dict c) = Ok c.
Proof.
  eexists. split; [reflexivity|].
  apply read_from_file_as_dict. reflexivity.
Defined.

Lemma dict_get_cons {V} (k' : string) (v : V) d k :
  dict_get ((k', v) :: d) k = if bool_decide (k' = k) then Some v else dict_get d k.
Proof. unfold dict_get. cbn. by case_bool_decide. Qed.

Lemma dict_get_not_key {V} (d : dict V) k : k ∉ dict_keys d -> dict_get d k = None.
Proof.
  induction d as [|[k' v] d IH]; [done|]. intros Hk. cbn in Hk.
  apply not_elem_of_cons in Hk as [Hne Hk].
  rewrite dict_get_cons, bool_decide_eq_false_2 by done. by apply IH.
Qed.

Lemma only_fields_dict_get fields kw k :
  only_fields fields kw -> k ∉ fields -> dict_get kw k = None.
Proof.
  unfold only_fields. rewrite Forall_forall. intros Ho Hk.
  apply dict_get_not_key. intros Hin. by apply Hk, Ho.
Qed.

Ltac new_Ok H :=
  repeat match type of H with
         | mbind _ (no_unexpected_keyword ?f ?kw) = _ =>
             let Hn := fresh "Hn" in
             destruct (no_unexpected_keyword_cases f kw) as [[Hn ?]|[Hn ?]];
             rewrite Hn in H; cbn [mbind result_bind] in H; [|discriminate H]
         | mbind _ (keyword ?kw ?f) = _ =>
             let v := fresh "v" in
             let Hk := fresh "Hk" in
             let Hg := fresh "Hg" in
             destruct (keyword_cases kw f) as [(v & Hk & Hg)|[Hk Hg]];
             rewrite Hk in H; cbn [mbind result_bind] in H; [|discriminate H]
         end.

Lemma Device_new_Ok kw d :
  Device_new kw = Ok d ->
  dict_keys (Device_asdict d) = Device_fields /\ same_bindings (Device_asdict d) kw.
Proof.
  unfold Device_new. intros H. new_Ok H. injection H as <-.
  split; [done|]. intros k. unfold Device_asdict; cbn [manufacturer name].
  rewrite !dict_get_cons. repeat case_bool_decide; subst; try done.
  symmetry. eapply only_fields_dict_get; [done|]. set_solver.
Qed.

Lemma Image_new_Ok kw i :
  Image_new kw = Ok i ->
  dict_keys (Image_asdict i) = Image_fields /\ same_bindings (Image_asdict i) kw.
Proof.
  unfold Image_new. intros H. new_Ok H. injection H as <-.
  split; [done|]. intros k. unfold Image_asdict;
    cbn [image_shape raw_extension bias bayer_pattern bit_depth].
  rewrite !dict_get_cons. repeat case_bool_decide; subst; try done.
  symmetry. eapply only_fields_dict_get; [done|]. set_solver.
Qed.

Lemma Settings_new_Ok kw s :
  Settings_new kw = Ok s ->
  dict_keys (Settings_asdict s) = Settings_fields
  /\ same_bindings (Settings_asdict s) kw.
Proof.
  unfold Settings_new. intros H. new_Ok H. injection H as <-.
  split; [done|]. intros k. unfold Settings_asdict;
    cbn [ISO_min ISO_max exposure_min exposure_max].
  rewrite !dict_get_cons. repeat case_bool_decide; subst; try done.
  symmetry. eapply only_fields_dict_get; [done|]. set_solver.
Qed.

(** Property X2 ([Camera.__init__], [Camera._as_dict]).  The dictionary of
    a camera that was constructed from three records has the groups
    [device], [image], [settings] in this order; each group has the fields
    of its record in the order of the record, and the same bindings as the
    dictionary the camera was constructed from. *)
Theorem as_dict_Camera_init device_properties image_properties settings_properties c :
  Camera_init device_properties image_properties settings_properties = Ok c ->
  exists d i s,
    _as_dict c = [("device", d); ("image", i); ("settings", s)]
    /\ dict_keys d = Device_fields /\ same_bindings d device_properties
    /\ dict_keys i = Image_fields /\ same_bindings i image_properties
    /\ dict_keys s = Settings_fields /\ same_bindings s settings_properties.
Proof.
  unfold Camera_init. intros H.
  destruct (Device_new device_properties) as [dev|] eqn:Hd; [|discriminate].
  destruct (Image_new image_properties) as [img|] eqn:Hi; [|discriminate].
  destruct (Settings_new settings_properties) as [set|] eqn:Hs; [|discriminate].
  cbn [mbind result_bind] in H.
  destruct (generate_bayer_map img) as [bm|]; [|discriminate].
  injection H as <-.
  apply Device_new_Ok in Hd as [? ?]. apply Image_new_Ok in Hi as [? ?].
  apply Settings_new_Ok in Hs as [? ?].
  eexists _, _, _. split; [reflexivity|]. cbn [device image settings]. done.
Qed.

(** The statement of X2 at the example, the image record being given with
    its fields in the opposite order. *)
Lemma as_dict_Camera_init_witness :
  exists c d i s,
    Camera_init example_device (reverse example_image) example_settings = Ok c
    /\ _as_dict c = [("device", d); ("image", i); ("settings", s)]
    /\ dict_keys i = Image_fields /\ same_bindings i (reverse example_image).
Proof.
  eexists. 
  destruct (as_dict_Camera_init example_device (reverse example_image)
              example_settings _ eq_refl)
    as (d & i & s & Hc & _ & _ & Hk & Hb & _).
  by exists d, i, s.
Defined.

(** ** When the Bayer map is generated *)

Lemma forallb_nonneg l :
  forallb (fun n => bool_decide (0 <= n)%Z) l = true <-> Forall (fun n => (0 <= n)%Z) l.
Proof.
  rewrite forallb_forall, Forall_forall. split; intros H x Hx.
  - apply list_elem_of_In, H in Hx. by apply bool_decide_eq_true in Hx.
  - apply bool_decide_eq_true, H. by apply list_elem_of_In.
Qed.

Lemma generate_bayer_map_axes img z0 z1 zs p00 p01 p10 p11 r0 r1 rows :
  image_shape img = VList (z0 :: z1 :: zs) ->
  length (z0 :: z1 :: zs) <= NPY_MAXDIMS ->
  Forall (fun n => (0 <= n)%Z) (z0 :: z1 :: zs) ->
  bayer_pattern img = VTable ((p00 :: p01 :: r0) :: (p10 :: p11 :: r1) :: rows) ->
  int64 p00 -> int64 p01 -> int64 p10 -> int64 p11 ->
  generate_bayer_map img
  = Ok (tiled_axes (Z.to_nat <$> z0 :: z1 :: zs) p00 p01 p10 p11).
Proof.
  intros Hshape Hlen Hnonneg Hpat H00 H01 H10 H11.
  unfold generate_bayer_map. rewrite Hshape, Hpat. unfold np_zeros.
  rewrite (bool_decide_eq_true_2 _ Hlen), (proj2 (forallb_nonneg _) Hnonneg).
  cbn -[to_int64 Nat.div Nat.modulo Z.pow shape_size Nat.mul].
  unfold setitem_step2; cbn -[to_int64 Nat.div Nat.modulo Z.pow shape_size Nat.mul].
  rewrite !to_int64_CInt by done. cbn -[Nat.div Nat.modulo shape_size Nat.mul].
  do 2 f_equal. generalize (shape_size (Z.to_nat z0 :: Z.to_nat z1 :: (Z.to_nat <$> zs))).
  intros N. apply list_eq; intros i.
  rewrite !list_lookup_imap, list_lookup_fmap.
  destruct (decide (i < N)) as [Hi|Hi].
  - rewrite lookup_replicate_2, lookup_seq_lt by done. cbn -[Nat.div Nat.modulo shape_size Nat.mul].
    f_equal. unfold pattern_at.
    match goal with
    | |- context [bool_decide (?r mod 2 = 1) && bool_decide (?c mod 2 = 1)] =>
        pose proof (Nat.mod_upper_bound r 2 ltac:(lia)) as Hr;
        pose proof (Nat.mod_upper_bound c 2 ltac:(lia)) as Hc;
        destruct (r mod 2) as [|[|?]]; [| |lia];
        (destruct (c mod 2) as [|[|?]]; [| |lia]); reflexivity
    end.
  - rewrite (proj1 (lookup_replicate_None _ _ _)), lookup_seq_ge by lia. done.
Qed.

Lemma setitem_step2_Ok a r c v a' :
  setitem_step2 a r c v = Ok a' ->
  2 <= length (shape a) /\ shape a' = shape a /\ exists n, to_int64 v = Ok n.
Proof.
  unfold setitem_step2. destruct (shape a) as [|d0 [|d1 rest]] eqn:Hs; try done.
  destruct (to_int64 v) as [n|] eqn:Hn; [|done]. cbn. intros [= <-].
  cbn. split_and!; [lia | done | by exists n].
Qed.

Lemma to_int64_Ok v n : to_int64 v = Ok n -> forall p, v = CInt p -> int64 p.
Proof.
  intros Hv p ->. unfold to_int64 in Hv. by case_bool_decide.
Qed.

Lemma to_int64_overflow n : ~ int64 n -> to_int64 (CInt n) = Raise OverflowError.
Proof. intros H. unfold to_int64. by rewrite bool_decide_eq_false_2. Qed.

Lemma np_zeros_Ok s a :
  np_zeros s = Ok a -> 2 <= length (shape a) ->
  exists z0 z1 zs, s = VList (z0 :: z1 :: zs)
                   /\ length (z0 :: z1 :: zs) <= NPY_MAXDIMS
                   /\ Forall (fun n => (0 <= n)%Z) (z0 :: z1 :: zs).
Proof.
  unfold np_zeros. intros Hs Hlen. destruct s as [n| |s|l|t].
  - case_bool_decide; [done|]. injection Hs as <-. cbn in Hlen. lia.
  - done.
  - destruct s; [|done]. injection Hs as <-. cbn in Hlen. lia.
  - case_bool_decide as Hmax; [|done].
    destruct (forallb _ l) eqn:Hall; [|done]. injection Hs as <-.
    cbn in Hlen. rewrite length_fmap in Hlen.
    destruct l as [|z0 [|z1 zs]]; cbn in Hlen; try lia.
    exists z0, z1, zs. split_and!; [done | done | by apply forallb_nonneg].
  - destruct t; [|done]. injection Hs as <-. cbn in Hlen. lia.
Qed.

Lemma subscript2_Ok_table pattern :
  is_Ok (subscript2 pattern 0 0) -> is_Ok (subscript2 pattern 0 1) ->
  is_Ok (subscript2 pattern 1 0) -> is_Ok (subscript2 pattern 1 1) ->
  exists p00 p01 p10 p11 r0 r1 rows,
    pattern = VTable ((p00 :: p01 :: r0) :: (p10 :: p11 :: r1) :: rows).
Proof.
  intros [v00 H00] [v01 H01] [v10 H10] [v11 H11].
  destruct pattern as [| |s|l|t]; try done.
  - cbn in H01. destruct (String.get 0 s); done.
  - cbn in H00. destruct (l !! 0); done.
  - destruct t as [|[|p00 [|p01 r0]] [|[|p10 [|p11 r1]] rows]]; try done.
    by exists p00, p01, p10, p11, r0, r1, rows.
Qed.

(** Property X3 ([Camera.generate_bayer_map]).  For a shape within the
    limits of numpy, the Bayer map is generated exactly when the shape is a
    list of at least two non-negative integers and the pattern is a table
    whose first two rows have at least two entries each, these four being
    64-bit integers; the map then has the shape of the image, the pattern
    laid out over its first two axes.  Rows and entries of the pattern
    beyond the first two are not read. *)
Theorem generate_bayer_map_Ok_iff img bm :
  within_limits (image_shape img) ->
  generate_bayer_map img = Ok bm
  <-> exists z0 z1 zs p00 p01 p10 p11 r0 r1 rows,
        image_shape img = VList (z0 :: z1 :: zs)
        /\ Forall (fun n => (0 <= n)%Z) (z0 :: z1 :: zs)
        /\ bayer_pattern img
           = VTable ((p00 :: p01 :: r0) :: (p10 :: p11 :: r1) :: rows)
        /\ Forall int64 [p00; p01; p10; p11]
        /\ bm = tiled_axes (Z.to_nat <$> z0 :: z1 :: zs) p00 p01 p10 p11.
Proof.
  intros Hlimits. split.
  - intros Hgen. pose proof Hgen as Hrun. unfold generate_bayer_map in Hrun.
    destruct (np_zeros (image_shape img)) as [a0|] eqn:Hzeros; [|done].
    cbn [mbind result_bind] in Hrun.
    destruct (subscript2 (bayer_pattern img) 0 0) as [v00|] eqn:Hv00; [|done].
    cbn [mbind result_bind] in Hrun.
    destruct (setitem_step2 a0 0 0 v00) as [a1|] eqn:Ha1; [|done].
    cbn [mbind result_bind] in Hrun.
    destruct (subscript2 (bayer_pattern img) 0 1) as [v01|] eqn:Hv01; [|done].
    cbn [mbind result_bind] in Hrun.
    destruct (setitem_step2 a1 0 1 v01) as [a2|] eqn:Ha2; [|done].
    cbn [mbind result_bind] in Hrun.
    destruct (subscript2 (bayer_pattern img) 1 0) as [v10|] eqn:Hv10; [|done].
    cbn [mbind result_bind] in Hrun.
    destruct (setitem_step2 a2 1 0 v10) as [a3|] eqn:Ha3; [|done].
    cbn [mbind result_bind] in Hrun.
    destruct (subscript2 (bayer_pattern img) 1 1) as [v11|] eqn:Hv11; [|done].
    cbn [mbind result_bind] in Hrun.
    destruct (setitem_step2 a3 1 1 v11) as [a4|] eqn:Ha4; [|done].
    apply setitem_step2_Ok in Ha1 as (Hlen & _ & n00 & Hn00).
    apply setitem_step2_Ok in Ha2 as (_ & _ & n01 & Hn01).
    apply setitem_step2_Ok in Ha3 as (_ & _ & n10 & Hn10).
    apply setitem_step2_Ok in Ha4 as (_ & _ & n11 & Hn11).
    destruct (np_zeros_Ok _ _ Hzeros Hlen)
      as (z0 & z1 & zs & Hshape & Hmax & Hnonneg).
    destruct (subscript2_Ok_table (bayer_pattern img))
      as (p00 & p01 & p10 & p11 & r0 & r1 & rows & Hpat); [by eexists..|].
    rewrite Hpat in Hv00, Hv01, Hv10, Hv11.
    injection Hv00 as <-. injection Hv01 as <-.
    injection Hv10 as <-. injection Hv11 as <-.
    pose proof (to_int64_Ok _ _ Hn00 _ eq_refl).
    pose proof (to_int64_Ok _ _ Hn01 _ eq_refl).
    pose proof (to_int64_Ok _ _ Hn10 _ eq_refl).
    pose proof (to_int64_Ok _ _ Hn11 _ eq_refl).
    exists z0, z1, zs, p00, p01, p10, p11, r0, r1, rows.
    split_and!; [done | done | done | by repeat apply Forall_cons_2 |].
    rewrite (generate_bayer_map_axes img z0 z1 zs p00 p01 p10 p11 r0 r1 rows)
      in Hgen by done.
    by injection Hgen.
  - intros (z0 & z1 & zs & p00 & p01 & p10 & p11 & r0 & r1 & rows
            & Hshape & Hnonneg & Hpat & Hint & ->).
    rewrite !Forall_cons in Hint. destruct Hint as (? & ? & ? & ? & _).
    rewrite Hshape in Hlimits. destruct Hlimits as [Hmax _].
    eapply generate_bayer_map_axes; try done. unfold NPY_MAXDIMS. lia.
Qed.

(** The statement of X3 at a sensor of 4 by 6 with a pattern that has a
    third entry in its first row. *)
Lemma generate_bayer_map_Ok_iff_witness :
  within_limits (VList [4; 6]%Z)
  /\ generate_bayer_map
       (mkImage (VList [4; 6]%Z) (VStr ".dng") (VInt 528)
                (VTable [[0; 1; 9]; [3; 2]]%Z) (VInt 12))
     = Ok (tiled_axes [4; 6] 0 1 3 2).
Proof.
  assert (within_limits (VList [4; 6]%Z)) as Hlimits
    by (split; [cbn; lia | reflexivity]).
  split; [exact Hlimits|].
  apply (generate_bayer_map_Ok_iff
           (mkImage (VList [4; 6]%Z) (VStr ".dng") (VInt 528)
                    (VTable [[0; 1; 9]; [3; 2]]%Z) (VInt 12)) _ Hlimits).
  exists 4%Z, 6%Z, [], 0%Z, 1%Z, 3%Z, 2%Z, [9%Z], [], [].
  split_and!; [reflexivity | repeat constructor; lia | reflexivity
              | repeat constructor; unfold int64; lia | reflexivity].
Defined.

(** Property X4 ([Camera.generate_bayer_map]).  A negative extent in the
    shape is a [ValueError], whatever the pattern, and so are more than 64
    axes.  For a shape within the limits of numpy: fewer than two axes with
    a pattern of two rows and two columns is an [IndexError]; with at least
    two axes, a pattern entry outside the 64-bit integers is an
    [OverflowError] and a table of 64-bit integers that has no two rows of
    two entries is an [IndexError]. *)
Theorem generate_bayer_map_errors img :
  (forall l, image_shape img = VList l ->
     ~ Forall (fun n => (0 <= n)%Z) l \/ NPY_MAXDIMS < length l ->
     generate_bayer_map img = Raise ValueError)
  /\ (within_limits (image_shape img) ->
      (forall p00 p01 p10 p11 r0 r1 rows,
         bayer_pattern img
         = VTable ((p00 :: p01 :: r0) :: (p10 :: p11 :: r1) :: rows) ->
         int64 p00 ->
         (exists n, image_shape img = VInt n /\ (0 <= n)%Z)
         \/ image_shape img = VList []
         \/ (exists n, image_shape img = VList [n] /\ (0 <= n)%Z) ->
         generate_bayer_map img = Raise IndexError)
      /\ (forall z0 z1 zs,
            image_shape img = VList (z0 :: z1 :: zs) ->
            Forall (fun n => (0 <= n)%Z) (z0 :: z1 :: zs) ->
            (forall p00 p01 p10 p11 r0 r1 rows,
               bayer_pattern img
               = VTable ((p00 :: p01 :: r0) :: (p10 :: p11 :: r1) :: rows) ->
               ~ Forall int64 [p00; p01; p10; p11] ->
               generate_bayer_map img = Raise OverflowError)
            /\ (forall t,
                  bayer_pattern img = VTable t ->
                  Forall (Forall int64) t ->
                  (forall p00 p01 p10 p11 r0 r1 rows,
                     t <> (p00 :: p01 :: r0) :: (p10 :: p11 :: r1) :: rows) ->
                  generate_bayer_map img = Raise IndexError))).
Proof.
  split; [|intros Hlimits; split].
  - intros l Hshape Hbad. unfold generate_bayer_map, np_zeros. rewrite Hshape.
    case_bool_decide as Hmax; [|done].
    destruct (forallb _ l) eqn:Hall; [|done].
    apply forallb_nonneg in Hall. destruct Hbad as [Hneg|Hlong]; [done | lia].
  - intros p00 p01 p10 p11 r0 r1 rows Hpat H00 Hshape.
    unfold generate_bayer_map, np_zeros. rewrite Hpat.
    destruct Hshape as [(n & -> & Hn)|[->|(n & -> & Hn)]].
    + rewrite bool_decide_eq_false_2 by lia. done.
    + done.
    + cbn [forallb length]. rewrite !bool_decide_eq_true_2 by (done || unfold NPY_MAXDIMS; lia).
      done.
  - intros z0 z1 zs Hshape Hnonneg.
    rewrite Hshape in Hlimits. destruct Hlimits as [Hmax _].
    assert (length (z0 :: z1 :: zs) <= NPY_MAXDIMS) as Hlen
      by (unfold NPY_MAXDIMS; lia).
    split.
    + intros p00 p01 p10 p11 r0 r1 rows Hpat Hint.
      unfold generate_bayer_map, np_zeros. rewrite Hshape, Hpat.
      rewrite (bool_decide_eq_true_2 _ Hlen), (proj2 (forallb_nonneg _) Hnonneg).
      cbn -[to_int64 Nat.div Nat.modulo Z.pow shape_size Nat.mul].
      unfold setitem_step2;
        cbn -[to_int64 Nat.div Nat.modulo Z.pow shape_size Nat.mul].
      destruct (decide (- 2 ^ 63 <= p00 < 2 ^ 63)%Z) as [H00|H00];
        [rewrite (to_int64_CInt p00) by done
        |rewrite (to_int64_overflow p00) by exact H00; reflexivity].
      cbn -[to_int64 Nat.div Nat.modulo Z.pow shape_size Nat.mul].
      destruct (decide (- 2 ^ 63 <= p01 < 2 ^ 63)%Z) as [H01|H01];
        [rewrite (to_int64_CInt p01) by done
        |rewrite (to_int64_overflow p01) by exact H01; reflexivity].
      cbn -[to_int64 Nat.div Nat.modulo Z.pow shape_size Nat.mul].
      destruct (decide (- 2 ^ 63 <= p10 < 2 ^ 63)%Z) as [H10|H10];
        [rewrite (to_int64_CInt p10) by done
        |rewrite (to_int64_overflow p10) by exact H10; reflexivity].
      cbn -[to_int64 Nat.div Nat.modulo Z.pow shape_size Nat.mul].
      destruct (decide (- 2 ^ 63 <= p11 < 2 ^ 63)%Z) as [H11|H11];
        [|rewrite (to_int64_overflow p11) by exact H11; reflexivity].
      exfalso. apply Hint. by repeat apply Forall_cons_2.
    + intros t Hpat Hint Hsmall.
      unfold generate_bayer_map, np_zeros. rewrite Hshape, Hpat.
      rewrite (bool_decide_eq_true_2 _ Hlen), (proj2 (forallb_nonneg _) Hnonneg).
      destruct t as [|[|p00 [|p01 r0]] [|[|p10 [|p11 r1]] rows]];
        repeat match goal with
               | H : Forall _ (_ :: _) |- _ => apply Forall_cons in H as [? ?]
               end;
        cbn -[to_int64 Nat.div Nat.modulo Z.pow shape_size Nat.mul];
        unfold setitem_step2;
        cbn -[to_int64 Nat.div Nat.modulo Z.pow shape_size Nat.mul];
        rewrite ?to_int64_CInt by done;
        cbn -[to_int64 Nat.div Nat.modulo Z.pow shape_size Nat.mul];
        rewrite ?to_int64_CInt by done;
        cbn -[to_int64 Nat.div Nat.modulo Z.pow shape_size Nat.mul];
        try done.
      by destruct (Hsmall p00 p01 p10 p11 r0 r1 rows).
Qed.

(** The statement of X4 at a shape with a negative extent, at a shape of
    65 axes, at a shape of one axis, at a pattern entry of [2 ** 63] and at
    a pattern of one row. *)
Lemma generate_bayer_map_errors_witness :
  generate_bayer_map
    (mkImage (VList [4; -6]%Z) (VStr ".dng") (VInt 528)
             (VTable [[0; 1]; [3; 2]]%Z) (VInt 12))
  = Raise ValueError
  /\ generate_bayer_map
       (mkImage (VList (replicate 65 1%Z)) (VStr ".dng") (VInt 528)
                (VTable [[0; 1]; [3; 2 ^ 63]]%Z) (VInt 12))
     = Raise ValueError
  /\ within_limits (VInt 24) /\ within_limits (VList [4; 6]%Z)
  /\ generate_bayer_map
       (mkImage (VInt 24) (VStr ".dng") (VInt 528)
                (VTable [[0; 1]; [3; 2]]%Z) (VInt 12))
     = Raise IndexError
  /\ generate_bayer_map
       (mkImage (VList [4; 6]%Z) (VStr ".dng") (VInt 528)
                (VTable [[0; 1]; [3; 2 ^ 63]]%Z) (VInt 12))
     = Raise OverflowError
  /\ generate_bayer_map
       (mkImage (VList [4; 6]%Z) (VStr ".dng") (VInt 528)
                (VTable [[0; 1; 3; 2]]%Z) (VInt 12))
     = Raise IndexError.
Proof.
  assert (within_limits (VInt 24)) as Hint by reflexivity.
  assert (within_limits (VList [4; 6]%Z)) as Hlist
    by (split; [cbn; lia | reflexivity]).
  split_and!; [| | exact Hint | exact Hlist | | |].
  - destruct (generate_bayer_map_errors
                (mkImage (VList [4; -6]%Z) (VStr ".dng") (VInt 528)
                         (VTable [[0; 1]; [3; 2]]%Z) (VInt 12)))
      as (Hvalue & _).
    apply (Hvalue [4; -6]%Z); [reflexivity|].
    left. rewrite !Forall_cons. lia.
  - destruct (generate_bayer_map_errors
                (mkImage (VList (replicate 65 1%Z)) (VStr ".dng") (VInt 528)
                         (VTable [[0; 1]; [3; 2 ^ 63]]%Z) (VInt 12)))
      as (Hvalue & _).
    apply (Hvalue (replicate 65 1%Z)); [reflexivity|].
    right. rewrite length_replicate. unfold NPY_MAXDIMS. lia.
  - destruct (generate_bayer_map_errors
                (mkImage (VInt 24) (VStr ".dng") (VInt 528)
                         (VTable [[0; 1]; [3; 2]]%Z) (VInt 12)))
      as (_ & Hin).
    destruct (Hin Hint) as (Hindex & _).
    apply (Hindex 0 1 3 2 [] [] [])%Z;
      [reflexivity | unfold int64; lia | left; eexists; split; [reflexivity | lia]].
  - destruct (generate_bayer_map_errors
                (mkImage (VList [4; 6]%Z) (VStr ".dng") (VInt 528)
                         (VTable [[0; 1]; [3; 2 ^ 63]]%Z) (VInt 12)))
      as (_ & Hin).
    destruct (Hin Hlist) as (_ & Haxes).
    destruct (Haxes 4 6 [] eq_refl)%Z as [Hoverflow _];
      [repeat constructor; lia|].
    apply (Hoverflow 0 1 3 (2 ^ 63) [] [] [])%Z; [reflexivity|].
    rewrite !Forall_cons. unfold int64. lia.
  - destruct (generate_bayer_map_errors
                (mkImage (VList [4; 6]%Z) (VStr ".dng") (VInt 528)
                         (VTable [[0; 1; 3; 2]]%Z) (VInt 12)))
      as (_ & Hin).
    destruct (Hin Hlist) as (_ & Haxes).
    destruct (Haxes 4 6 [] eq_refl)%Z as [_ Hindex];
      [repeat constructor; lia|].
    apply (Hindex [[0; 1; 3; 2]]%Z);
      [reflexivity | repeat constructor; unfold int64; lia | done].
Defined.

(** ** The stages, pixel by pixel and frame by frame *)

Lemma shape_size_cons d s : shape_size (d :: s) = d * shape_size s.
Proof. done. Qed.

Lemma shape_size_app s1 s2 : shape_size (s1 ++ s2) = shape_size s1 * shape_size s2.
Proof.
  induction s1 as [|d s1 IH]; [change (shape_size []) with 1; cbn [app]; lia|].
  rewrite <- app_comm_cons, !shape_size_cons, IH. lia.
Qed.

Lemma shape_size_reverse s : shape_size (reverse s) = shape_size s.
Proof.
  induction s as [|d s IH]; [done|].
  rewrite reverse_cons, shape_size_app, IH, !shape_size_cons.
  change (shape_size []) with 1. lia.
Qed.

Lemma source_index_same rs p : p < shape_size rs -> source_index rs rs p = p.
Proof.
  revert p. induction rs as [|d rs IH]; intros p Hp;
    [change (shape_size []) with 1 in Hp; cbn; lia|].
  rewrite shape_size_cons in Hp. cbn [source_index].
  assert (d <> 0) by (intros ->; lia).
  rewrite IH by (apply Nat.Div0.div_lt_upper_bound; lia).
  case_bool_decide; subst.
  - rewrite Nat.div_1_r. lia.
  - pose proof (Nat.div_mod_eq p d). lia.
Qed.

Lemma source_index_prefix rs extra p :
  source_index (rs ++ extra) rs p = source_index rs rs (p mod shape_size rs).
Proof.
  revert p. induction rs as [|d rs IH]; intros p.
  { cbn. by rewrite source_index_scalar. }
  rewrite <- app_comm_cons, shape_size_cons. cbn [source_index]. rewrite IH.
  rewrite (Nat.Div0.mod_mul_r p d (shape_size rs)).
  destruct (decide (d = 0)) as [->|Hd].
  { rewrite !bool_decide_eq_false_2 by lia.
    rewrite !Nat.mul_0_l, !Nat.add_0_r. by rewrite !Nat.mod_0_r. }
  replace ((p mod d + d * ((p / d) mod shape_size rs)) mod d) with (p mod d).
  2:{ rewrite (Nat.mul_comm d), Nat.Div0.mod_add.
      by rewrite Nat.Div0.mod_mod. }
  replace ((p mod d + d * ((p / d) mod shape_size rs)) / d)
    with ((p / d) mod shape_size rs).
  2:{ apply Nat.div_unique with (p mod d);
        [apply Nat.mod_upper_bound; lia | lia]. }
  done.
Qed.

Lemma broadcast_rev_prefix rs extra :
  broadcast_rev (rs ++ extra) rs = Some (rs ++ extra).
Proof.
  induction rs as [|d rs IH]; [apply broadcast_rev_nil_r|].
  cbn. rewrite bool_decide_eq_true_2 by done. cbn. by rewrite IH.
Qed.

Lemma broadcast_shapes_frames n s : broadcast_shapes (n :: s) s = Some (n :: s).
Proof.
  unfold broadcast_shapes. rewrite reverse_cons, broadcast_rev_prefix. cbn.
  by rewrite reverse_app, reverse_involutive.
Qed.

Section Elementwise.
Context {A : Type} (dflt : A) (f : A -> A -> A).
Implicit Types a b : ndarray A.

Lemma np_binop_same_shape a b :
  shape b = shape a -> well_formed a -> well_formed b ->
  np_binop dflt f a b = Ok (NdArray (shape a) (zip_with f (data a) (data b))).
Proof.
  unfold well_formed, np_binop. intros Hs Ha Hb. rewrite Hs in *.
  rewrite broadcast_shapes_same. do 2 f_equal.
  apply list_eq. intros i. rewrite list_lookup_fmap, lookup_zip_with.
  destruct (decide (i < shape_size (shape a))) as [Hi|Hi].
  - rewrite lookup_seq_lt by done. cbn.
    rewrite source_index_same by by rewrite shape_size_reverse.
    destruct (lookup_lt_is_Some_2 (data a) i) as [x Hx]; [lia|].
    destruct (lookup_lt_is_Some_2 (data b) i) as [y Hy]; [lia|].
    rewrite Hx, Hy. cbn.
    by rewrite (nth_lookup_Some _ _ _ _ Hx), (nth_lookup_Some _ _ _ _ Hy).
  - rewrite lookup_seq_ge by lia. cbn.
    by rewrite (lookup_ge_None_2 (data a)) by lia.
Qed.

Lemma np_binop_scalar a y :
  well_formed a ->
  np_binop dflt f a (scalar y) = Ok (NdArray (shape a) ((fun x => f x y) <$> data a)).
Proof.
  unfold well_formed, np_binop, scalar; cbn [shape data]. intros Ha.
  rewrite broadcast_shapes_scalar. do 2 f_equal.
  apply list_eq. intros i. rewrite !list_lookup_fmap.
  destruct (decide (i < shape_size (shape a))) as [Hi|Hi].
  - rewrite lookup_seq_lt by done. cbn.
    rewrite source_index_same by by rewrite shape_size_reverse.
    change (reverse []) with (@nil nat). rewrite source_index_scalar.
    destruct (lookup_lt_is_Some_2 (data a) i) as [x Hx]; [lia|].
    rewrite Hx. cbn. by rewrite (nth_lookup_Some _ _ _ _ Hx).
  - rewrite lookup_seq_ge by lia. cbn.
    by rewrite (lookup_ge_None_2 (data a)) by lia.
Qed.

(** A stack of [n] frames against one frame: frame by frame. *)
Lemma np_binop_frames a b n s :
  shape a = n :: s -> shape b = s -> well_formed a -> well_formed b ->
  exists c,
    np_binop dflt f a b = Ok c
    /\ shape c = n :: s
    /\ well_formed c
    /\ forall k, k < n ->
         exists ak ck,
           getitem0 a k = Ok ak /\ getitem0 c k = Ok ck
           /\ well_formed ak
           /\ ck = NdArray s (zip_with f (data ak) (data b)).
Proof.
  unfold well_formed. intros Hsa Hsb Ha Hb. rewrite Hsa in Ha. rewrite Hsb in Hb.
  rewrite shape_size_cons in Ha.
  unfold np_binop. rewrite Hsa, Hsb, broadcast_shapes_frames.
  eexists. split; [reflexivity|]. cbn [shape data]. split; [done|].
  split; [by rewrite length_map, length_seq|].
  intros k Hk. unfold getitem0. cbn [shape data]. rewrite Hsa.
  rewrite !bool_decide_eq_true_2 by done.
  eexists _, _. split; [reflexivity|]. split; [reflexivity|]. cbn [shape data].
  assert (k * shape_size s + shape_size s <= n * shape_size s) as Hle by nia.
  split.
  { rewrite length_take, length_drop. lia. }
  f_equal. apply list_eq. intros i.
  rewrite lookup_zip_with.
  destruct (decide (i < shape_size s)) as [Hi|Hi].
  - rewrite !lookup_take_lt, !lookup_drop by done.
    rewrite list_lookup_fmap, lookup_seq_lt by (rewrite shape_size_cons; lia).
    cbn [fmap option_fmap option_map Nat.add].
    rewrite reverse_cons.
    rewrite source_index_same
      by (rewrite shape_size_app, shape_size_reverse, shape_size_cons;
          change (shape_size []) with 1; lia).
    rewrite source_index_prefix, shape_size_reverse.
    replace ((k * shape_size s + i) mod shape_size s) with i
      by (apply Nat.mod_unique with k; lia).
    rewrite source_index_same by by rewrite shape_size_reverse.
    destruct (lookup_lt_is_Some_2 (data a) (k * shape_size s + i)) as [x Hx]; [lia|].
    destruct (lookup_lt_is_Some_2 (data b) i) as [y Hy]; [lia|].
    rewrite Hx, Hy. cbn.
    by rewrite (nth_lookup_Some _ _ _ _ Hx), (nth_lookup_Some _ _ _ _ Hy).
  - rewrite lookup_take_ge by lia.
    rewrite (lookup_take_ge (drop _ (data a))) by lia. done.
Qed.
End Elementwise.

Section Maps.
Context {T : Type} (zero : T) (tsub tmul tdiv : T -> T -> T).
Context (spectacle : Spectacle (T := T)).
Implicit Types (h : heap (T := T)) (a m : ndarray T).

Lemma lookup_app_second h (b c : ndarray T) : (h ++ [b; c]) !! S (length h) = Some c.
Proof. by apply (lookup_app_at h [b; c] 1). Qed.

Lemma lookup_app_third h (b c d : ndarray T) :
  (h ++ [b; c; d]) !! S (S (length h)) = Some d.
Proof. by apply (lookup_app_at h [b; c; d] 2). Qed.

(** Property X5 ([correct_bias], [correct_dark_current],
    [convert_to_photoelectrons]).  With a map of the shape of the data, bias
    correction returns [data - bias], dark-current correction
    [data - dark_current * exposure_time] and gain conversion [data / gain],
    pixel by pixel, in an array of the shape of the data; with the bias
    level of the metadata, bias correction subtracts that level from every
    pixel. *)
Theorem calibration_maps_pixel_by_pixel root input h a :
  h !! input = Some a -> well_formed a ->
  (forall m, resolved_bias spectacle root = Ok m ->
     well_formed m -> shape m = shape a ->
     exists l h',
       correct_bias zero tsub spectacle root input h = (Ok l, h')
       /\ h' !! l = Some (NdArray (shape a) (zip_with tsub (data a) (data m))))
  /\ (forall b, resolved_bias spectacle root = Ok (scalar b) ->
        exists l h',
          correct_bias zero tsub spectacle root input h = (Ok l, h')
          /\ h' !! l = Some (NdArray (shape a) ((fun x => tsub x b) <$> data a)))
  /\ (forall m exposure_time, load_dark_current_map spectacle root = Ok m ->
        well_formed m -> shape m = shape a ->
        exists l h',
          correct_dark_current zero tsub tmul spectacle root input
            (Num exposure_time) h = (Ok l, h')
          /\ h' !! l
             = Some (NdArray (shape a)
                       (zip_with (fun x d => tsub x (tmul d exposure_time))
                                 (data a) (data m))))
  /\ (forall m, load_gain_map spectacle root = Ok m ->
        well_formed m -> shape m = shape a ->
        exists l h',
          convert_to_photoelectrons zero tdiv spectacle root input h = (Ok l, h')
          /\ h' !! l = Some (NdArray (shape a) (zip_with tdiv (data a) (data m)))).
Proof.
  intros Hdata Ha. split_and!.
  - intros m Hm Hwf Hs.
    rewrite (correct_bias_run zero spectacle tsub root input h a Hdata), Hm.
    rewrite np_binop_same_shape by done.
    eexists _, _. split; [reflexivity | apply lookup_app_second].
  - intros b Hb.
    rewrite (correct_bias_run zero spectacle tsub root input h a Hdata), Hb.
    rewrite np_binop_scalar by done.
    eexists _, _. split; [reflexivity | apply lookup_app_second].
  - intros m x Hm Hwf Hs.
    rewrite (correct_dark_current_run zero spectacle tsub tmul root input x h a Hdata), Hm.
    rewrite np_binop_scalar by done.
    rewrite np_binop_same_shape;
      [|done|done|unfold well_formed in *; cbn; by rewrite length_fmap].
    eexists _, _. split; [reflexivity|]. rewrite lookup_app_third.
    cbn [data]. by rewrite zip_with_fmap_r.
  - intros m Hm Hwf Hs.
    rewrite (convert_to_photoelectrons_run zero spectacle tdiv root input h a Hdata), Hm.
    rewrite np_binop_same_shape by done.
    eexists _, _. split; [reflexivity | apply lookup_app_second].
Qed.

(** Property X6 ([correct_bias], [correct_dark_current],
    [convert_to_photoelectrons]).  On a stack of [n] frames with a map of
    the shape of one frame, the three stages return a stack of [n] frames,
    frame [k] of which is frame [k] of the data corrected with the map, pixel
    by pixel. *)
Theorem calibration_maps_frame_by_frame root input h a n s :
  h !! input = Some a -> well_formed a -> shape a = n :: s ->
  (forall m, resolved_bias spectacle root = Ok m ->
     well_formed m -> shape m = s ->
     exists l h' c,
       correct_bias zero tsub spectacle root input h = (Ok l, h')
       /\ h' !! l = Some c /\ shape c = n :: s
       /\ forall k, k < n ->
            exists ak,
              getitem0 a k = Ok ak
              /\ getitem0 c k
                 = Ok (NdArray s (zip_with tsub (data ak) (data m))))
  /\ (forall m exposure_time, load_dark_current_map spectacle root = Ok m ->
        well_formed m -> shape m = s ->
        exists l h' c,
          correct_dark_current zero tsub tmul spectacle root input
            (Num exposure_time) h = (Ok l, h')
          /\ h' !! l = Some c /\ shape c = n :: s
          /\ forall k, k < n ->
               exists ak,
                 getitem0 a k = Ok ak
                 /\ getitem0 c k
                    = Ok (NdArray s
                            (zip_with (fun x d => tsub x (tmul d exposure_time))
                                      (data ak) (data m))))
  /\ (forall m, load_gain_map spectacle root = Ok m ->
        well_formed m -> shape m = s ->
        exists l h' c,
          convert_to_photoelectrons zero tdiv spectacle root input h = (Ok l, h')
          /\ h' !! l = Some c /\ shape c = n :: s
          /\ forall k, k < n ->
               exists ak,
                 getitem0 a k = Ok ak
                 /\ getitem0 c k
                    = Ok (NdArray s (zip_with tdiv (data ak) (data m)))).
Proof.
  intros Hdata Ha Hsa. split_and!.
  - intros m Hm Hwf Hs.
    rewrite (correct_bias_run zero spectacle tsub root input h a Hdata), Hm.
    destruct (np_binop_frames zero tsub a m n s Hsa Hs Ha Hwf)
      as (c & -> & Hsc & _ & Hframes).
    eexists _, _, c. split_and!; [reflexivity | apply lookup_app_second | done |].
    intros k Hk. destruct (Hframes k Hk) as (ak & ck & Hak & Hck & _ & ->).
    by exists ak.
  - intros m x Hm Hwf Hs.
    rewrite (correct_dark_current_run zero spectacle tsub tmul root input x h a Hdata), Hm.
    rewrite np_binop_scalar by done.
    destruct (np_binop_frames zero tsub a
                (NdArray (shape m) ((fun d => tmul d x) <$> data m)) n s Hsa Hs Ha)
      as (c & -> & Hsc & _ & Hframes).
    { unfold well_formed in *. cbn. by rewrite length_fmap. }
    eexists _, _, c. split_and!; [reflexivity | apply lookup_app_third | done |].
    intros k Hk. destruct (Hframes k Hk) as (ak & ck & Hak & Hck & _ & ->).
    exists ak. split; [done|]. rewrite Hck. cbn [data]. by rewrite zip_with_fmap_r.
  - intros m Hm Hwf Hs.
    rewrite (convert_to_photoelectrons_run zero spectacle tdiv root input h a Hdata), Hm.
    destruct (np_binop_frames zero tdiv a m n s Hsa Hs Ha Hwf)
      as (c & -> & Hsc & _ & Hframes).
    eexists _, _, c. split_and!; [reflexivity | apply lookup_app_second | done |].
    intros k Hk. destruct (Hframes k Hk) as (ak & ck & Hak & Hck & _ & ->).
    by exists ak.
Qed.
End Maps.

(** The statement of X5 at gain conversion of a frame of one row and two
    columns. *)
Lemma calibration_maps_pixel_by_pixel_witness :
  exists l h',
    convert_to_photoelectrons 0%Q qdiv
      (file_spectacle 0%Q qdiv 0 (fun _ => example_maps)) "iPhone_SE" 0
      [NdArray [1; 2] [600 # 1; 700 # 1]%Q] = (Ok l, h')
    /\ h' !! l = Some (NdArray [1; 2] [300 # 1; 175 # 1]%Q).
Proof.
  destruct (calibration_maps_pixel_by_pixel 0%Q qsub qmul qdiv
              (file_spectacle 0%Q qdiv 0 (fun _ => example_maps)) "iPhone_SE" 0
              [NdArray [1; 2] [600 # 1; 700 # 1]%Q]
              (NdArray [1; 2] [600 # 1; 700 # 1]%Q) eq_refl eq_refl)
    as (_ & _ & _ & Hgain).
  apply (Hgain (NdArray [1; 2] [2 # 1; 4 # 1]%Q)); reflexivity.
Defined.

(** The statement of X6 at bias correction of a stack of two frames. *)
Lemma calibration_maps_frame_by_frame_witness :
  exists l h' c,
    correct_bias 0%Q qsub
      (file_spectacle 0%Q qdiv 0 (fun _ => example_maps)) "iPhone_SE" 0
      [NdArray [2; 1; 2] [600 # 1; 700 # 1; 610 # 1; 720 # 1]%Q] = (Ok l, h')
    /\ h' !! l = Some c /\ shape c = [2; 1; 2]
    /\ getitem0 c 1 = Ok (NdArray [1; 2] [82 # 1; 190 # 1]%Q).
Proof.
  destruct (calibration_maps_frame_by_frame 0%Q qsub qmul qdiv
              (file_spectacle 0%Q qdiv 0 (fun _ => example_maps)) "iPhone_SE" 0
              [NdArray [2; 1; 2] [600 # 1; 700 # 1; 610 # 1; 720 # 1]%Q]
              (NdArray [2; 1; 2] [600 # 1; 700 # 1; 610 # 1; 720 # 1]%Q)
              2 [1; 2] eq_refl eq_refl eq_refl)
    as (Hbias & _).
  destruct (Hbias (NdArray [1; 2] [528 # 1; 530 # 1]%Q))
    as (l & h' & c & Hrun & Hl & Hs & Hframes); [reflexivity..|].
  exists l, h', c. split_and!; [done | done | done |].
  destruct (Hframes 1) as (ak & Hak & Hck); [lia|].
  injection Hak as <-. exact Hck.
Defined.

(** ** What the ISO normalisation script hands to the fit *)

Lemma list_min_le l m : list_min l = Some m -> forall x, x ∈ l -> (m <= x)%Z.
Proof.
  revert m. induction l as [|y l IH]; intros m Hm x Hx; [by apply elem_of_nil in Hx|].
  cbn in Hm. injection Hm as <-.
  destruct (list_min l) as [m'|] eqn:Hl; cbn.
  - apply elem_of_cons in Hx as [->|Hx]; [lia|].
    specialize (IH m' eq_refl x Hx). lia.
  - destruct l; [|done]. apply elem_of_cons in Hx as [->|Hx]; [lia|].
    by apply elem_of_nil in Hx.
Qed.

(** [isos.argmin()] is the first position that holds the minimum. *)
Lemma np_argmin_first isos m :
  list_min isos = Some m ->
  exists k,
    np_argmin isos = Ok k /\ isos !! k = Some m
    /\ forall j, j < k -> isos !! j <> Some m.
Proof.
  intros Hm. unfold np_argmin, np_min. rewrite Hm. cbn.
  destruct (list_find (fun x => x = m) isos) as [[k x]|] eqn:Hfind.
  - apply list_find_Some in Hfind as (Hk & -> & Hfirst). exists k. cbn.
    split_and!; [done | done |].
    intros j Hj Hjm. by apply (Hfirst j m).
  - apply list_find_None in Hfind. apply list_min_elem_of in Hm.
    rewrite Forall_forall in Hfind. by destruct (Hfind m Hm).
Qed.

Section Reduce.
Context {T : Type} (zero : T).

(** [a.<agg>(axis=(1, 2))] on a stack of [n] frames of [h] by [w]: the
    aggregate of each frame. *)
Lemma reduce_axes_1_2_frames agg (a : ndarray T) n h w :
  shape a = [n; h; w] -> well_formed a ->
  reduce_axes_1_2 zero agg a
  = Ok (NdArray [n]
          ((fun q => agg (take (h * w) (drop (q * (h * w)) (data a)))) <$> seq 0 n)).
Proof.
  unfold well_formed, reduce_axes_1_2. intros Hs Ha. rewrite Hs in *.
  rewrite !shape_size_cons in Ha. change (shape_size []) with 1 in *.
  do 2 f_equal. replace (n * 1) with n by lia.
  apply list_eq. intros i. rewrite !list_lookup_fmap.
  destruct (decide (i < n)) as [Hi|Hi]; [|rewrite lookup_seq_ge by lia; reflexivity].
  rewrite lookup_seq_lt by done. cbn -[Nat.div Nat.modulo]. do 2 f_equal.
  apply list_eq. intros j. rewrite list_lookup_fmap.
  destruct (decide (j < h * w)) as [Hj|Hj].
  - rewrite lookup_seq_lt, lookup_take_lt, lookup_drop by done.
    cbn -[Nat.div Nat.modulo].
    rewrite Nat.div_1_r, !Nat.mul_1_r, Nat.mod_1_r, Nat.add_0_r.
    destruct (lookup_lt_is_Some_2 (data a) (i * (h * w) + j)) as [x Hx]; [nia|].
    by rewrite Hx, (nth_lookup_Some _ _ _ _ Hx).
  - by rewrite lookup_seq_ge, lookup_take_ge by lia.
Qed.
End Reduce.

Lemma getitem0_Ok {T} (a : ndarray T) k ak :
  getitem0 a k = Ok ak ->
  exists d0 rest,
    shape a = d0 :: rest /\ k < d0
    /\ ak = NdArray rest (take (shape_size rest) (drop (k * shape_size rest) (data a))).
Proof.
  unfold getitem0. destruct (shape a) as [|d0 rest]; [done|].
  case_bool_decide; [|done]. intros [= <-]. by exists d0, rest.
Qed.

Section ScriptRatios.
Context {T : Type} (zero : T) (tdiv : T -> T -> T).
Context (np_mean np_std : list T -> T).
Context (fit : list Z -> ndarray T -> ndarray T -> Z -> Z
               -> result (iso_fit (T := T))).

Lemma normalise_and_fit_frames ISO_min ISO_max isos means n h w k :
  well_formed means -> shape means = [n; h; w] -> length isos = n ->
  np_argmin isos = Ok k -> k < n ->
  exists reference ratios_mean ratios_errs,
    getitem0 means k = Ok reference
    /\ shape ratios_mean = [n] /\ shape ratios_errs = [n]
    /\ (forall q frame, getitem0 means q = Ok frame ->
          data ratios_mean !! q
          = Some (np_mean (zip_with tdiv (data frame) (data reference)))
          /\ data ratios_errs !! q
             = Some (np_std (zip_with tdiv (data frame) (data reference))))
    /\ normalise_and_fit zero tdiv np_mean np_std fit ISO_min ISO_max isos means
       = (f ← fit isos ratios_mean ratios_errs ISO_min ISO_max;
          Ok {| saved_data := (isos, ratios_mean, ratios_errs);
                saved_model := (model_type f, parameters f, errors f);
                saved_lookup_table := lookup_table ISO_max (model f) |}).
Proof.
  intros Hwf Hs Hlen Hargmin Hk.
  assert (shape_size [h; w] = h * w) as Hsize
    by (rewrite !shape_size_cons; change (shape_size []) with 1; lia).
  set (reference := NdArray [h; w]
                      (take (h * w) (drop (k * (h * w)) (data means)))).
  assert (getitem0 means k = Ok reference) as Href.
  { unfold getitem0. rewrite Hs, bool_decide_eq_true_2 by done.
    by rewrite Hsize. }
  assert (well_formed reference) as Hwfr.
  { unfold well_formed in *. rewrite Hs, !shape_size_cons in Hwf.
    change (shape_size []) with 1 in Hwf. cbn [reference data shape].
    rewrite Hsize, length_take, length_drop. nia. }
  destruct (np_binop_frames zero tdiv means reference n [h; w] Hs eq_refl Hwf Hwfr)
    as (ratios & Hratios & Hsr & Hwfratios & Hframes).
  exists reference.
  exists (NdArray [n]
            ((fun q => np_mean (take (h * w) (drop (q * (h * w)) (data ratios))))
               <$> seq 0 n)).
  exists (NdArray [n]
            ((fun q => np_std (take (h * w) (drop (q * (h * w)) (data ratios))))
               <$> seq 0 n)).
  split_and!; [done | done | done | |].
  - intros q frame Hq.
    destruct (getitem0_Ok _ _ _ Hq) as (d0 & rest & Hs' & Hqn & _).
    rewrite Hs in Hs'. injection Hs' as <- <-.
    destruct (Hframes q Hqn) as (ak & ck & Hak & Hck & _ & ->).
    rewrite Hq in Hak. injection Hak as <-.
    apply getitem0_Ok in Hck as (d0 & rest & Hs' & _ & Hck).
    rewrite Hsr in Hs'. injection Hs' as <- <-. injection Hck as Hck.
    replace (h * (w * 1)) with (h * w) in Hck by lia. cbn [data].
    rewrite !list_lookup_fmap, lookup_seq_lt by done. cbn.
    by rewrite <- Hck.
  - unfold normalise_and_fit. rewrite Hargmin. cbn [mbind result_bind].
    rewrite Href. cbn [mbind result_bind]. rewrite Hratios.
    cbn [mbind result_bind].
    rewrite !(reduce_axes_1_2_frames zero _ ratios n h w Hsr Hwfratios).
    cbn [mbind result_bind].
    destruct (fit isos _ _ ISO_min ISO_max) as [f|e]; [|done].
    cbn [mbind result_bind shape]. by rewrite Hlen, bool_decide_eq_true_2.
Qed.

(** Property X7 ([calibration/iso_normalisation.py]).  With settings, a
    bias-corrected stack of [n] frames of [h] by [w] pixels, [n] ISO speeds
    and the camera's minimum ISO speed the lowest of them, the script
    reaches the fit and fails only if the fit does.  The reference frame is
    the first frame taken at the minimum ISO speed; the fit receives, and
    the script saves, for each frame the mean and the standard deviation of
    the ratios of its pixels to those of the reference frame. *)
Theorem iso_normalisation_ratios camera ISO_min ISO_max isos_of_means means
    isos stds means' n h w :
  camera_settings camera = Some (ISO_min, ISO_max) ->
  camera_correct_bias camera means = Ok means' ->
  is_Ok (np_binop zero tdiv stds means') ->
  well_formed means' -> shape means' = [n; h; w] -> length isos = n ->
  list_min isos = Some ISO_min ->
  exists k reference ratios_mean ratios_errs,
    isos !! k = Some ISO_min
    /\ (forall j, j < k -> isos !! j <> Some ISO_min)
    /\ getitem0 means' k = Ok reference
    /\ shape ratios_mean = [n] /\ shape ratios_errs = [n]
    /\ (forall q frame, getitem0 means' q = Ok frame ->
          data ratios_mean !! q
          = Some (np_mean (zip_with tdiv (data frame) (data reference)))
          /\ data ratios_errs !! q
             = Some (np_std (zip_with tdiv (data frame) (data reference))))
    /\ iso_normalisation zero tdiv np_mean np_std fit camera
         (isos_of_means, means) (isos, stds)
       = (f ← fit isos ratios_mean ratios_errs ISO_min ISO_max;
          Ok {| saved_data := (isos, ratios_mean, ratios_errs);
                saved_model := (model_type f, parameters f, errors f);
                saved_lookup_table := lookup_table ISO_max (model f) |}).
Proof.
  intros Hsettings Hbias [errs Herrs] Hwf Hs Hlen Hmin.
  destruct (np_argmin_first isos ISO_min Hmin) as (k & Hargmin & Hk & Hfirst).
  assert (k < n) as Hkn by (rewrite <- Hlen; by eapply lookup_lt_Some).
  destruct (normalise_and_fit_frames ISO_min ISO_max isos means' n h w k
              Hwf Hs Hlen Hargmin Hkn)
    as (reference & ratios_mean & ratios_errs & Href & Hsm & Hse & Hq & Hrun).
  exists k, reference, ratios_mean, ratios_errs.
  split_and!; try done.
  rewrite <- Hrun. unfold iso_normalisation, np_min.
  rewrite Hsettings. cbn. rewrite Hbias. cbn. rewrite Herrs. cbn.
  rewrite Hmin. cbn. by rewrite bool_decide_eq_true_2.
Qed.
End ScriptRatios.

(** The statement of X7 at measurements at ISO 23 and 100. *)
Lemma iso_normalisation_ratios_witness :
  camera_settings example_script_camera = Some (23, 200)%Z
  /\ camera_correct_bias example_script_camera
       (NdArray [2; 1; 2] [600 # 1; 700 # 1; 672 # 1; 958 # 1]%Q)
     = Ok (NdArray [2; 1; 2] [72 # 1; 172 # 1; 144 # 1; 430 # 1]%Q)
  /\ list_min [23; 100]%Z = Some 23%Z
  /\ forall np_mean np_std fit,
     exists ratios_mean ratios_errs,
       data ratios_mean !! 1 = Some (np_mean [2 # 1; 5 # 2]%Q)
       /\ iso_normalisation 0%Q qdiv np_mean np_std fit example_script_camera
            ([23; 100]%Z, NdArray [2; 1; 2] [600 # 1; 700 # 1; 672 # 1; 958 # 1]%Q)
            ([23; 100]%Z, NdArray [2; 1; 2] [1 # 1; 1 # 1; 1 # 1; 1 # 1]%Q)
          = (f ← fit [23; 100]%Z ratios_mean ratios_errs 23%Z 200%Z;
             Ok {| saved_data := ([23; 100]%Z, ratios_mean, ratios_errs);
                   saved_model := (model_type f, parameters f, errors f);
                   saved_lookup_table := lookup_table 200 (model f) |}).
Proof.
  split_and!; [reflexivity | reflexivity | reflexivity |].
  intros np_mean np_std fit.
  destruct (iso_normalisation_ratios 0%Q qdiv np_mean np_std fit
              example_script_camera 23 200 [23; 100]%Z
              (NdArray [2; 1; 2] [600 # 1; 700 # 1; 672 # 1; 958 # 1]%Q)
              [23; 100]%Z
              (NdArray [2; 1; 2] [1 # 1; 1 # 1; 1 # 1; 1 # 1]%Q)
              (NdArray [2; 1; 2] [72 # 1; 172 # 1; 144 # 1; 430 # 1]%Q) 2 1 2)
    as (k & reference & ratios_mean & ratios_errs & Hk & Hfirst & Href & _ & _
        & Hq & Hrun);
    [reflexivity | reflexivity | by eexists | reflexivity | reflexivity
    | reflexivity | reflexivity |].
  exists ratios_mean, ratios_errs. split; [|exact Hrun].
  assert (k = 0) as ->.
  { destruct k as [|[|k]]; [done|done|]. by rewrite lookup_ge_None_2 in Hk by (cbn; lia). }
  injection Href as <-.
  destruct (Hq 1 _ eq_refl) as [Hmean _]. exact Hmean.
Defined.

Lemma zip_with_diag {A B} (f : A -> A -> B) (l : list A) (y : B) :
  (forall x, x ∈ l -> f x x = y) -> zip_with f l l = replicate (length l) y.
Proof.
  induction l as [|x l IH]; intros Hf; [done|]. cbn.
  rewrite Hf by left. f_equal. apply IH. intros x' Hx'. apply Hf. by right.
Qed.

Section ScriptReference.
Context {T : Type} (zero : T) (tdiv : T -> T -> T).
Context (np_mean np_std : list T -> T).
Context (fit : list Z -> ndarray T -> ndarray T -> Z -> Z
               -> result (iso_fit (T := T))).

(** Property X8 ([calibration/iso_normalisation.py]).  The frame of the
    minimum ISO speed is its own reference: when [x / x] is [one] for each
    of its pixels, the ratios that the script saves for it are the mean and
    the standard deviation of [h * w] times [one]. *)
Theorem iso_normalisation_reference camera ISO_min ISO_max isos_of_means means
    isos stds means' n h w one k reference :
  camera_settings camera = Some (ISO_min, ISO_max) ->
  camera_correct_bias camera means = Ok means' ->
  is_Ok (np_binop zero tdiv stds means') ->
  well_formed means' -> shape means' = [n; h; w] -> length isos = n ->
  list_min isos = Some ISO_min ->
  np_argmin isos = Ok k ->
  getitem0 means' k = Ok reference ->
  (forall x, x ∈ data reference -> tdiv x x = one) ->
  exists ratios_mean ratios_errs,
    iso_normalisation zero tdiv np_mean np_std fit camera
      (isos_of_means, means) (isos, stds)
    = (f ← fit isos ratios_mean ratios_errs ISO_min ISO_max;
       Ok {| saved_data := (isos, ratios_mean, ratios_errs);
             saved_model := (model_type f, parameters f, errors f);
             saved_lookup_table := lookup_table ISO_max (model f) |})
    /\ isos !! k = Some ISO_min
    /\ data ratios_mean !! k = Some (np_mean (replicate (h * w) one))
    /\ data ratios_errs !! k = Some (np_std (replicate (h * w) one)).
Proof.
  intros Hsettings Hbias [errs Herrs] Hwf Hs Hlen Hmin Hargmin Href Hone.
  destruct (np_argmin_first isos ISO_min Hmin) as (k' & Hargmin' & Hk & _).
  rewrite Hargmin in Hargmin'. injection Hargmin' as <-.
  assert (k < n) as Hkn by (rewrite <- Hlen; by eapply lookup_lt_Some).
  destruct (normalise_and_fit_frames zero tdiv np_mean np_std fit
              ISO_min ISO_max isos means' n h w k Hwf Hs Hlen Hargmin Hkn)
    as (reference' & ratios_mean & ratios_errs & Href' & _ & _ & Hq & Hrun).
  rewrite Href in Href'. injection Href' as <-.
  exists ratios_mean, ratios_errs.
  assert (length (data reference) = h * w) as Hlenr.
  { apply getitem0_Ok in Href as (d0 & rest & Hs' & _ & ->).
    rewrite Hs in Hs'. injection Hs' as <- <-. cbn [data].
    unfold well_formed in Hwf. rewrite Hs, !shape_size_cons in *.
    change (shape_size []) with 1 in *. rewrite length_take, length_drop. nia. }
  destruct (Hq k reference Href) as [Hmean Hstd].
  rewrite (zip_with_diag tdiv (data reference) one Hone), Hlenr in Hmean, Hstd.
  split_and!; [|done..].
  rewrite <- Hrun. unfold iso_normalisation, np_min.
  rewrite Hsettings. cbn. rewrite Hbias. cbn. rewrite Herrs. cbn.
  rewrite Hmin. cbn. by rewrite bool_decide_eq_true_2.
Qed.

(** Property X9 ([calibration/iso_normalisation.py]).  With more ISO
    speeds than frames the frame of the lowest ISO speed may not exist,
    which is an [IndexError]; with a stack of fewer than three axes the mean
    over the axes 1 and 2 raises [AxisError].  In both cases the fit is not
    reached. *)
Theorem normalise_and_fit_shape_errors ISO_min ISO_max isos means k n s :
  np_argmin isos = Ok k -> shape means = n :: s ->
  (n <= k ->
   normalise_and_fit zero tdiv np_mean np_std fit ISO_min ISO_max isos means
   = Raise IndexError)
  /\ (k < n -> length s < 2 ->
      normalise_and_fit zero tdiv np_mean np_std fit ISO_min ISO_max isos means
      = Raise AxisError).
Proof.
  intros Hargmin Hs. unfold normalise_and_fit. rewrite Hargmin.
  cbn [mbind result_bind]. unfold getitem0. rewrite Hs. split.
  - intros Hk. by rewrite bool_decide_eq_false_2 by lia.
  - intros Hk Hlen. rewrite bool_decide_eq_true_2 by done.
    cbn [mbind result_bind]. unfold np_binop. cbn [shape]. rewrite Hs.
    rewrite broadcast_shapes_frames. cbn [mbind result_bind].
    unfold reduce_axes_1_2. cbn [shape].
    destruct s as [|h [|w s]]; [done | done | cbn in Hlen; lia].
Qed.
End ScriptReference.

(** The statement of X8 at measurements at ISO 23 and 100. *)
Lemma iso_normalisation_reference_witness :
  getitem0 (NdArray [2; 1; 2] [72 # 1; 172 # 1; 144 # 1; 430 # 1]%Q) 0
  = Ok (NdArray [1; 2] [72 # 1; 172 # 1]%Q)
  /\ forall np_mean np_std fit,
     exists ratios_mean ratios_errs,
       iso_normalisation 0%Q qdiv np_mean np_std fit example_script_camera
         ([23; 100]%Z, NdArray [2; 1; 2] [600 # 1; 700 # 1; 672 # 1; 958 # 1]%Q)
         ([23; 100]%Z, NdArray [2; 1; 2] [1 # 1; 1 # 1; 1 # 1; 1 # 1]%Q)
       = (f ← fit [23; 100]%Z ratios_mean ratios_errs 23%Z 200%Z;
          Ok {| saved_data := ([23; 100]%Z, ratios_mean, ratios_errs);
                saved_model := (model_type f, parameters f, errors f);
                saved_lookup_table := lookup_table 200 (model f) |})
       /\ data ratios_mean !! 0 = Some (np_mean [1 # 1; 1 # 1]%Q).
Proof.
  split; [reflexivity|].
  intros np_mean np_std fit.
  destruct (iso_normalisation_reference 0%Q qdiv np_mean np_std fit
              example_script_camera 23 200 [23; 100]%Z
              (NdArray [2; 1; 2] [600 # 1; 700 # 1; 672 # 1; 958 # 1]%Q)
              [23; 100]%Z
              (NdArray [2; 1; 2] [1 # 1; 1 # 1; 1 # 1; 1 # 1]%Q)
              (NdArray [2; 1; 2] [72 # 1; 172 # 1; 144 # 1; 430 # 1]%Q)
              2 1 2 (1 # 1)%Q 0 (NdArray [1; 2] [72 # 1; 172 # 1]%Q))
    as (ratios_mean & ratios_errs & Hrun & _ & Hmean & _);
    [reflexivity | reflexivity | by eexists | reflexivity | reflexivity
    | reflexivity | reflexivity | reflexivity | reflexivity | |].
  { intros x Hx. cbn [data] in Hx. rewrite !elem_of_cons in Hx.
    destruct Hx as [->|[->|Hx]]; [reflexivity | reflexivity |].
    by apply elem_of_nil in Hx. }
  by exists ratios_mean, ratios_errs.
Defined.

(** The statement of X9 at a stack of two axes. *)
Lemma normalise_and_fit_shape_errors_witness :
  np_argmin [23; 100]%Z = Ok 0
  /\ forall np_mean np_std fit,
       normalise_and_fit 0%Q qdiv np_mean np_std fit 23 200 [23; 100]%Z
         (NdArray [2; 3] [72 # 1; 172 # 1; 144 # 1; 430 # 1; 1; 1]%Q)
       = Raise AxisError.
Proof.
  split; [reflexivity|].
  intros np_mean np_std fit.
  apply (proj2 (normalise_and_fit_shape_errors 0%Q qdiv np_mean np_std fit
                  23 200 [23; 100]%Z
                  (NdArray [2; 3] [72 # 1; 172 # 1; 144 # 1; 430 # 1; 1; 1]%Q)
                  0 2 [3] eq_refl eq_refl)); cbn; lia.
Defined.

(** ** The file names of the flat-field script *)

Lemma append_nil_l s : "" +:+ s = s.
Proof. done. Qed.

Lemma append_cons c s t : String c s +:+ t = String c (s +:+ t).
Proof. done. Qed.

Lemma prefix_nil s : String.prefix "" s = true.
Proof. by destruct s. Qed.

Ltac prefix_cases :=
  rewrite ?append_cons, ?append_nil_l in *; cbn -[ascii_dec] in *;
  repeat match goal with
         | |- context [ascii_dec ?a ?b] =>
             destruct (ascii_dec a b); try done; subst; cbn -[ascii_dec] in *
         | H : context [ascii_dec ?a ?b] |- _ =>
             destruct (ascii_dec a b); try done; subst; cbn -[ascii_dec] in *
         end;
  rewrite ?prefix_nil in *; try done.

Lemma prefix_mean_app X :
  String.prefix "mean" X = false ->
  String.prefix "mean" (X +:+ "_mean.npy") = false.
Proof.
  intros H. destruct X as [|c1 [|c2 [|c3 [|c4 X]]]]; prefix_cases.
Qed.

Lemma prefix_app p X s :
  String.prefix p X = true -> String.prefix p (X +:+ s) = true.
Proof.
  revert X. induction p as [|c p IH]; intros X; [by rewrite !prefix_nil|].
  destruct X as [|c' X]; [done|]. rewrite append_cons. cbn -[ascii_dec].
  destruct (ascii_dec c c'); [apply IH | done].
Qed.

Lemma prefix_String c p c' s :
  String.prefix (String c p) (String c' s) = true -> c' = c.
Proof. cbn -[ascii_dec]. by destruct (ascii_dec c c'). Qed.

Lemma append_nil_r s : s +:+ "" = s.
Proof. induction s as [|c s IH]; [done|]. by rewrite append_cons, IH. Qed.

Lemma append_assoc s t u : (s +:+ t) +:+ u = s +:+ (t +:+ u).
Proof. induction s as [|c s IH]; [done|]. by rewrite !append_cons, IH. Qed.

Lemma length_append s t :
  String.length (s +:+ t) = String.length s + String.length t.
Proof. induction s as [|c s IH]; [done|]. rewrite append_cons. cbn. by rewrite IH. Qed.

Lemma str_contains_cons sub c s :
  str_contains sub (String c s)
  = String.prefix sub (String c s) || str_contains sub s.
Proof. done. Qed.

Lemma replace_from_cons old new c s :
  replace_from old new 0 (String c s)
  = if String.prefix old (String c s)
    then new +:+ replace_from old new (String.length old - 1) s
    else String c (replace_from old new 0 s).
Proof. done. Qed.

Lemma split_from_cons sep piece c s :
  split_from sep 0 piece (String c s)
  = if String.prefix sep (String c s)
    then piece :: split_from sep (String.length sep - 1) "" s
    else split_from sep 0 (piece +:+ String c "") s.
Proof. done. Qed.

Lemma replace_from_mean_keep X :
  str_contains "mean" X = false ->
  replace_from "mean" "stds" 0 (X +:+ "_mean.npy") = X +:+ "_stds.npy".
Proof.
  induction X as [|c X IH]; [done|].
  rewrite str_contains_cons. intros [Hprefix Hrest]%orb_false_elim.
  apply prefix_mean_app in Hprefix. rewrite !append_cons in *.
  by rewrite replace_from_cons, Hprefix, IH.
Qed.

Lemma replace_from_mean_differs X s s' :
  str_contains "mean" X = true ->
  replace_from "mean" "stds" 0 (X +:+ s) <> X +:+ s'.
Proof.
  induction X as [|c X IH]; [done|].
  rewrite str_contains_cons, !append_cons, replace_from_cons. intros Hc.
  destruct (String.prefix "mean" (String c (X +:+ s))) eqn:Hprefix.
  - apply prefix_String in Hprefix as ->. done.
  - intros [= Heq]. apply IH; [|done].
    apply orb_true_iff in Hc as [Hc|Hc]; [|done].
    apply (prefix_app _ _ s) in Hc. rewrite append_cons in Hc. congruence.
Qed.

(** Property X10 ([calibration/flatfield.py]).  The file of standard
    deviations of [X_mean.npy] is looked up as [X_stds.npy] exactly when [X]
    does not contain [mean]: the replacement is made at every match, not
    only at the end of the name. *)
Theorem stdsfile_name_documented X :
  stdsfile_name (X +:+ "_mean.npy") = X +:+ "_stds.npy"
  <-> str_contains "mean" X = false.
Proof.
  unfold stdsfile_name, str_replace. split.
  - intros Heq. destruct (str_contains "mean" X) eqn:Hc; [|done].
    by destruct (replace_from_mean_differs X "_mean.npy" "_stds.npy" Hc).
  - apply replace_from_mean_keep.
Qed.

Lemma str_rfind_app c X s i :
  str_rfind c s = Some i -> str_rfind c (X +:+ s) = Some (String.length X + i).
Proof.
  intros Hs. induction X as [|c' X IH]; [done|].
  rewrite append_cons. cbn. by rewrite IH.
Qed.

Lemma substring_app X s n :
  String.substring 0 (String.length X + n) (X +:+ s)
  = X +:+ String.substring 0 n s.
Proof.
  induction X as [|c X IH]; [done|]. rewrite !append_cons. cbn. by rewrite IH.
Qed.

Lemma stem_mean_npy X : stem (X +:+ "_mean.npy") = X +:+ "_mean".
Proof.
  unfold stem. rewrite (str_rfind_app _ X "_mean.npy" 5) by done.
  rewrite length_append, bool_decide_eq_true_2 by (cbn; lia).
  by rewrite substring_app.
Qed.

Lemma prefix_umean_app c X :
  String.prefix "_mean" (String c X) = false ->
  String.prefix "_mean" (String c X +:+ "_mean") = false.
Proof.
  intros H. destruct X as [|c2 [|c3 [|c4 [|c5 X]]]]; prefix_cases.
Qed.

Lemma split_from_umean_keep X piece :
  str_contains "_mean" X = false ->
  split_from "_mean" 0 piece (X +:+ "_mean") = [piece +:+ X; ""].
Proof.
  revert piece. induction X as [|c X IH]; intros piece.
  { intros _. by rewrite append_nil_r. }
  rewrite str_contains_cons. intros [Hprefix Hrest]%orb_false_elim.
  apply prefix_umean_app in Hprefix. rewrite !append_cons in *.
  rewrite split_from_cons, Hprefix, IH by done.
  by rewrite append_assoc.
Qed.

Lemma split_from_umean_short X piece s :
  str_contains "_mean" X = true ->
  exists a rest,
    split_from "_mean" 0 piece (X +:+ s) = (piece +:+ a) :: rest
    /\ String.length a < String.length X.
Proof.
  revert piece. induction X as [|c X IH]; intros piece; [done|].
  rewrite str_contains_cons, !append_cons, split_from_cons. intros Hc.
  destruct (String.prefix "_mean" (String c (X +:+ s))) eqn:Hprefix.
  - exists "", (split_from "_mean" (String.length "_mean" - 1) "" (X +:+ s)).
    rewrite append_nil_r. split; [done | cbn; lia].
  - destruct (IH (piece +:+ String c "")) as (a & rest & Hsplit & Hlen).
    { apply orb_true_iff in Hc as [Hc|Hc]; [|done].
      apply (prefix_app _ _ s) in Hc. rewrite append_cons in Hc. congruence. }
    exists (String c a), rest. rewrite Hsplit, append_assoc.
    split; [done | cbn; lia].
Qed.

(** Property X11 ([calibration/flatfield.py]).  The label of [X_mean.npy]
    is [X] exactly when [X] does not contain [_mean]; the label is always
    found, and is never longer than [X]: the name is cut at the first
    match. *)
Theorem label_documented X :
  (label (X +:+ "_mean.npy") = Ok X <-> str_contains "_mean" X = false)
  /\ exists l,
       label (X +:+ "_mean.npy") = Ok l /\ String.length l <= String.length X.
Proof.
  unfold label, str_split. rewrite stem_mean_npy. cbn [mbind result_bind].
  destruct (str_contains "_mean" X) eqn:Hc.
  - destruct (split_from_umean_short X "" "_mean" Hc) as (a & rest & -> & Hlen).
    rewrite append_nil_l. cbn. split.
    + split; [|done]. intros [= ->]. lia.
    + exists a. split; [done | lia].
  - rewrite (split_from_umean_keep X "" Hc), append_nil_l. cbn. split; [done|].
    by exists X.
Qed.

(** ** The signal-to-noise ratio of [mono.py] *)

Section MonoProperties.
Context {T : Type} (zero : T) (tdiv : T -> T -> T) (tlt : T -> T -> bool).

(** Property X12 ([mono.py]).  The standard deviations below the threshold
    are overwritten in the array [s] itself, after which no divisor of
    [m / s] is zero; the means are left as they were, and the ratio is a new
    array that holds [m / s] pixel by pixel, for the overwritten [s]. *)
Theorem mono_SNR_divisors threshold minus_one m s (h : heap (T := T)) means stds :
  h !! m = Some means -> h !! s = Some stds -> m <> s ->
  well_formed means -> well_formed stds -> shape stds = shape means ->
  tlt zero threshold = true -> minus_one <> zero ->
  exists masked h',
    mono_SNR zero tdiv tlt threshold minus_one m s h = (Ok (length h), h')
    /\ h' !! s = Some masked /\ h' !! m = Some means
    /\ shape masked = shape stds
    /\ (forall i v, data stds !! i = Some v ->
          data masked !! i = Some (if tlt v threshold then minus_one else v))
    /\ Forall (fun v => v <> zero) (data masked)
    /\ h' !! length h
       = Some (NdArray (shape means) (zip_with tdiv (data means) (data masked))).
Proof.
  intros Hm Hs Hne Hwfm Hwfs Hshape Hzero Hminus.
  set (masked := NdArray (shape stds)
                   ((fun v => if tlt v threshold then minus_one else v)
                      <$> data stds)).
  assert (well_formed masked) as Hwfk
    by (unfold well_formed in *; cbn; by rewrite length_fmap).
  exists masked, (<[s := masked]> h
                  ++ [NdArray (shape means) (zip_with tdiv (data means) (data masked))]).
  assert (<[s := masked]> h !! s = Some masked) as Hs'
    by (apply list_lookup_insert_eq; by eapply lookup_lt_Some).
  assert (<[s := masked]> h !! m = Some means) as Hm'
    by (transitivity (h !! m); [apply list_lookup_insert_ne; congruence | done]).
  assert (length (<[s := masked]> h) = length h) as Hlen
    by apply length_insert.
  split_and!.
  - unfold mono_SNR, setitem_less, mbind, Py_bind. rewrite Hs. fold masked.
    rewrite (array_op_Ref_Ref zero tdiv _ m s means masked Hm' Hs').
    rewrite np_binop_same_shape by done.
    unfold mret, Py_ret. by rewrite Hlen.
  - by apply lookup_app_l_Some.
  - by apply lookup_app_l_Some.
  - done.
  - intros i v Hv. cbn. by rewrite list_lookup_fmap, Hv.
  - apply Forall_forall. intros v (x & -> & _)%list_elem_of_fmap.
    destruct (tlt x threshold) eqn:Hx; [done|]. congruence.
  - rewrite <- Hlen. apply list_lookup_middle. done.
Qed.
End MonoProperties.

(** The statement of X12 at two pixels, one with a standard deviation of
    zero. *)
Lemma mono_SNR_divisors_witness :
  exists h',
    mono_SNR 0%Q qdiv qlt (1 # 1000)%Q (-1 # 1)%Q 0 1
      [NdArray [2] [10 # 1; 20 # 1]%Q; NdArray [2] [2 # 1; 0]%Q]
    = (Ok 2, h')
    /\ h' !! 1 = Some (NdArray [2] [2 # 1; -1 # 1]%Q)
    /\ h' !! 2 = Some (NdArray [2] [5 # 1; -20 # 1]%Q).
Proof.
  destruct (mono_SNR_divisors 0%Q qdiv qlt (1 # 1000)%Q (-1 # 1)%Q 0 1
              [NdArray [2] [10 # 1; 20 # 1]%Q; NdArray [2] [2 # 1; 0]%Q]
              (NdArray [2] [10 # 1; 20 # 1]%Q) (NdArray [2] [2 # 1; 0]%Q))
    as (masked & h' & Hrun & Hs & _ & _ & Hmask & _ & Hsnr);
    [reflexivity | reflexivity | lia | reflexivity | reflexivity | reflexivity
    | reflexivity | discriminate |].
  exists h'. split; [exact Hrun|].
  vm_compute in Hrun. injection Hrun as <-. split; reflexivity.
Defined.

(** ** Selections by slices *)

Lemma take_1_drop {A} (l : list A) i x :
  l !! i = Some x -> take 1 (drop i l) = [x].
Proof.
  intros Hi. rewrite <- (take_drop_middle l i x Hi).
  rewrite drop_app_length'; [done|].
  rewrite length_take. apply lookup_lt_Some in Hi. lia.
Qed.

Lemma slice_indices_block n d :
  slice_indices (block (Z.of_nat n `div` 2) (Z.of_nat d)) n
  = if decide (d <= n / 2)
    then seq (n / 2 - d) (Nat.min (2 * d + 1) (n - (n / 2 - d)))
    else seq (n + n / 2 - d) (n - (n + n / 2 - d)).
Proof.
  unfold slice_indices, block, slice_bound; cbn [slice_start slice_stop from_option].
  assert ((Z.of_nat n `div` 2)%Z = Z.of_nat (n / 2)) as -> by lia.
  rewrite (bool_decide_eq_false_2 (_ + _ + 1 < 0)%Z) by lia.
  case_decide.
  - rewrite bool_decide_eq_false_2 by lia. f_equal; lia.
  - rewrite bool_decide_eq_true_2 by lia. f_equal; lia.
Qed.

Lemma slice_indices_center n :
  slice_indices (Slice (Some (Z.of_nat n `div` 2)%Z)
                       (Some (Z.of_nat n `div` 2 + 2)%Z)) n
  = seq (n / 2) (Nat.min 2 (n - n / 2)).
Proof.
  unfold slice_indices, slice_bound; cbn [slice_start slice_stop from_option].
  assert ((Z.of_nat n `div` 2)%Z = Z.of_nat (n / 2)) as -> by lia.
  rewrite !bool_decide_eq_false_2 by lia. f_equal; lia.
Qed.

Lemma select_pixel {A} (l : list A) w r c x :
  c < w -> l !! (r * w + c) = Some x ->
  take (shape_size []) (drop (c * shape_size [])
    (take (shape_size [w]) (drop (r * shape_size [w]) l))) = [x].
Proof.
  intros Hc Hx. rewrite shape_size_cons. change (shape_size []) with 1.
  rewrite !Nat.mul_1_r. apply take_1_drop.
  by rewrite lookup_take_lt, lookup_drop by done.
Qed.

Lemma item2_lookup {A} (a : ndarray A) h w r c :
  shape a = [h; w] -> r < h -> c < w -> item2 a r c = data a !! (r * w + c).
Proof.
  intros Hs Hr Hc. unfold item2. rewrite Hs.
  by rewrite bool_decide_eq_true_2.
Qed.

(** The selection [colours[center]] on an array of [h] rows and [w]
    columns. *)
Lemma getitem_slices_center {A} (colours : ndarray A) h w :
  shape colours = [h; w] -> well_formed colours ->
  exists selection,
    getitem_slices colours (center (Z.of_nat h, Z.of_nat w)) = Ok selection
    /\ shape selection = [Nat.min 2 (h - h / 2); Nat.min 2 (w - w / 2)]
    /\ (3 <= h -> 3 <= w ->
        Some <$> data selection
        = [item2 colours (h / 2) (w / 2); item2 colours (h / 2) (w / 2 + 1);
           item2 colours (h / 2 + 1) (w / 2);
           item2 colours (h / 2 + 1) (w / 2 + 1)]).
Proof.
  intros Hs Hwf. unfold well_formed in Hwf. rewrite Hs in Hwf.
  rewrite !shape_size_cons in Hwf. change (shape_size []) with 1 in Hwf.
  unfold getitem_slices, center. rewrite Hs. cbn [length fst snd].
  rewrite bool_decide_eq_true_2 by lia.
  eexists. split; [reflexivity|]. cbn [shape data zip_with].
  rewrite !slice_indices_center. split.
  { cbn. by rewrite !length_seq. }
  intros Hh Hw.
  replace (Nat.min 2 (h - h / 2)) with 2 by lia.
  replace (Nat.min 2 (w - w / 2)) with 2 by lia.
  cbn [seq select mbind list_bind foldr app].
  pose proof (Nat.div_mod_eq h 2). pose proof (Nat.div_mod_eq w 2).
  destruct (lookup_lt_is_Some_2 (data colours) (h / 2 * w + w / 2)) as [x00 H00]; [nia|].
  destruct (lookup_lt_is_Some_2 (data colours) (h / 2 * w + S (w / 2))) as [x01 H01]; [nia|].
  destruct (lookup_lt_is_Some_2 (data colours) (S (h / 2) * w + w / 2)) as [x10 H10]; [nia|].
  destruct (lookup_lt_is_Some_2 (data colours) (S (h / 2) * w + S (w / 2))) as [x11 H11]; [nia|].
  rewrite (select_pixel _ w _ _ x00), (select_pixel _ w _ _ x01),
    (select_pixel _ w _ _ x10), (select_pixel _ w _ _ x11) by (done || lia).
  rewrite !(item2_lookup colours h w) by (done || lia).
  replace (h / 2 + 1) with (S (h / 2)) by lia.
  replace (w / 2 + 1) with (S (w / 2)) by lia.
  by rewrite H00, H01, H10, H11.
Qed.

(** Property X13 ([linearity_plot_time_jpg.py]).  The selection in the
    centre has two rows and two columns on a sensor of at least three rows
    and three columns, where it holds the pixels at the rows [h // 2],
    [h // 2 + 1] and the columns [w // 2], [w // 2 + 1]; on a sensor of one
    or two rows it has one row only, and likewise for the columns. *)
Theorem colours_here_centre {A} (colours : ndarray A) h w :
  shape colours = [h; w] -> well_formed colours ->
  exists selection,
    getitem_slices colours (center (Z.of_nat h, Z.of_nat w)) = Ok selection
    /\ colours_here (Z.of_nat h, Z.of_nat w) colours = Ok (data selection)
    /\ shape selection = [Nat.min 2 (h - h / 2); Nat.min 2 (w - w / 2)]
    /\ (3 <= h -> 3 <= w ->
        Some <$> data selection
        = [item2 colours (h / 2) (w / 2); item2 colours (h / 2) (w / 2 + 1);
           item2 colours (h / 2 + 1) (w / 2);
           item2 colours (h / 2 + 1) (w / 2 + 1)]).
Proof.
  intros Hs Hwf.
  destruct (getitem_slices_center colours h w Hs Hwf)
    as (selection & Hsel & Hshape & Hdata).
  exists selection. split_and!; [done | | done | done].
  unfold colours_here. by rewrite Hsel.
Qed.

(** The statement of X13 at a sensor of two rows and three columns. *)
Lemma colours_here_centre_witness :
  exists selection,
    getitem_slices (NdArray [2; 3] [0; 1; 0; 3; 2; 3]%Z) (center (2, 3)%Z)
    = Ok selection
    /\ shape selection = [1; 2]
    /\ colours_here (2, 3)%Z (NdArray [2; 3] [0; 1; 0; 3; 2; 3]%Z) = Ok [2; 3]%Z.
Proof.
  destruct (colours_here_centre (NdArray [2; 3] [0; 1; 0; 3; 2; 3]%Z) 2 3)
    as (selection & Hsel & Hhere & Hshape & _); [reflexivity..|].
  exists selection. split; [exact Hsel|]. split; [exact Hshape|].
  vm_compute in Hsel. injection Hsel as <-. reflexivity.
Defined.

Lemma pattern_at_centre_Permutation p00 p01 p10 p11 r c :
  [pattern_at p00 p01 p10 p11 r c; pattern_at p00 p01 p10 p11 r (c + 1);
   pattern_at p00 p01 p10 p11 (r + 1) c;
   pattern_at p00 p01 p10 p11 (r + 1) (c + 1)]
  ≡ₚ [p00; p01; p10; p11].
Proof.
  unfold pattern_at.
  destruct (decide (r mod 2 = 0)) as [Hr|Hr], (decide (c mod 2 = 0)) as [Hc|Hc].
  - rewrite !(bool_decide_eq_true_2 (r mod 2 = 0)),
      !(bool_decide_eq_true_2 (c mod 2 = 0)),
      !(bool_decide_eq_false_2 ((r + 1) mod 2 = 0)),
      !(bool_decide_eq_false_2 ((c + 1) mod 2 = 0)) by lia.
    done.
  - rewrite !(bool_decide_eq_true_2 (r mod 2 = 0)),
      !(bool_decide_eq_false_2 (c mod 2 = 0)),
      !(bool_decide_eq_false_2 ((r + 1) mod 2 = 0)),
      !(bool_decide_eq_true_2 ((c + 1) mod 2 = 0)) by lia.
    by rewrite (Permutation_swap p01 p00), (Permutation_swap p11 p10).
  - rewrite !(bool_decide_eq_false_2 (r mod 2 = 0)),
      !(bool_decide_eq_true_2 (c mod 2 = 0)),
      !(bool_decide_eq_true_2 ((r + 1) mod 2 = 0)),
      !(bool_decide_eq_false_2 ((c + 1) mod 2 = 0)) by lia.
    change [p10; p11; p00; p01] with ([p10; p11] ++ [p00; p01]).
    by rewrite (comm (++)).
  - rewrite !(bool_decide_eq_false_2 (r mod 2 = 0)),
      !(bool_decide_eq_false_2 (c mod 2 = 0)),
      !(bool_decide_eq_true_2 ((r + 1) mod 2 = 0)),
      !(bool_decide_eq_true_2 ((c + 1) mod 2 = 0)) by lia.
    change [p11; p10; p01; p00] with (reverse [p00; p01; p10; p11]).
    by rewrite reverse_Permutation.
Qed.

(** Property X14 ([linearity_plot_time_jpg.py],
    [Camera.generate_bayer_map]).  On the Bayer map of a sensor of at least
    three rows and three columns the selection in the centre holds each of
    the four pattern values once. *)
Theorem colours_here_bayer_map h w p00 p01 p10 p11 ext b depth :
  3 <= h -> 3 <= w -> Forall int64 [p00; p01; p10; p11] ->
  exists bm cs,
    generate_bayer_map (bayer_image h w p00 p01 p10 p11 ext b depth) = Ok bm
    /\ colours_here (Z.of_nat h, Z.of_nat w) bm = Ok cs
    /\ cs ≡ₚ [p00; p01; p10; p11].
Proof.
  intros Hh Hw Hint.
  rewrite !Forall_cons in Hint. destruct Hint as (H00 & H01 & H10 & H11 & _).
  exists (tiled h w p00 p01 p10 p11).
  destruct (getitem_slices_center (tiled h w p00 p01 p10 p11) h w)
    as (selection & Hsel & _ & Hdata); [done | |].
  { unfold well_formed, tiled; cbn [data shape].
    rewrite length_fmap, length_seq, !shape_size_cons.
    change (shape_size []) with 1. lia. }
  exists (data selection). split_and!.
  - by apply generate_bayer_map_2d.
  - unfold colours_here. by rewrite Hsel.
  - specialize (Hdata Hh Hw).
    pose proof (Nat.div_mod_eq h 2). pose proof (Nat.div_mod_eq w 2).
    rewrite !item2_tiled in Hdata by lia.
    change [Some ?a; Some ?b; Some ?c; Some ?d] with (Some <$> [a; b; c; d]) in Hdata.
    apply (inj (fmap Some)) in Hdata. rewrite Hdata.
    apply pattern_at_centre_Permutation.
Qed.

(** The statement of X14 at a sensor of 4 by 6 pixels. *)
Lemma colours_here_bayer_map_witness :
  exists bm cs,
    generate_bayer_map (bayer_image 4 6 0 1 3 2 (VStr ".dng") (VInt 528) (VInt 12))
    = Ok bm
    /\ colours_here (4, 6)%Z bm = Ok cs
    /\ cs ≡ₚ [0; 1; 3; 2]%Z.
Proof.
  apply (colours_here_bayer_map 4 6 0 1 3 2 (VStr ".dng") (VInt 528) (VInt 12));
    [lia | lia | repeat constructor; unfold int64; lia].
Defined.

(** Property X15 ([load_spectrum] of
    [monochromator_combined_spectrum.py]).  Along an axis of length [n] the
    block is the window of [2 d + 1] indices centred on [n // 2] when it
    fits.  When [d] is larger than [n // 2] the lower bound is negative and
    counts from the end of the axis: for [n // 2 < d < n] the block is the
    last [d - n // 2] indices, without the centre. *)
Theorem load_spectrum_sub_block {A} (mean_RGBG : ndarray A) c hx hy blocksize :
  shape mean_RGBG = [c; hx; hy] -> (0 <= blocksize)%Z ->
  let d := Z.to_nat (blocksize `div` 2) in
  let window n :=
    if decide (d <= n / 2)
    then seq (n / 2 - d) (Nat.min (2 * d + 1) (n - (n / 2 - d)))
    else seq (n + n / 2 - d) (n - (n + n / 2 - d)) in
  exists sub,
    load_spectrum_sub mean_RGBG blocksize = Ok sub
    /\ shape sub = [c; length (window hx); length (window hy)]
    /\ data sub
       = select [seq 0 c; window hx; window hy] [c; hx; hy] (data mean_RGBG)
    /\ (forall n, 2 * d + 1 <= n -> window n = seq (n / 2 - d) (2 * d + 1))
    /\ (forall n, n / 2 < d < n ->
          window n = seq (n + n / 2 - d) (d - n / 2) /\ n / 2 ∉ window n).
Proof.
  intros Hs Hblock d window.
  unfold load_spectrum_sub, getitem_slices. rewrite Hs. cbn [tail length].
  rewrite bool_decide_eq_true_2 by lia.
  assert ((blocksize `div` 2)%Z = Z.of_nat d) as -> by lia.
  eexists. split; [reflexivity|]. cbn [shape data zip_with].
  rewrite !slice_indices_block. fold (window hx). fold (window hy).
  assert (slice_indices (Slice None None) c = seq 0 c) as ->
    by (unfold slice_indices; cbn; f_equal; lia).
  split_and!.
  - cbn. by rewrite length_seq.
  - done.
  - intros n Hn. unfold window. rewrite decide_True by lia. f_equal. lia.
  - intros n Hn. unfold window. rewrite decide_False by lia. split.
    + f_equal. lia.
    + rewrite elem_of_seq. lia.
Qed.

(** The statement of X15 at five rows and a block size of 6: the block is
    the last row. *)
Lemma load_spectrum_sub_block_witness :
  shape (NdArray [1; 5; 1] [10; 11; 12; 13; 14]%Z) = [1; 5; 1]
  /\ exists sub,
       load_spectrum_sub (NdArray [1; 5; 1] [10; 11; 12; 13; 14]%Z) 6 = Ok sub
       /\ shape sub = [1; 1; 1] /\ data sub = [14%Z].
Proof.
  split; [reflexivity|].
  destruct (load_spectrum_sub_block (NdArray [1; 5; 1] [10; 11; 12; 13; 14]%Z)
              1 5 1 6 eq_refl)
    as (sub & Hsub & Hshape & Hdata & _); [lia|].
  exists sub. split; [exact Hsub|]. split; [exact Hshape | exact Hdata].
Defined.

(** The slices of one axis. *)
Lemma select_axis {A} (l : list A) lo k :
  lo + k <= length l ->
  seq lo k ≫= (fun r => take (shape_size []) (drop (r * shape_size []) l))
  = take k (drop lo l).
Proof.
  change (shape_size []) with 1. revert lo. induction k as [|k IH]; intros lo Hlo.
  { by rewrite take_0. }
  cbn [seq mbind list_bind foldr]. fold (mbind (M := list) (A := nat) (B := A)).
  rewrite Nat.mul_1_r.
  destruct (lookup_lt_is_Some_2 l lo) as [x Hx]; [lia|].
  rewrite (take_1_drop l lo x Hx).
  change (foldr _ _ (seq (S lo) k)) with
    (seq (S lo) k ≫= (fun r => take 1 (drop (r * 1) l))).
  rewrite IH by lia.
  rewrite (drop_S l x lo Hx). done.
Qed.

Lemma getitem_slices_filter {A} (values : ndarray A) L n j :
  shape values = [L] -> well_formed values ->
  exists k,
    getitem_slices values
      [Slice (Some (Z.of_nat n * Z.of_nat j)%Z)
             (Some (Z.of_nat n * (Z.of_nat j + 1))%Z)]
    = Ok (NdArray [k] (take n (drop (n * j) (data values))))
    /\ ((j + 1) * n <= L -> k = n).
Proof.
  intros Hs Hwf. unfold well_formed in Hwf. rewrite Hs, shape_size_cons in Hwf.
  change (shape_size []) with 1 in Hwf.
  unfold getitem_slices. rewrite Hs. cbn [length].
  rewrite bool_decide_eq_true_2 by lia.
  eexists. split.
  - cbn [zip_with fmap list_fmap drop app shape data select].
    unfold slice_indices, slice_bound; cbn [slice_start slice_stop from_option].
    rewrite !bool_decide_eq_false_2 by lia.
    assert (Z.to_nat (Z.min (Z.of_nat n * Z.of_nat j) (Z.of_nat L))
            = Nat.min (n * j) L) as -> by lia.
    assert (Z.to_nat (Z.min (Z.of_nat n * (Z.of_nat j + 1)) (Z.of_nat L))
            = Nat.min (n * (j + 1)) L) as -> by lia.
    rewrite length_seq, select_axis by lia.
    do 2 f_equal.
    destruct (decide (n * j <= L)).
    + rewrite (Nat.min_l (n * j)) by done.
      destruct (decide (n * (j + 1) <= L)).
      * f_equal. lia.
      * rewrite !take_ge; [done | rewrite length_drop; lia | rewrite length_drop; lia].
    + rewrite !drop_ge by lia. by rewrite !take_nil.
  - intros Hj. lia.
Qed.

Lemma mapM_filters {A} (values : ndarray A) L n j0 m :
  shape values = [L] -> well_formed values ->
  exists pieces,
    mapM (fun ind => getitem_slices values [ind])
      ((fun j => Slice (Some (Z.of_nat n * Z.of_nat j)%Z)
                       (Some (Z.of_nat n * (Z.of_nat j + 1))%Z)) <$> seq j0 m)
    = Ok pieces
    /\ length pieces = m
    /\ concat (data <$> pieces) = take (m * n) (drop (n * j0) (data values))
    /\ (forall j piece, pieces !! j = Some piece ->
          data piece = take n (drop (n * (j0 + j)) (data values)))
    /\ ((j0 + m) * n <= L -> Forall (fun piece => shape piece = [n]) pieces).
Proof.
  intros Hs Hwf. revert j0. induction m as [|m IH]; intros j0.
  { exists []. split_and!; [done | done | by rewrite take_0 | done | done]. }
  destruct (getitem_slices_filter values L n j0 Hs Hwf) as (k & Hpiece & Hk).
  destruct (IH (S j0)) as (pieces & Hpieces & Hlen & Hconcat & Hlookup & Hshape).
  eexists (_ :: pieces). split_and!.
  - cbn [seq fmap list_fmap mapM]. rewrite Hpiece. cbn [mbind result_bind].
    cbn [seq fmap list_fmap] in Hpieces. rewrite Hpieces. done.
  - cbn. by rewrite Hlen.
  - cbn [fmap list_fmap concat data]. rewrite Hconcat.
    replace (n * S j0) with (n * j0 + n) by lia.
    rewrite <- drop_drop.
    replace (S m * n) with (n + m * n) by lia.
    by rewrite take_take_drop.
  - intros [|j] piece Hj.
    + injection Hj as <-. cbn. by rewrite Nat.add_0_r.
    + cbn in Hj. rewrite (Hlookup j piece Hj). do 3 f_equal. lia.
  - intros Hm. apply Forall_cons. split; [cbn; f_equal; apply Hk; lia|].
    apply Hshape. lia.
Qed.

(** Property X16 ([cast_back_to_RGBG2] of
    [analysis/spectral_response_monochromator_single_spectrum.py]).  The
    slices [R], [G], [B], [G2], or the first of them, cut a vector of values
    into consecutive pieces, piece [j] holding the values from position
    [n * j] on, at most [n] of them; together the pieces are the first
    values of the vector, and no slice raises when the vector is short. *)
Theorem cast_back_to_RGBG2_pieces {A} (values : ndarray A) L n m :
  shape values = [L] -> well_formed values -> m <= 4 ->
  exists pieces,
    cast_back_to_RGBG2 values (take m (RGBG2 n)) = Ok pieces
    /\ length pieces = m
    /\ concat (data <$> pieces) = take (m * n) (data values)
    /\ (forall j piece, pieces !! j = Some piece ->
          data piece = take n (drop (n * j) (data values)))
    /\ (m * n <= L -> Forall (fun piece => shape piece = [n]) pieces).
Proof.
  intros Hs Hwf Hm. unfold cast_back_to_RGBG2, RGBG2.
  rewrite <- fmap_take, take_seq, Nat.min_l by done.
  destruct (mapM_filters values L n 0 m Hs Hwf)
    as (pieces & Hpieces & Hlen & Hconcat & Hlookup & Hshape).
  exists pieces. split_and!; [done | done | | done | done].
  by rewrite Hconcat, Nat.mul_0_r.
Qed.

(** The statement of X16 at two wavelengths. *)
Lemma cast_back_to_RGBG2_pieces_witness :
  exists pieces,
    cast_back_to_RGBG2 (NdArray [8] [1; 2; 3; 4; 5; 6; 7; 8]%Z) (RGBG2 2) = Ok pieces
    /\ concat (data <$> pieces) = [1; 2; 3; 4; 5; 6; 7; 8]%Z
    /\ Forall (fun piece => shape piece = [2]) pieces.
Proof.
  destruct (cast_back_to_RGBG2_pieces (NdArray [8] [1; 2; 3; 4; 5; 6; 7; 8]%Z) 8 2 4)
    as (pieces & Hpieces & _ & Hconcat & _ & Hshape);
    [reflexivity | reflexivity | lia |].
  exists pieces. split; [exact Hpieces|]. split; [exact Hconcat|].
  apply Hshape. lia.
Defined.

(** ** The rows of the flattened means *)

Lemma length_bind_seq {A} (f : nat -> list A) P s m :
  (forall x, s <= x < s + m -> length (f x) = P) ->
  length (seq s m ≫= f) = m * P.
Proof.
  revert s. induction m as [|m IH]; intros s Hf; [done|].
  cbn [seq]. rewrite bind_cons, length_app, Hf, IH by (intros; apply Hf || idtac; lia).
  lia.
Qed.

Lemma take_drop_bind_seq {A} (f : nat -> list A) P s m i :
  (forall x, s <= x < s + m -> length (f x) = P) -> i < m ->
  take P (drop (i * P) (seq s m ≫= f)) = f (s + i).
Proof.
  revert s i. induction m as [|m IH]; intros s i Hf Hi; [lia|].
  cbn [seq]. rewrite bind_cons.
  destruct i as [|i].
  - rewrite Nat.mul_0_l, drop_0, Nat.add_0_r.
    rewrite take_app_length' by (symmetry; apply Hf; lia). done.
  - replace (S i * P) with (P + i * P) by lia.
    rewrite drop_app_add' by (symmetry; apply Hf; lia).
    rewrite IH by (intros; apply Hf || idtac; lia).
    f_equal. lia.
Qed.

Lemma take_drop_take {A} (l : list A) P k n :
  k < n -> take P (drop (k * P) (take (n * P) l)) = take P (drop (k * P) l).
Proof.
  intros Hk. apply list_eq. intros i. destruct (decide (i < P)) as [Hi|Hi].
  - by rewrite !lookup_take_lt, !lookup_drop, lookup_take_lt by nia.
  - by rewrite !lookup_take_ge by lia.
Qed.

Lemma take_drop_bind_seq2 {A} (f : nat -> nat -> list A) P n m j k :
  (forall j k, j < m -> k < n -> length (f j k) = P) -> j < m -> k < n ->
  take P (drop ((n * j + k) * P) (seq 0 m ≫= fun j => seq 0 n ≫= f j)) = f j k.
Proof.
  intros Hf Hj Hk.
  assert (forall j, 0 <= j < 0 + m -> length (seq 0 n ≫= f j) = n * P) as Hrow.
  { intros j' Hj'. apply length_bind_seq. intros k' Hk'. apply Hf; lia. }
  replace ((n * j + k) * P) with (j * (n * P) + k * P) by lia.
  rewrite <- drop_drop, <- (take_drop_take _ P k n) by done.
  rewrite (take_drop_bind_seq _ (n * P) 0 m j Hrow Hj).
  rewrite (take_drop_bind_seq _ P 0 n k)
    by first [exact Hk | intros; apply Hf; lia].
  done.
Qed.

(** Property X17 ([analysis/spectral_response_monochromator_single_spectrum.py]).
    For means of [n] wavelengths, 4 filters and pixels of shape [s], the
    flattened array has [4 n] rows; row [n j + k] holds the pixels of filter
    [j] at wavelength [k], so that the rows [n j] to [n (j + 1)], which the
    slices [R], [G], [B], [G2] select, are those of filter [j] at the [n]
    wavelengths in order. *)
Theorem means_flattened_rows {A} (means_RGBG2 : ndarray A) n s :
  shape means_RGBG2 = n :: 4 :: s -> well_formed means_RGBG2 -> 0 < n ->
  exists flattened,
    means_flattened means_RGBG2 n = Ok flattened
    /\ shape flattened = [4 * n; shape_size s]
    /\ well_formed flattened
    /\ forall j k, j < 4 -> k < n ->
         exists pixels,
           (at_wavelength ← getitem0 means_RGBG2 k; getitem0 at_wavelength j)
           = Ok (NdArray s pixels)
           /\ getitem0 flattened (n * j + k)
              = Ok (NdArray [shape_size s] pixels).
Proof.
  intros Hs Hwf Hn. unfold well_formed in Hwf. rewrite Hs in Hwf.
  rewrite !shape_size_cons in Hwf. set (P := shape_size s) in *.
  assert (shape_size [P] = P) as HP
    by (rewrite shape_size_cons; change (shape_size []) with 1; lia).
  unfold means_flattened, np_reshape_rest. rewrite Hs.
  rewrite !shape_size_cons. change (shape_size []) with 1. fold P.
  assert (n * (4 * P) = P * (n * (4 * 1))) as Hsize by lia.
  rewrite bool_decide_eq_true_2
    by (split; [lia | rewrite Hsize; apply Nat.Div0.mod_mul]).
  rewrite Hsize, Nat.div_mul by lia.
  cbn [mbind result_bind]. unfold np_swapaxes_0_1. cbn [shape data app].
  set (block := fun j k =>
         take (shape_size [P])
              (drop ((k * 4 + j) * shape_size [P]) (data means_RGBG2))).
  assert (forall j k,
            block j k = take P (drop ((k * 4 + j) * P) (data means_RGBG2)))
    as Hblock_eq by (intros j k; unfold block; by rewrite HP).
  change (seq 0 4 ≫= _) with (seq 0 4 ≫= fun j => seq 0 n ≫= block j).
  cbn [mbind result_bind shape data]. rewrite !shape_size_cons.
  change (shape_size []) with 1.
  assert (4 * (n * (P * 1)) = P * (4 * n * 1)) as Hsize' by lia.
  rewrite bool_decide_eq_true_2
    by (split; [lia | rewrite Hsize'; apply Nat.Div0.mod_mul]).
  rewrite Hsize', Nat.div_mul by lia.
  assert (forall j k, j < 4 -> k < n -> length (block j k) = P) as Hblock.
  { intros j k Hj Hk. rewrite Hblock_eq, length_take, length_drop. nia. }
  assert (forall j, j < 4 -> length (seq 0 n ≫= block j) = n * P) as Hfilter.
  { intros j Hj. apply length_bind_seq. intros k Hk. apply Hblock; lia. }
  eexists. split; [reflexivity|]. cbn [shape data app]. split_and!.
  - done.
  - unfold well_formed. cbn [shape data].
    rewrite (length_bind_seq _ (n * P)) by (intros j Hj; apply Hfilter; lia).
    rewrite !shape_size_cons. change (shape_size []) with 1. lia.
  - intros j k Hj Hk.
    exists (take P (drop ((k * 4 + j) * P) (data means_RGBG2))). split.
    + unfold getitem0. rewrite Hs, bool_decide_eq_true_2 by done.
      cbn [mbind result_bind shape data].
      rewrite bool_decide_eq_true_2 by done.
      rewrite !shape_size_cons. fold P. do 2 f_equal.
      apply list_eq. intros i. destruct (decide (i < P)) as [Hi|Hi].
      * rewrite !lookup_take_lt, !lookup_drop, lookup_take_lt, lookup_drop by nia.
        f_equal. lia.
      * by rewrite !lookup_take_ge by lia.
    + unfold getitem0. cbn [shape data].
      rewrite bool_decide_eq_true_2 by nia. rewrite HP. do 2 f_equal.
      rewrite (take_drop_bind_seq2 block P n 4 j k Hblock Hj Hk).
      apply Hblock_eq.
Qed.

(** The statement of X17 at two wavelengths and one pixel: the values of
    each filter come to lie side by side. *)
Lemma means_flattened_rows_witness :
  exists flattened,
    means_flattened (NdArray [2; 4; 1] [10; 11; 12; 13; 20; 21; 22; 23]%Z) 2
    = Ok flattened
    /\ shape flattened = [8; 1]
    /\ data flattened = [10; 20; 11; 21; 12; 22; 13; 23]%Z.
Proof.
  destruct (means_flattened_rows
              (NdArray [2; 4; 1] [10; 11; 12; 13; 20; 21; 22; 23]%Z) 2 [1])
    as (flattened & Hflattened & Hshape & _); [reflexivity | reflexivity | lia |].
  exists flattened. split; [exact Hflattened|]. split; [exact Hshape|].
  vm_compute in Hflattened. by injection Hflattened as <-.
Defined.

(** ** The mean of the two green filters *)

Lemma np_binop_scalar_l {A} (dflt : A) f y (a : ndarray A) :
  well_formed a ->
  np_binop dflt f (scalar y) a = Ok (NdArray (shape a) (f y <$> data a)).
Proof.
  unfold well_formed, np_binop, scalar; cbn [shape data]. intros Ha.
  assert (broadcast_shapes [] (shape a) = Some (shape a)) as ->.
  { unfold broadcast_shapes. rewrite reverse_nil. cbn.
    by rewrite reverse_involutive. }
  do 2 f_equal. apply list_eq. intros i. rewrite !list_lookup_fmap.
  destruct (decide (i < shape_size (shape a))) as [Hi|Hi].
  - rewrite lookup_seq_lt by done. cbn.
    rewrite source_index_same by by rewrite shape_size_reverse.
    change (reverse []) with (@nil nat). rewrite source_index_scalar.
    destruct (lookup_lt_is_Some_2 (data a) i) as [x Hx]; [lia|].
    rewrite Hx. cbn. by rewrite (nth_lookup_Some _ _ _ _ Hx).
  - rewrite lookup_seq_ge by lia. cbn.
    by rewrite (lookup_ge_None_2 (data a)) by lia.
Qed.

Lemma slice_indices_filter n j d :
  n * (j + 1) <= d -> slice_indices (filter_slice n j) d = seq (n * j) n.
Proof.
  intros Hd.
  unfold slice_indices, filter_slice, slice_bound;
    cbn [slice_start slice_stop from_option].
  rewrite !bool_decide_eq_false_2 by lia. f_equal; lia.
Qed.

Lemma position_row_column r c j :
  j < c -> (r * c + j) / c = r /\ (r * c + j) mod c = j.
Proof.
  intros Hj. split.
  - rewrite Nat.div_add_l, Nat.div_small by lia. lia.
  - rewrite Nat.add_comm, Nat.Div0.mod_add. by apply Nat.mod_small.
Qed.

Section Blocks.
Context {T : Type} (zero one : T).
Implicit Types M v : ndarray T.

Lemma squeeze_leading_square n : squeeze_leading [n; n] 2 = [n; n].
Proof. by destruct n as [|[|n]]. Qed.

Lemma setitem_slices2_block M v r c n j1 j2 :
  shape M = [r; c] -> shape v = [n; n] ->
  n * (j1 + 1) <= r -> n * (j2 + 1) <= c ->
  setitem_slices2 zero M (filter_slice n j1) (filter_slice n j2) v
  = Ok (NdArray [r; c]
          (imap (fun p x =>
                   if bool_decide (n * j1 <= p / c < n * j1 + n
                                   /\ n * j2 <= p mod c < n * j2 + n)
                   then nth ((p / c - n * j1) * n + (p mod c - n * j2))
                          (data v) zero
                   else x)
             (data M))).
Proof.
  intros HM Hv Hr Hc. unfold setitem_slices2. rewrite HM, Hv.
  rewrite !slice_indices_filter by done. rewrite !length_seq.
  cbn [length]. rewrite squeeze_leading_square.
  rewrite broadcast_shapes_same, bool_decide_eq_true_2 by done.
  do 2 f_equal. apply imap_ext. intros p x _.
  change (shape_size []) with 1.
  rewrite !Nat.mul_1_r, Nat.div_1_r, Nat.mod_1_r, Nat.add_0_r.
  destruct (decide (n * j1 <= p / c < n * j1 + n
                    /\ n * j2 <= p mod c < n * j2 + n)) as [Hin|Hout].
  - rewrite !bool_decide_eq_true_2; [|done|by rewrite !elem_of_seq].
    assert (forall a, hd 0 (seq a n) = a) as Hhd by (destruct n; [lia|done]).
    rewrite !Hhd, source_index_same; [done|].
    rewrite shape_size_reverse, !shape_size_cons.
    change (shape_size []) with 1. nia.
  - rewrite !bool_decide_eq_false_2; [done|done|by rewrite !elem_of_seq].
Qed.

Lemma np_eye_lookup n i j :
  i < n -> j < n ->
  data (np_eye zero one n) !! (i * n + j)
  = Some (if bool_decide (i = j) then one else zero).
Proof.
  intros Hi Hj. cbn [np_eye data].
  rewrite list_lookup_fmap, lookup_seq_lt by nia. cbn.
  by destruct (position_row_column i n j Hj) as [-> ->].
Qed.

Lemma nth_fmap_np_eye (f : T -> T) n q i j :
  q = i * n + j -> i < n -> j < n ->
  nth q (f <$> data (np_eye zero one n)) zero
  = f (if bool_decide (i = j) then one else zero).
Proof.
  intros -> Hi Hj. apply nth_lookup_Some.
  by rewrite list_lookup_fmap, np_eye_lookup.
Qed.

Lemma nth_np_eye n q i j :
  q = i * n + j -> i < n -> j < n ->
  nth q (data (np_eye zero one n)) zero
  = if bool_decide (i = j) then one else zero.
Proof. intros -> Hi Hj. apply nth_lookup_Some. by apply np_eye_lookup. Qed.

Lemma np_eye_well_formed n : well_formed (np_eye zero one n).
Proof.
  unfold well_formed. cbn [np_eye data shape].
  rewrite length_fmap, length_seq, !shape_size_cons.
  change (shape_size []) with 1. lia.
Qed.
End Blocks.

Section GreenMeanFacts.
Context {T : Type} (zero one half : T) (tadd tmul : T -> T -> T).
Hypothesis tadd_zero_l : forall x, tadd zero x = x.
Hypothesis tadd_zero_r : forall x, tadd x zero = x.
Hypothesis tmul_zero_l : forall x, tmul zero x = zero.
Hypothesis tmul_zero_r : forall x, tmul x zero = zero.
Hypothesis tmul_one_l : forall x, tmul one x = x.
Hypothesis tmul_one_r : forall x, tmul x one = x.

(** The matrix: the identity on the rows of R and B, a half at G and at G2
    on the rows of G. *)
Lemma M_G_G2_entries n :
  exists M,
    M_G_G2 zero one half tmul n = Ok M
    /\ shape M = [n * 3; n * 4]
    /\ length (data M) = n * 3 * (n * 4)
    /\ forall r j, r < n * 3 -> j < n * 4 ->
         data M !! (r * (n * 4) + j)
         = Some (if bool_decide (n <= r < 2 * n)
                 then if bool_decide (j = r \/ j = r + 2 * n) then half else zero
                 else if bool_decide (j = r) then one else zero).
Proof using tmul_zero_r tmul_one_r.
  unfold M_G_G2.
  rewrite (setitem_slices2_block zero _ _ (n * 3) (n * 4) n 0 0)
    by (done || lia).
  cbn [mbind result_bind].
  rewrite (setitem_slices2_block zero _ _ (n * 3) (n * 4) n 2 2)
    by (done || lia).
  cbn [mbind result_bind].
  rewrite (np_binop_scalar_l zero tmul half) by apply np_eye_well_formed.
  cbn [mbind result_bind].
  rewrite (setitem_slices2_block zero _ _ (n * 3) (n * 4) n 1 1)
    by (done || lia).
  cbn [mbind result_bind].
  rewrite (setitem_slices2_block zero _ _ (n * 3) (n * 4) n 1 3)
    by (done || lia).
  cbn [mbind result_bind].
  eexists. split; [reflexivity|]. split; [done|]. cbn [data shape np_full].
  split.
  { rewrite !length_imap, length_replicate, !shape_size_cons.
    change (shape_size []) with 1. lia. }
  intros r j Hr Hj. rewrite !list_lookup_imap.
  rewrite lookup_replicate_2
    by (rewrite !shape_size_cons; change (shape_size []) with 1; nia).
  cbn [fmap option_fmap option_map].
  destruct (position_row_column r (n * 4) j Hj) as [-> ->]. f_equal.
  repeat case_bool_decide; try lia; try done.
  all: match goal with
       | |- nth (?i * ?m + ?j') (_ <$> _) _ = _ =>
           rewrite (nth_fmap_np_eye zero one (tmul half) m _ i j' eq_refl)
             by lia
       | |- nth (?i * ?m + ?j') _ _ = _ =>
           rewrite (nth_np_eye zero one m _ i j' eq_refl) by lia
       end.
  all: case_bool_decide; try lia; auto.
Qed.

Lemma dot_zeros l v z :
  Forall (eq zero) l -> foldr tadd z (zip_with tmul l v) = z.
Proof using tadd_zero_l tmul_zero_l.
  intros Hl. revert v. induction Hl as [|x l <- _ IH]; intros [|y v]; try done.
  cbn. by rewrite tmul_zero_l, tadd_zero_l, IH.
Qed.

Lemma dot_split l v k u x :
  l !! k = Some u -> v !! k = Some x ->
  (forall i y, i < k -> l !! i = Some y -> y = zero) ->
  foldr tadd zero (zip_with tmul l v)
  = tadd (tmul u x)
      (foldr tadd zero (zip_with tmul (drop (S k) l) (drop (S k) v))).
Proof using tadd_zero_l tmul_zero_l.
  intros Hl Hv Hz.
  rewrite <- (take_drop_middle l k u Hl) at 1.
  rewrite <- (take_drop_middle v k x Hv) at 1.
  apply lookup_lt_Some in Hl, Hv.
  rewrite zip_with_app by (rewrite !length_take; lia).
  rewrite foldr_app. cbn [zip_with foldr]. apply dot_zeros.
  apply Forall_lookup. intros i y Hy.
  pose proof (lookup_lt_Some _ _ _ Hy) as Hi. rewrite length_take in Hi.
  rewrite lookup_take_lt in Hy by lia. symmetry. apply (Hz i); [lia | done].
Qed.

Lemma dot_one_term l v k u x :
  l !! k = Some u -> v !! k = Some x ->
  (forall i y, i <> k -> l !! i = Some y -> y = zero) ->
  foldr tadd zero (zip_with tmul l v) = tmul u x.
Proof using tadd_zero_l tadd_zero_r tmul_zero_l.
  intros Hl Hv Hz. rewrite (dot_split l v k u x Hl Hv).
  - rewrite dot_zeros; [apply tadd_zero_r|].
    apply Forall_lookup. intros i y Hy. rewrite lookup_drop in Hy.
    symmetry. apply (Hz (S k + i)); [lia | done].
  - intros i y Hi. apply Hz. lia.
Qed.

Lemma dot_two_terms l v k1 k2 u1 u2 x1 x2 :
  k1 < k2 ->
  l !! k1 = Some u1 -> v !! k1 = Some x1 ->
  l !! k2 = Some u2 -> v !! k2 = Some x2 ->
  (forall i y, i <> k1 -> i <> k2 -> l !! i = Some y -> y = zero) ->
  foldr tadd zero (zip_with tmul l v) = tadd (tmul u1 x1) (tmul u2 x2).
Proof using tadd_zero_l tadd_zero_r tmul_zero_l.
  intros Hk Hl1 Hv1 Hl2 Hv2 Hz. rewrite (dot_split l v k1 u1 x1 Hl1 Hv1).
  - f_equal. apply (dot_one_term _ _ (k2 - S k1)).
    + rewrite lookup_drop. by replace (S k1 + (k2 - S k1)) with k2 by lia.
    + rewrite lookup_drop. by replace (S k1 + (k2 - S k1)) with k2 by lia.
    + intros i y Hi Hy. rewrite lookup_drop in Hy.
      apply (Hz (S k1 + i)); [lia | lia | done].
  - intros i y Hi. apply Hz; lia.
Qed.

(** Property X18 ([spectral_response_monochromator_single_spectrum.py]).
    For [n] wavelengths and a response of [4 * n] values, in an arithmetic
    where 0 and 1 are neutral for the sum and the product and 0 absorbs the
    product, [M_G_G2 @ srf] has [3 * n] values: those of R and of B are
    kept, and the value of G at a wavelength is half of the one of G plus
    half of the one of G2; the values of G2 are no row of their own. *)
Theorem srf_G_mean_of_greens n srf :
  length srf = n * 4 ->
  exists out,
    srf_G zero one half tadd tmul n srf = Ok (NdArray [n * 3] out)
    /\ length out = n * 3
    /\ forall k, k < n ->
         out !! k = srf !! k
         /\ out !! (n + k)
            = (g ← srf !! (n + k); g2 ← srf !! (n * 3 + k);
               Some (tadd (tmul half g) (tmul half g2)))
         /\ out !! (n * 2 + k) = srf !! (n * 2 + k).
Proof using tadd_zero_l tadd_zero_r tmul_zero_l tmul_zero_r tmul_one_l tmul_one_r.
  intros Hsrf. unfold srf_G.
  destruct (M_G_G2_entries n) as (M & -> & Hs & Hlen & Hentry).
  cbn [mbind result_bind]. unfold matmul_vector. rewrite Hs.
  change (reverse [n * 3; n * 4]) with [n * 4; n * 3]. cbn beta iota.
  rewrite bool_decide_eq_true_2 by done.
  change (reverse [n * 3]) with [n * 3].
  rewrite shape_size_cons. change (shape_size []) with 1. rewrite Nat.mul_1_r.
  eexists. split; [reflexivity|]. split; [by rewrite length_fmap, length_seq|].
  assert (forall r j, r < n * 3 -> j < n * 4 ->
            take (n * 4) (drop (r * (n * 4)) (data M)) !! j
            = Some (if bool_decide (n <= r < 2 * n)
                    then if bool_decide (j = r \/ j = r + 2 * n)
                         then half else zero
                    else if bool_decide (j = r) then one else zero))
    as Hrow.
  { intros r j Hr Hj. rewrite lookup_take_lt, lookup_drop by done.
    by apply Hentry. }
  assert (forall r j y, r < n * 3 ->
            take (n * 4) (drop (r * (n * 4)) (data M)) !! j = Some y ->
            j < n * 4) as Hbound.
  { intros r j y Hr Hy. apply lookup_lt_Some in Hy.
    rewrite length_take in Hy. lia. }
  intros k Hk.
  destruct (lookup_lt_is_Some_2 srf k) as [x Hx]; [lia|].
  destruct (lookup_lt_is_Some_2 srf (n + k)) as [g Hg]; [lia|].
  destruct (lookup_lt_is_Some_2 srf (n * 2 + k)) as [b Hb]; [lia|].
  destruct (lookup_lt_is_Some_2 srf (n * 3 + k)) as [g2 Hg2]; [lia|].
  rewrite !list_lookup_fmap, !lookup_seq_lt by lia.
  rewrite Hx, Hg, Hb, Hg2. cbn [fmap option_fmap option_map mbind option_bind].
  rewrite !Nat.add_0_l. split; [|split]; f_equal.
  - rewrite (dot_one_term _ _ k one x); [apply tmul_one_l| |done|].
    + rewrite Hrow by lia.
      by rewrite bool_decide_eq_false_2, bool_decide_eq_true_2 by lia.
    + intros i y Hi Hy. pose proof (Hbound k _ _ ltac:(lia) Hy).
      rewrite Hrow in Hy by lia.
      rewrite !bool_decide_eq_false_2 in Hy by lia. congruence.
  - rewrite (dot_two_terms _ _ (n + k) (n * 3 + k) half half g g2);
      [done|lia| |done| |done|].
    + rewrite Hrow by lia. by rewrite !bool_decide_eq_true_2 by lia.
    + rewrite Hrow by lia. by rewrite !bool_decide_eq_true_2 by lia.
    + intros i y Hi1 Hi2 Hy. pose proof (Hbound (n + k) _ _ ltac:(lia) Hy).
      rewrite Hrow in Hy by lia.
      rewrite bool_decide_eq_true_2, bool_decide_eq_false_2 in Hy by lia.
      congruence.
  - rewrite (dot_one_term _ _ (n * 2 + k) one b); [apply tmul_one_l| |done|].
    + rewrite Hrow by lia.
      by rewrite bool_decide_eq_false_2, bool_decide_eq_true_2 by lia.
    + intros i y Hi Hy. pose proof (Hbound (n * 2 + k) _ _ ltac:(lia) Hy).
      rewrite Hrow in Hy by lia.
      rewrite !bool_decide_eq_false_2 in Hy by lia. congruence.
Qed.
End GreenMeanFacts.

(** The statement of X18 at one wavelength, on rationals in lowest terms:
    the values 1, 2, 3, 4 of R, G, B, G2 give 1, 3, 3. *)
Lemma srf_G_mean_of_greens_witness :
  length [Q2Qc (1 # 1); Q2Qc (2 # 1); Q2Qc (3 # 1); Q2Qc (4 # 1)] = 1 * 4
  /\ exists out,
       srf_G 0%Qc 1%Qc (Q2Qc (1 # 2)) Qcplus Qcmult 1
         [Q2Qc (1 # 1); Q2Qc (2 # 1); Q2Qc (3 # 1); Q2Qc (4 # 1)]
       = Ok (NdArray [1 * 3] out)
       /\ length out = 3
       /\ out !! 0 = Some (Q2Qc (1 # 1))
       /\ out !! 1 = Some (Q2Qc (3 # 1))
       /\ out !! 2 = Some (Q2Qc (3 # 1)).
Proof.
  split; [reflexivity|].
  destruct (srf_G_mean_of_greens 0%Qc 1%Qc (Q2Qc (1 # 2)) Qcplus Qcmult
              Qcplus_0_l Qcplus_0_r Qcmult_0_l Qcmult_0_r Qcmult_1_l
              Qcmult_1_r 1 [Q2Qc (1 # 1); Q2Qc (2 # 1); Q2Qc (3 # 1); Q2Qc (4 # 1)]
              eq_refl)
    as (out & Hrun & Hlen & Hk).
  destruct (Hk 0) as (HR & HG & HB); [lia|].
  exists out. split; [exact Hrun|]. split; [exact Hlen|].
  split; [exact HR|]. split; [|exact HB].
  refine (eq_trans HG _). cbn [lookup list_lookup Nat.add Nat.mul mbind option_bind].
  reflexivity.
Defined.
